(** * CineBrain: a shallow embedding of the recommendation pipeline

    The Python sources under [cinebrain/] are embedded as Rocq functions:
    - [Py]: the fragments of Python the code relies on (strings as sequences
      of code points, [str.strip], [re.sub(r"\s+", " ", _)], exceptions);
    - [Lib], [Genai]: the libraries and the embedding service the code calls;
    - [Features]: [models/features.py];
    - [Embeddings]: [models/embeddings.py];
    - [VectorIndex]: [models/vector_index.py];
    - [Recommend]: [models/recommend.py];
    - [App]: [app/streamlit_app.py];
    - [EmbeddingsMain]: the batch run of [models/embeddings.py];
    - [Json], [Requests]: JSON values and the movie service;
    - [FetchTmdb]: [etl/fetch_tmdb.py].

    Files are a map from paths to contents, the two hosted services are
    functions from the number of earlier calls and the request to a reply,
    and an exception is a result.  Printing, logging, [time.sleep] and the
    caching of the loaded index have no influence on the values that are
    returned and are left out. *)

From Stdlib Require Import String Ascii DecimalString.
From Stdlib Require Import List ZArith NArith QArith Qround Bool Lia.
Import ListNotations.

(* ================================================================== *)
(** ** Python values and exceptions                                    *)
(* ================================================================== *)

Module Py.

(** A Python [str] is a sequence of Unicode code points; [len] counts
    code points. *)
Definition char := N.
Definition pystr := list char.

(** An ASCII literal of the source. *)
Definition lit (s : string) : pystr :=
  map N_of_ascii (list_ascii_of_string s).

Definition space : char := 32%N.

(** [str.isspace] on one code point, which is also what [\s] matches in
    a [str] pattern (both are CPython's [Py_UNICODE_ISSPACE]). *)
Definition isspace (c : char) : bool :=
  (((9 <=? c) && (c <=? 13)) || ((28 <=? c) && (c <=? 32))
   || (c =? 133) || (c =? 160) || (c =? 5760)
   || ((8192 <=? c) && (c <=? 8202))
   || (c =? 8232) || (c =? 8233) || (c =? 8239) || (c =? 8287)
   || (c =? 12288))%N.

Fixpoint lstrip (s : pystr) : pystr :=
  match s with
  | [] => []
  | c :: s' => if isspace c then lstrip s' else s
  end.

Fixpoint rstrip (s : pystr) : pystr :=
  match s with
  | [] => []
  | c :: s' =>
      match rstrip s' with
      | [] => if isspace c then [] else [c]
      | t => c :: t
      end
  end.

(** [s.strip()] *)
Definition strip (s : pystr) : pystr := rstrip (lstrip s).

(** [re.sub(r"\s+", " ", s)]: every maximal run of whitespace becomes one
    space.  [in_run] tells that the previous character belonged to the
    run being replaced. *)
Fixpoint sub_ws (in_run : bool) (s : pystr) : pystr :=
  match s with
  | [] => []
  | c :: s' =>
      if isspace c
      then (if in_run then sub_ws true s' else space :: sub_ws true s')
      else c :: sub_ws false s'
  end.

Definition re_sub_ws (s : pystr) : pystr := sub_ws false s.

(** Whitespace occurs in [s] only as single spaces; [after_ws] tells that
    the character before [s] was whitespace. *)
Fixpoint squeezed (after_ws : bool) (s : pystr) : bool :=
  match s with
  | [] => true
  | c :: s' =>
      if isspace c
      then negb after_ws && (c =? space)%N && squeezed true s'
      else squeezed false s'
  end.

(** [sep.join(parts)] *)
Fixpoint join (sep : pystr) (parts : list pystr) : pystr :=
  match parts with
  | [] => []
  | [p] => p
  | p :: ps => p ++ sep ++ join sep ps
  end.

(** [str(n)] for an [int]. *)
Definition str_of_int (z : Z) : pystr :=
  lit (NilZero.string_of_int (Z.to_int z)).

(** Exceptions deriving from [Exception], with the class and the cause. *)
Inductive exn_class :=
| FileNotFoundError | ValueError | TypeError | AttributeError | KeyError
| IndexError | AssertionError | OverflowError | RuntimeError.

Record exn := Exn { cls : exn_class; msg : string }.

(** The result of running a piece of code: a value, an exception that
    [except Exception] can catch, or Streamlit's [st.stop()], which
    derives from [BaseException] and passes through such handlers. *)
Inductive Outcome (A : Type) :=
| Ok (a : A)
| Raise (e : exn)
| Stop.
Arguments Ok {A} a.
Arguments Raise {A} e.
Arguments Stop {A}.

Definition bind {A B} (m : Outcome A) (k : A -> Outcome B) : Outcome B :=
  match m with
  | Ok a => k a
  | Raise e => Raise e
  | Stop => Stop
  end.

(** [try: body  except Exception as e: handler e] *)
Definition try_except {A} (body : Outcome A) (handler : exn -> Outcome A)
  : Outcome A :=
  match body with
  | Raise e => handler e
  | o => o
  end.

Definition raise {A} (c : exn_class) (m : string) : Outcome A :=
  Raise (Exn c m).

(** A value of a table cell or of a JSON field. *)
Inductive cell :=
| CNone                 (* None *)
| CNaN                  (* float('nan'), pandas' missing value *)
| CInt (z : Z)
| CReal (q : Q)         (* a finite float *)
| CInf (negative : bool)   (* float('inf'), float('-inf') *)
| CStr (s : pystr).

End Py.

Import Py.

Notation "x <- m ;; k" := (Py.bind m (fun x => k))
  (at level 61, m at next level, right associativity).

(* ================================================================== *)
(** ** models/features.py                                              *)
(* ================================================================== *)

Module Features.

(** [clean_text(text)] *)
Definition clean_text (text : cell) : pystr :=
  match text with
  | CStr s => re_sub_ws (strip s)
  | _ => []
  end.

(** A row of the [movies] table written by the fetcher; it always has
    these eleven columns. *)
Record RawMovie := {
  id : cell;
  title : cell;
  release_date : cell;
  popularity : cell;
  poster_path : cell;
  vote_average : cell;
  runtime : cell;
  overview : cell;
  genres : cell;
  cast : cell;
  director : cell
}.

(** The five text columns after [df[col].apply(clean_text)]. *)
Record TextCols := {
  t_title : pystr;
  t_overview : pystr;
  t_genres : pystr;
  t_cast : pystr;
  t_director : pystr
}.

(** A row of [movies_features.parquet]. *)
Record FeatureRow := {
  f_id : cell;
  f_text : TextCols;
  f_year : option pystr;
  f_release_date : cell;
  f_popularity : cell;
  f_vote_average : cell;
  f_runtime : cell;
  f_poster_path : cell;
  text_blob : pystr
}.

(** Truth value of a [str]. *)
Definition truthy (s : pystr) : bool :=
  match s with [] => false | _ => true end.

(** [build_text_blob(row)] on a row whose text columns were cleaned. *)
Definition build_text_blob (row : TextCols) : pystr :=
  let parts := [] in
  let parts := if truthy (t_title row)
               then parts ++ [lit "Title: " ++ t_title row ++ lit "."]
               else parts in
  let parts := if truthy (t_overview row)
               then parts ++ [t_overview row]
               else parts in
  let parts := if truthy (t_genres row)
               then parts ++ [lit "Genres: " ++ t_genres row ++ lit "."]
               else parts in
  let parts := if truthy (t_cast row)
               then parts ++ [lit "Top Cast: " ++ t_cast row ++ lit "."]
               else parts in
  let parts := if truthy (t_director row)
               then parts ++ [lit "Directed by " ++ t_director row ++ lit "."]
               else parts in
  join (lit " ") parts.

(** The cleaning loop of [main] over the five text columns. *)
Definition clean_cols (m : RawMovie) : TextCols :=
  {| t_title := clean_text (title m);
     t_overview := clean_text (overview m);
     t_genres := clean_text (genres m);
     t_cast := clean_text (cast m);
     t_director := clean_text (director m) |}.

(** [df["release_date"].fillna("").apply(lambda x: x[:4] if
    isinstance(x, str) and len(x) >= 4 else None)] *)
Definition year_of (d : cell) : option pystr :=
  match d with
  | CStr x => if (4 <=? length x)%nat then Some (firstn 4 x) else None
  | _ => None
  end.

(** One row after cleaning, with [year] and [text_blob] added. *)
Definition derive (m : RawMovie) : FeatureRow :=
  let t := clean_cols m in
  {| f_id := id m;
     f_text := t;
     f_year := year_of (release_date m);
     f_release_date := release_date m;
     f_popularity := popularity m;
     f_vote_average := vote_average m;
     f_runtime := runtime m;
     f_poster_path := poster_path m;
     text_blob := build_text_blob t |}.

(** [df[df["text_blob"].str.len() > 30]] *)
Definition informative (r : FeatureRow) : bool :=
  (30 <? length (text_blob r))%nat.

(** [main()]: [db] is the content of the [movies] table of
    [movies.duckdb], [None] when the file does not exist; the result is
    the table saved as [movies_features.parquet].  On a table without
    rows [df.apply(build_text_blob, axis=1)] gives a frame, not a column,
    and assigning it to [df["text_blob"]] raises. *)
Definition main (db : option (list RawMovie)) : Outcome (list FeatureRow) :=
  match db with
  | None => raise FileNotFoundError "movies.duckdb not found. Run fetch_tmdb.py first."
  | Some df =>
      match df with
      | [] => raise ValueError
                "Cannot set a DataFrame with multiple columns to the single column text_blob"
      | _ :: _ => Ok (filter informative (map derive df))
      end
  end.

End Features.

(* ================================================================== *)
(** ** float32 values                                                  *)
(* ================================================================== *)

(** The arithmetic of [float32] as the libraries use it.  The development
    is parametric in it: rounding is not modelled, and no property below
    depends on more than the order laws of [FloatOrder]. *)
Class Float32 (F : Type) := {
  fzero : F;
  fone : F;
  fadd : F -> F -> F;
  fmul : F -> F -> F;
  fdiv : F -> F -> F;
  fsqrt : F -> F;
  fltb : F -> F -> bool;      (* a < b *)
  flt_lowest : F              (* -FLT_MAX *)
}.

(** [<] is asymmetric and [>=] is transitive: a strict weak order, as [<]
    is on floats that are not NaN. *)
Class FloatOrder (F : Type) `{Float32 F} : Prop := {
  fltb_asym : forall a b, fltb a b = true -> fltb b a = false;
  fltb_negtrans : forall a b c, fltb a b = false -> fltb b c = false -> fltb a c = false
}.

(* ================================================================== *)
(** ** The libraries: faiss, numpy, pandas                             *)
(* ================================================================== *)

(** [faiss.IndexFlatIP], [faiss.normalize_L2], [np.vstack], [DataFrame.iloc]
    and [str.replace] are not part of the repository; they are modelled by
    what they are documented to do.  Where the documentation is silent, on
    the order of equally good hits, the search follows the library's result
    heap for one query row and [k] below one hundred.  Limits of memory and
    of machine integers are not modelled. *)
Module Lib.
Section WithFloat.
Context {F : Type} `{Float32 F}.

Definition vec := list F.

(** [fvec_inner_product] *)
Definition inner_product (x y : vec) : F :=
  fold_left (fun acc p => fadd acc (fmul (fst p) (snd p))) (combine x y) fzero.

(** One row of [faiss.normalize_L2]: scaled by [1 / sqrt(|x|^2)] when the
    squared norm is positive, left alone otherwise. *)
Definition renorm (x : vec) : vec :=
  let nr := inner_product x x in
  if fltb fzero nr
  then let inv_nr := fdiv fone (fsqrt nr) in map (fun v => fmul v inv_nr) x
  else x.

Definition normalize_L2 (X : list vec) : list vec := map renorm X.

(** [np.vstack(rows)] for one-dimensional rows. *)
Definition np_vstack (rows : list vec) : Outcome (list vec) :=
  match rows with
  | [] => raise ValueError "need at least one array to concatenate"
  | r :: rest =>
      if forallb (fun r' => length r' =? length r)%nat rest
      then Ok rows
      else raise ValueError
             "all the input array dimensions except for the concatenation axis must match exactly"
  end.

(** [X.shape[1]] of a stacked array. *)
Definition shape1 (X : list vec) : nat :=
  match X with
  | [] => 0
  | r :: _ => length r
  end.

(** A flat inner-product index: the dimension and the stored vectors in
    the order they were added; [ntotal] is their number. *)
Record IndexFlatIP := { d : nat; xb : list vec }.

Definition ntotal (ix : IndexFlatIP) : nat := length (xb ix).

Definition new_index (dim : nat) : IndexFlatIP := {| d := dim; xb := [] |}.

(** [index.add(X)] *)
Definition add (ix : IndexFlatIP) (X : list vec) : IndexFlatIP :=
  {| d := d ix; xb := xb ix ++ X |}.

(** A search result: the inner product and the label (position of the
    stored vector, [-1] for none). *)
Definition hit := (F * Z)%type.

Definition no_hit : hit := (flt_lowest, (-1)%Z).

(** The kept hits in the order the result heap of the search gives them
    back ([heap_replace_top] and [heap_reorder] on a min-heap of pairs of
    inner product and label): best first, and of two equally good hits
    the one with the larger label first.  A new hit has the largest label
    so far: it goes in front of the first kept hit that is not better. *)
Fixpoint insert_hit (h : hit) (best : list hit) : list hit :=
  match best with
  | [] => [h]
  | e :: best' =>
      if fltb (fst h) (fst e) then e :: insert_hit h best' else h :: best
  end.

(** The result handler of the search: a hit is taken only when it beats
    the worst kept hit, which it then pushes out. *)
Definition push (h : hit) (best : list hit) : list hit :=
  if fltb (fst (last best h)) (fst h)
  then removelast (insert_hit h best)
  else best.

Fixpoint scan (q : vec) (xs : list vec) (i : Z) (best : list hit) : list hit :=
  match xs with
  | [] => best
  | x :: xs' => scan q xs' (i + 1)%Z (push (inner_product q x, i) best)
  end.

Definition knn (ix : IndexFlatIP) (q : vec) (k : nat) : list hit :=
  scan q (xb ix) 0%Z (repeat no_hit k).

(** The number of hits with a label. *)
Definition found (l : list hit) : nat :=
  length (filter (fun x => (0 <=? snd x)%Z) l).

(** The label of a hit is [-1] or a position below [n]. *)
Definition label_ok (n : Z) (x : hit) : Prop :=
  snd x = (-1)%Z \/ (0 <= snd x < n)%Z.

(** [a] may stand before [b]: [a] is not worse than [b], and of two
    equally good hits the one added to the index later comes first. *)
Definition before (a b : hit) : Prop :=
  fltb (fst a) (fst b) = false /\
  (fltb (fst b) (fst a) = false -> (0 <= snd b)%Z -> (snd b < snd a)%Z).

(** [D, I = index.search(q, k)] for one query row: the wrapper asserts
    the dimension and [k > 0]; missing results keep label [-1]. *)
Definition search (ix : IndexFlatIP) (q : vec) (k : Z)
  : Outcome (list F * list Z) :=
  if negb (length q =? d ix)%nat then raise AssertionError "d == self.d"
  else if negb (0 <? k)%Z then raise AssertionError "k > 0"
  else let hits := knn ix q (Z.to_nat k) in
       Ok (map fst hits, map snd hits).

(** [frame.iloc[labels]]: positions count from the end when negative, and
    a position outside [-n, n) is an error. *)
Definition row_at {A} (rows : list A) (l : Z) : Outcome A :=
  let n := Z.of_nat (length rows) in
  let p := if (l <? 0)%Z then (l + n)%Z else l in
  match (if (0 <=? p)%Z && (p <? n)%Z then nth_error rows (Z.to_nat p) else None) with
  | Some r => Ok r
  | None => raise IndexError "positional indexers are out-of-bounds"
  end.

Fixpoint iloc {A} (rows : list A) (labels : list Z) : Outcome (list A) :=
  match labels with
  | [] => Ok []
  | l :: ls =>
      r <- row_at rows l ;;
      rs <- iloc rows ls ;;
      Ok (r :: rs)
  end.

End WithFloat.
Arguments IndexFlatIP F : clear implicits.
Arguments vec F : clear implicits.
Arguments hit F : clear implicits.

(** [s.replace(old, new)] for a non-empty [old]; [skip] counts the
    characters of a match still to be dropped. *)
Fixpoint replace_from (old new : string) (skip : nat) (s : string) : string :=
  match s with
  | EmptyString => EmptyString
  | String c s' =>
      match skip with
      | S n => replace_from old new n s'
      | O =>
          if String.prefix old s
          then String.append new (replace_from old new (String.length old - 1) s')
          else String c (replace_from old new 0 s')
      end
  end.

Definition str_replace (s old new : string) : string :=
  replace_from old new 0 s.

End Lib.

(* ================================================================== *)
(** ** The embedding service                                           *)
(* ================================================================== *)

Module Genai.
Section WithFloat.
Context {F : Type} `{Float32 F}.

(** An element of a sequence returned by the service, by what the two
    tests of the code see of it: whether it is an [int] or a [float]
    ([isinstance(x, (int, float, np.floating, np.integer))], which a
    [bool] and a numpy scalar pass), and what [np.array(_, dtype="float32")]
    makes of it.
    - [ENum x]: an [int] or [float] that numpy converts; [x] is the
      [float32] it becomes, rounded to the nearest one, or an infinity
      where [float32] overflows;
    - [EHuge]: an [int] beyond the range of [float], which numpy refuses
      with [OverflowError];
    - [EText x]: no [int] or [float], but a scalar that numpy converts, a
      numeric string or [None]; [x] is the [float32] it becomes;
    - [ESeq xs]: a nested list, tuple or array;
    - [EBad]: any other value, which numpy refuses, a dict say.
    Whatever numpy raises is caught by the code around the conversion. *)
#[warnings="-register-all"] Inductive elem :=
| ENum (x : F)
| EHuge
| EText (x : F)
| ESeq (xs : list elem)
| EBad.

(** What is found where a vector is expected. *)
Inductive payload :=
| PList (xs : list elem)        (* a list *)
| PTuple (xs : list elem)       (* a tuple *)
| PValues (xs : list elem)      (* an object with attribute [values], a list *)
| POpaque.                      (* no [values], no sequence, no number: a word, say *)

(** An entry of the list under ["embeddings"]. *)
Inductive batch_item :=
| ItemValues (xs : list elem)   (* a dict with key ["values"] *)
| ItemOther.

(** The value under ["embeddings"]. *)
Inductive batch :=
| BList (items : list batch_item)
| BOther.

(** The shapes of a response of [genai.embed_content]. *)
Inductive response :=
| RespObj (emb : payload)                     (* an object with attribute [embedding] *)
| RespDict (embedding : option payload) (embeddings : option batch)
                                              (* a dict, with or without the two keys *)
| RespSeq (xs : list elem)                    (* itself a list or tuple *)
| RespArray (numeric : bool) (xs : list F)    (* itself an ndarray of one dimension *)
| RespArray0 (numeric : bool)                 (* itself an ndarray of no dimension *)
| RespArrayNd (numeric : bool) (subs : list elem)
                                              (* itself an ndarray of two or more
                                                 dimensions, by its sub-arrays *)
| RespOther.                                  (* anything else *)

(** One call of the service either returns or raises. *)
Inductive reply :=
| Returns (r : response)
| Raises (e : exn).

(** [genai.embed_content(model=, content=)]; the first argument is the
    number of calls made before this one. *)
Definition Service := nat -> string -> pystr -> reply.

Definition call (svc : Service) (n : nat) (model : string) (text : pystr)
  : Outcome response :=
  match svc n model text with
  | Returns r => Ok r
  | Raises e => Raise e
  end.

Definition is_num (e : elem) : bool :=
  match e with
  | ENum _ | EHuge => true
  | EText _ | ESeq _ | EBad => false
  end.

Fixpoint same_shape (s t : list nat) : bool :=
  match s, t with
  | [], [] => true
  | a :: s', b :: t' => (a =? b)%nat && same_shape s' t'
  | _, _ => false
  end.

(** The items of a sequence converted one after the other. *)
Fixpoint convert_all {A B} (f : A -> Outcome B) (xs : list A) : Outcome (list B) :=
  match xs with
  | [] => Ok []
  | x :: xs' =>
      r <- f x ;;
      rs <- convert_all f xs' ;;
      Ok (r :: rs)
  end.

(** The shape numpy finds for a value, before it converts any number:
    none where the items of a sequence are not of one shape. *)
Fixpoint shape (e : elem) : option (list nat) :=
  match e with
  | ESeq xs =>
      match map shape xs with
      | [] => Some [0%nat]
      | Some s :: rest =>
          if forallb (fun t => match t with
                               | Some t' => same_shape t' s
                               | None => false
                               end) rest
          then Some (length xs :: s)
          else None
      | None :: _ => None
      end
  | _ => Some []
  end.

(** The numbers of a value in order, each converted to [float32]. *)
Fixpoint flat (e : elem) : Outcome (list F) :=
  match e with
  | ENum x | EText x => Ok [x]
  | EHuge => raise OverflowError "int too large to convert to float"
  | EBad => raise TypeError "float() argument must be a string or a real number"
  | ESeq xs =>
      rows <- convert_all flat xs ;;
      Ok (concat rows)
  end.

(** The number of scalars in a value, the [size] of an array. *)
Fixpoint size (e : elem) : nat :=
  match e with
  | ESeq xs => list_sum (map size xs)
  | _ => 1
  end.

(** [np.array(xs, dtype="float32")] for a list or tuple [xs]: the
    numbers of the array in order.  The callers make one row of them with
    [reshape(1, -1)], whatever the shape. *)
Definition np_array (xs : list elem) : Outcome (list F) :=
  match shape (ESeq xs) with
  | Some _ => flat (ESeq xs)
  | None =>
      raise ValueError
        "setting an array element with a sequence. The requested array has an inhomogeneous shape"
  end.

(** [np.array(p, dtype="float32")] for a payload. *)
Definition np_array_payload (p : payload) : Outcome (list F) :=
  match p with
  | PList xs | PTuple xs => np_array xs
  | PValues _ => raise TypeError "float() argument must be a string or a real number"
  | POpaque => raise ValueError "could not convert string to float"
  end.

End WithFloat.
Arguments elem F : clear implicits.
Arguments payload F : clear implicits.
Arguments batch_item F : clear implicits.
Arguments batch F : clear implicits.
Arguments response F : clear implicits.
Arguments reply F : clear implicits.
Arguments Service F : clear implicits.
End Genai.

(* ================================================================== *)
(** ** models/embeddings.py                                            *)
(* ================================================================== *)

Module Embeddings.
Import Genai.
Section WithFloat.
Context {F : Type} `{Float32 F}.

(** [_is_vector_ok(vec)] where [vec] is [None] or a list. *)
Definition _is_vector_ok (vec : option (list (elem F))) : bool :=
  match vec with
  | Some (x :: xs) => forallb is_num (x :: xs)
  | _ => false
  end.

(** [_is_vector_ok(resp)] on the response itself; when it holds,
    [list(resp)] is returned.  For an array the test looks at the dtype
    and the size only: an array of no dimension passes it and cannot be
    iterated, and the list of an array of two or more dimensions holds
    its sub-arrays. *)
Definition response_as_vector (resp : response F)
  : Outcome (option (list (elem F))) :=
  match resp with
  | RespSeq xs => Ok (if _is_vector_ok (Some xs) then Some xs else None)
  | RespArray numeric xs =>
      Ok (if numeric && negb (length xs =? 0)%nat then Some (map ENum xs) else None)
  | RespArray0 numeric =>
      if numeric then raise TypeError "iteration over a 0-d array" else Ok None
  | RespArrayNd numeric subs =>
      Ok (if numeric && (0 <? list_sum (map size subs))%nat then Some subs else None)
  | _ => Ok None
  end.

(** [_extract_vector(resp)]; indexing an empty ["embeddings"] list
    raises. *)
Definition _extract_vector (resp : response F) : Outcome (option (list (elem F))) :=
  match resp with
  | RespObj (PValues xs) => Ok (Some xs)
  | RespObj (PList xs) | RespObj (PTuple xs) => Ok (Some xs)
  | RespObj POpaque => Ok None
  | RespDict (Some (PList xs)) _ | RespDict (Some (PTuple xs)) _ => Ok (Some xs)
  | RespDict (Some (PValues xs)) _ => Ok (Some xs)
  | RespDict _ (Some (BList [])) => raise IndexError "list index out of range"
  | RespDict _ (Some (BList (ItemValues xs :: _))) => Ok (Some xs)
  | RespDict _ _ => Ok None
  | RespSeq _ | RespArray _ _ | RespArray0 _ | RespArrayNd _ _ | RespOther => Ok None
  end.

(** The body of the [try] of one attempt: [Some vec] is the [return]
    inside the loop, [None] falls through to the next attempt. *)
Definition attempt_body (svc : Service F) (n : nat) (model : string) (text : pystr)
  : Outcome (option (list (elem F))) :=
  resp <- call svc n model text ;;
  vec <- _extract_vector resp ;;
  if _is_vector_ok vec then Ok vec
  else response_as_vector resp.

(** The [for attempt in range(1, retries + 1)] loop; [n] counts the calls
    of the service made so far.  The result comes with the new count. *)
Fixpoint attempts (svc : Service F) (model : string) (text : pystr)
         (left : nat) (n : nat) : option (list (elem F)) * nat :=
  match left with
  | O => (None, n)
  | S left' =>
      match try_except (attempt_body svc n model text) (fun _ => Ok None) with
      | Ok (Some vec) => (Some vec, S n)
      | _ => attempts svc model text left' (S n)
      end
  end.

(** [embed_one(text, model="text-embedding-004", retries=3)]; [text] may
    be [None]. *)
Definition embed_one (svc : Service F) (n : nat) (text : option pystr)
           (model : string) (retries : nat) : option (list (elem F)) * nat :=
  let text := strip (match text with Some t => t | None => [] end) in
  match text with
  | [] => (None, n)
  | _ => attempts svc model text retries n
  end.

Definition default_model : string := "text-embedding-004".
Definition default_retries : nat := 3.

End WithFloat.
End Embeddings.

(* ================================================================== *)
(** ** Tables and files                                                *)
(* ================================================================== *)

Module Data.

(** A row of the metadata sidecar: the columns [keep_cols] of
    [build_faiss_index]. *)
Record MapRow := {
  m_id : cell;
  m_title : pystr;
  m_year : option pystr;
  m_genres : pystr;
  m_director : pystr;
  m_poster_path : cell;
  m_overview : pystr;
  m_vote_average : cell;
  m_runtime : cell
}.

(** [df[keep_cols]] on a row of the embeddings table. *)
Definition metadata (r : Features.FeatureRow) : MapRow :=
  {| m_id := Features.f_id r;
     m_title := Features.t_title (Features.f_text r);
     m_year := Features.f_year r;
     m_genres := Features.t_genres (Features.f_text r);
     m_director := Features.t_director (Features.f_text r);
     m_poster_path := Features.f_poster_path r;
     m_overview := Features.t_overview (Features.f_text r);
     m_vote_average := Features.f_vote_average r;
     m_runtime := Features.f_runtime r |}.

Section WithFloat.
Context {F : Type} `{Float32 F}.

(** A row of [movies_embeddings.parquet]: the feature columns and the
    [embedding] column. *)
Record EmbRow := { features : Features.FeatureRow; embedding : Lib.vec F }.

Inductive Table :=
| TEmbeddings (df : list EmbRow)
| TMapping (rows : list MapRow).

Inductive File :=
| Parquet (t : Table)
| FaissIndex (ix : Lib.IndexFlatIP F)
| OtherFile.

(** The files, by path.  Writing a file always succeeds: directories and
    permissions are not modelled. *)
Definition Store := string -> option File.

Definition write (st : Store) (path : string) (f : File) : Store :=
  fun p => if String.eqb p path then Some f else st p.

End WithFloat.
Arguments EmbRow F : clear implicits.
Arguments Table F : clear implicits.
Arguments File F : clear implicits.
Arguments Store F : clear implicits.
End Data.

(* ================================================================== *)
(** ** models/vector_index.py                                          *)
(* ================================================================== *)

Module VectorIndex.
Import Data.
Section WithFloat.
Context {F : Type} `{Float32 F}.

Definition default_embeddings_path : string := "cinebrain/data/movies_embeddings.parquet".
Definition default_index_path : string := "cinebrain/data/faiss_index.bin".

(** [df = pd.read_parquet(embeddings_path)] followed by
    [df["embedding"]]. *)
Definition read_embeddings (f : File F) : Outcome (list (EmbRow F)) :=
  match f with
  | Parquet (TEmbeddings df) => Ok df
  | Parquet (TMapping _) => raise KeyError "embedding"
  | _ => raise ValueError "not a parquet file"
  end.

Definition map_path_of (index_path : string) : string :=
  Lib.str_replace index_path ".bin" "_map.parquet".

(** [build_faiss_index(embeddings_path, index_path)]: the outcome and the
    files afterwards. *)
Definition build_faiss_index (st : Store F) (embeddings_path index_path : string)
  : Outcome unit * Store F :=
  match st embeddings_path with
  | None => (raise FileNotFoundError "Embeddings file not found. Run embeddings.py first.", st)
  | Some f =>
      match (df <- read_embeddings f ;;
             X <- Lib.np_vstack (map (@embedding F) df) ;;
             Ok (df, X)) with
      | Ok (df, X) =>
          let X := Lib.normalize_L2 X in
          let dim := Lib.shape1 X in
          let index := Lib.add (Lib.new_index dim) X in
          let st := write st index_path (FaissIndex index) in
          let map_path := map_path_of index_path in
          let mapping := map (fun r => metadata (features r)) df in
          let st := write st map_path (Parquet (TMapping mapping)) in
          (Ok tt, st)
      | Raise e => (Raise e, st)
      | Stop => (Stop, st)
      end
  end.

End WithFloat.
End VectorIndex.

(* ================================================================== *)
(** ** models/recommend.py                                             *)
(* ================================================================== *)

Module Recommend.
Import Data Genai.
Section WithFloat.
Context {F : Type} `{Float32 F}.

Definition INDEX_PATH : string := "cinebrain/data/faiss_index.bin".
Definition MAP_PATH : string := "cinebrain/data/faiss_index_map.parquet".

(** [faiss.read_index(path)] *)
Definition read_index (f : File F) : Outcome (Lib.IndexFlatIP F) :=
  match f with
  | FaissIndex ix => Ok ix
  | _ => raise RuntimeError "could not read index"
  end.

(** [pd.read_parquet(MAP_PATH)], seen through the sidecar columns, the
    only ones read afterwards. *)
Definition read_mapping (f : File F) : Outcome (list MapRow) :=
  match f with
  | Parquet (TMapping rows) => Ok rows
  | Parquet (TEmbeddings df) => Ok (map (fun r => metadata (features r)) df)
  | _ => raise ValueError "not a parquet file"
  end.

(** [load_index()] *)
Definition load_index (st : Store F) : Outcome (Lib.IndexFlatIP F * list MapRow) :=
  match st INDEX_PATH, st MAP_PATH with
  | Some fi, Some fm =>
      index <- read_index fi ;;
      mapping <- read_mapping fm ;;
      Ok (index, mapping)
  | _, _ => raise FileNotFoundError "Run vector_index.py first."
  end.

(** The body of the [try] of [embed_query]. *)
Definition query_body (svc : Service F) (n : nat) (model : string) (text : pystr)
  : Outcome (option (Lib.vec F)) :=
  resp <- call svc n model text ;;
  match resp with
  | RespObj (PValues xs) => v <- np_array xs ;; Ok (Some v)
  | RespObj _ => raise AttributeError "values"
  | RespDict (Some p) _ => v <- np_array_payload p ;; Ok (Some v)
  | _ => Ok None
  end.

(** [embed_query(text, model="text-embedding-004")], with the number of
    service calls afterwards. *)
Definition embed_query (svc : Service F) (n : nat) (text : pystr) (model : string)
  : option (Lib.vec F) * nat :=
  (match try_except (query_body svc n model text) (fun _ => Ok None) with
   | Ok r => r
   | _ => None
   end, S n).

Definition default_model : string := "text-embedding-004".

(** A row of the frame returned by [recommend_by_text]. *)
Record Rec := {
  r_title : pystr;
  r_year : option pystr;
  r_genres : pystr;
  r_director : pystr;
  r_similarity : F
}.

Definition pick (p : MapRow * F) : Rec :=
  {| r_title := m_title (fst p); r_year := m_year (fst p);
     r_genres := m_genres (fst p); r_director := m_director (fst p);
     r_similarity := snd p |}.

(** [recommend_by_text(query, k)]: [None] or the frame of results. *)
Definition recommend_by_text (st : Store F) (svc : Service F) (query : pystr) (k : Z)
  : Outcome (option (list Rec)) :=
  im <- load_index st ;;
  let (index, mapping) := im in
  match fst (embed_query svc 0 query default_model) with
  | None => Ok None
  | Some qvec =>
      (* [reshape(1, -1)] makes the vector the one row of a matrix *)
      let qvec := Lib.renorm qvec in
      DI <- Lib.search index qvec k ;;
      let (D, I) := DI in
      results <- Lib.iloc mapping I ;;
      Ok (Some (map pick (combine results D)))
  end.

End WithFloat.
Arguments Rec F : clear implicits.
End Recommend.

(* ================================================================== *)
(** ** app/streamlit_app.py                                            *)
(* ================================================================== *)

Module App.
Import Data Genai.

(** The literal returned for a missing runtime, code point by code point
    as the source file has it: U+201A U+00C4 U+00EE. *)
Definition placeholder : pystr := [8218%N; 196%N; 238%N].

(** The em dash, U+2014. *)
Definition em_dash : pystr := [8212%N].

(** [isinstance(x, (int, float))] *)
Definition is_int_or_float (x : cell) : bool :=
  match x with
  | CInt _ | CReal _ | CNaN | CInf _ => true
  | CNone | CStr _ => false
  end.

(** The largest magnitude below which [float(z)] of an [int] does not
    overflow: [2^1024 - 2^970]. *)
Definition float_limit : Z := (2 ^ 1024 - 2 ^ 970)%Z.

(** [math.isnan(float(x))] for an [int] or [float] [x]. *)
Definition isnan_float (x : cell) : Outcome bool :=
  match x with
  | CNaN => Ok true
  | CInt z =>
      if (Z.abs z <? float_limit)%Z then Ok false
      else raise OverflowError "int too large to convert to float"
  | _ => Ok false
  end.

(** [int(x)] for an [int] or [float] [x]: floats are truncated towards
    zero. *)
Definition py_int (x : cell) : Outcome Z :=
  match x with
  | CInt z => Ok z
  | CReal q => Ok (Z.quot (Qnum q) (Zpos (Qden q)))
  | CInf _ => raise OverflowError "cannot convert float infinity to integer"
  | CNaN => raise ValueError "cannot convert float NaN to integer"
  | _ => raise TypeError "int() argument must be a string or a real number"
  end.

(** [fmt_runtime(minutes)] *)
Definition fmt_runtime (minutes : cell) : Outcome pystr :=
  missing <- (match minutes with
              | CNone => Ok true
              | _ => if negb (is_int_or_float minutes) then Ok true
                     else isnan_float minutes
              end) ;;
  if (missing : bool) then Ok placeholder
  else
    minutes <- py_int minutes ;;
    let h := (minutes / 60)%Z in
    let m := (minutes mod 60)%Z in
    if negb (h =? 0)%Z && negb (m =? 0)%Z
    then Ok (str_of_int h ++ lit "h " ++ str_of_int m ++ lit "m")
    else if negb (h =? 0)%Z
    then Ok (str_of_int h ++ lit "h")
    else Ok (str_of_int m ++ lit "m").

(** [s.startswith(p)] *)
Fixpoint startswith (s p : pystr) : bool :=
  match p, s with
  | [], _ => true
  | a :: p', b :: s' => (a =? b)%N && startswith s' p'
  | _ :: _, [] => false
  end.

(** [safe_poster_url(poster_path)] *)
Definition safe_poster_url (poster_path : cell) : option pystr :=
  match poster_path with
  | CStr s =>
      let p := strip s in
      if Features.truthy p then
        if startswith p (lit "http") then Some p
        else if startswith p (lit "/")
        then Some (lit "https://image.tmdb.org/t/p/w500" ++ p)
        else None
      else None
  | _ => None
  end.

Section WithFloat.
Context {F : Type} `{Float32 F}.

Definition INDEX_PATH : string := "cinebrain/data/faiss_index.bin".
Definition MAP_PATH : string := "cinebrain/data/faiss_index_map.parquet".

(** [load_index_and_mapping()]: [st.stop()] when a file is missing. *)
Definition load_index_and_mapping (st : Store F)
  : Outcome (Lib.IndexFlatIP F * list MapRow) :=
  match st INDEX_PATH, st MAP_PATH with
  | Some fi, Some fm =>
      index <- Recommend.read_index fi ;;
      mapping <- Recommend.read_mapping fm ;;
      Ok (index, mapping)
  | _, _ => Stop
  end.

(** The body of the [try] of [embed_query]. *)
Definition query_body (svc : Service F) (n : nat) (model : string) (text : pystr)
  : Outcome (option (Lib.vec F)) :=
  resp <- call svc n model text ;;
  match resp with
  | RespObj (PValues xs) => v <- np_array xs ;; Ok (Some v)
  | RespObj _ => raise AttributeError "values"
  | RespDict (Some p) _ => v <- np_array_payload p ;; Ok (Some v)
  | _ => Ok None
  end.

(** [embed_query(text, model="text-embedding-004")] *)
Definition embed_query (svc : Service F) (n : nat) (text : pystr) (model : string)
  : option (Lib.vec F) * nat :=
  (match try_except (query_body svc n model text) (fun _ => Ok None) with
   | Ok r => r
   | _ => None
   end, S n).

Definition default_model : string := "text-embedding-004".

(** A row of the frame returned by [recommend]: the sidecar row and the
    [similarity] column. *)
Record RecRow := { row : MapRow; similarity : F }.

(** [recommend(query, k)]; the empty list is [pd.DataFrame()]. *)
Definition recommend (st : Store F) (svc : Service F) (query : pystr) (k : Z)
  : Outcome (list RecRow) :=
  im <- load_index_and_mapping st ;;
  let (index, mapping) := im in
  match fst (embed_query svc 0 query default_model) with
  | None => Ok []
  | Some qvec =>
      (* [reshape(1, -1)] makes the vector the one row of a matrix *)
      let qvec := Lib.renorm qvec in
      DI <- Lib.search index qvec k ;;
      let (D, I) := DI in
      recs <- Lib.iloc mapping I ;;
      Ok (map (fun p => {| row := fst p; similarity := snd p |}) (combine recs D))
  end.

End WithFloat.
Arguments RecRow F : clear implicits.

(** The generative service: [response.text] is a string or raises; a
    call returns a response, a falsy value, or raises.  The first
    argument of the service is the number of earlier calls. *)
Inductive text_attr :=
| TextIs (t : pystr)
| TextRaises (e : exn).

Inductive gen_reply :=
| GenReturns (response : option text_attr)
| GenRaises (e : exn).

Definition Generator := nat -> pystr -> gen_reply.

(** The en dash of the prompt as the source file has it. *)
Definition prompt_dash : pystr := [8218%N; 196%N; 236%N].

Definition newline : pystr := [10%N].

Definition prompt_of (user_query movie_title : pystr) (overview : option pystr) : pystr :=
  lit "User is looking for: " ++ user_query ++ newline
  ++ lit "Recommended movie: " ++ movie_title ++ newline
  ++ lit "Movie description: "
  ++ (match overview with
      | Some (c :: o) => c :: o
      | _ => lit "N/A"
      end) ++ newline ++ newline
  ++ lit "Explain in 1" ++ prompt_dash
  ++ lit "2 short sentences why this movie fits the user's request. "
  ++ lit "Make it natural, friendly, and insightful.".

(** The body of the [try] of [explain_recommendation]. *)
Definition explain_body (gen : Generator) (n : nat)
           (user_query movie_title : pystr) (overview : option pystr)
  : Outcome (option pystr) :=
  match gen n (prompt_of user_query movie_title overview) with
  | GenRaises e => Raise e
  | GenReturns None => Ok None
  | GenReturns (Some (TextRaises e)) => Raise e
  | GenReturns (Some (TextIs t)) =>
      if Features.truthy t then Ok (Some (strip t)) else Ok None
  end.

(** [explain_recommendation(user_query, movie_title, overview=None)] *)
Definition explain_recommendation (gen : Generator) (n : nat)
           (user_query movie_title : pystr) (overview : option pystr)
  : Outcome (option pystr) :=
  try_except (explain_body gen n user_query movie_title overview)
             (fun _ => Ok None).

Section WithFloat.
Context {F : Type} `{Float32 F}.

(** Two conversions of the metadata lines are taken as they are:
    [int(s)] for a [str] and [f"{float(x):.1f}"]; both may raise. *)
Variable int_of_str : pystr -> Outcome Z.
Variable format_1f : cell -> Outcome pystr.

(** What the page shows for one recommendation: the poster, the row whose
    title, genres, director and similarity go into the metadata lines, the
    texts of year, rating and runtime, and the explanation when there is
    one. *)
Record Card := {
  poster : pystr;
  shown : RecRow F;
  year_txt : pystr;
  rating_txt : pystr;
  runtime_txt : pystr;
  explanation : option pystr
}.

(** A card without its explanation. *)
Definition content (c : Card) : pystr * RecRow F * pystr * pystr * pystr :=
  (poster c, shown c, year_txt c, rating_txt c, runtime_txt c).

(** [int(row["year"]) if pd.notna(row.get("year")) else "N/A"] *)
Definition year_text (year : option pystr) : Outcome pystr :=
  match year with
  | Some s => y <- int_of_str s ;; Ok (str_of_int y)
  | None => Ok (lit "N/A")
  end.

(** [f"{float(rating):.1f}" if pd.notna(rating) else] the placeholder. *)
Definition rating_text (rating : cell) : Outcome pystr :=
  match rating with
  | CNone | CNaN => Ok placeholder
  | _ => format_1f rating
  end.

Definition no_poster : pystr := lit "https://via.placeholder.com/250x370?text=No+Poster".

(** One turn of [for i, (_, row) in enumerate(recs.iterrows())]; [n] is
    the number of calls of the generative service so far. *)
Definition render_card (gen : Generator) (n : nat) (query : pystr) (r : RecRow F)
  : Outcome Card :=
  let poster_url := match safe_poster_url (m_poster_path (row r)) with
                    | Some u => u
                    | None => no_poster
                    end in
  year <- year_text (m_year (row r)) ;;
  rating_txt <- rating_text (m_vote_average (row r)) ;;
  runtime_txt <- fmt_runtime (m_runtime (row r)) ;;
  explanation <- explain_recommendation gen n query (m_title (row r))
                   (Some (m_overview (row r))) ;;
  Ok {| poster := poster_url; shown := r; year_txt := year;
        rating_txt := rating_txt; runtime_txt := runtime_txt;
        explanation := match explanation with
                       | Some (c :: e) => Some (c :: e)
                       | _ => None
                       end |}.

Fixpoint render_cards (gen : Generator) (n : nat) (query : pystr)
         (recs : list (RecRow F)) : Outcome (list Card) :=
  match recs with
  | [] => Ok []
  | r :: recs' =>
      c <- render_card gen n query r ;;
      cs <- render_cards gen (S n) query recs' ;;
      Ok (c :: cs)
  end.

Inductive Page :=
| Idle
| NoRecommendations                 (* [st.warning("No recommendations found.")] *)
| Recommendations (cards : list Card).

(** The script of the page for one run: the button state and the text
    of the input. *)
Definition page (st : Store F) (svc : Service F) (gen : Generator)
           (clicked : bool) (query : pystr) : Outcome Page :=
  if clicked || Features.truthy query then
    if Features.truthy (strip query) then
      recs <- recommend st svc query 6 ;;
      match recs with
      | [] => Ok NoRecommendations
      | _ => cards <- render_cards gen 0 query recs ;; Ok (Recommendations cards)
      end
    else Ok Idle
  else Ok Idle.

End WithFloat.
Arguments Card F : clear implicits.
Arguments Page F : clear implicits.
End App.

(* ================================================================== *)
(** ** A concrete arithmetic and sample data                           *)
(* ================================================================== *)

Module Examples.
Import Data Genai.

(** Exact rational arithmetic; the square root is exact on squares of
    rationals and approximate otherwise. *)
Definition Qsqrt (q : Q) : Q :=
  Qred (Z.sqrt (Qnum q) # Pos.sqrt (Qden q)).

Definition FLT_MAX : Q := 340282346638528859811704183484516925440 # 1.

#[global] Instance Qfloat : Float32 Q := {|
  fzero := 0;
  fone := 1;
  fadd := fun a b => Qred (a + b);
  fmul := fun a b => Qred (a * b);
  fdiv := fun a b => Qred (a / b);
  fsqrt := Qsqrt;
  fltb := fun a b => negb (Qle_bool b a);
  flt_lowest := - FLT_MAX
|}.

Definition text_of (name : string) : Features.TextCols :=
  {| Features.t_title := lit name;
     Features.t_overview := lit "An overview.";
     Features.t_genres := lit "Drama";
     Features.t_cast := [];
     Features.t_director := lit "A Director" |}.

Definition feature (n : Z) (name : string) : Features.FeatureRow :=
  {| Features.f_id := CInt n;
     Features.f_text := text_of name;
     Features.f_year := Some (lit "2010");
     Features.f_release_date := CStr (lit "2010-07-15");
     Features.f_popularity := CNone;
     Features.f_vote_average := CNone;
     Features.f_runtime := CInt 134;
     Features.f_poster_path := CNone;
     Features.text_blob := Features.build_text_blob (text_of name) |}.

(** Two items; the vector of the second has norm five. *)
Definition emb_table : list (EmbRow Q) :=
  [ {| features := feature 1 "Alpha"; embedding := [1; 0] |};
    {| features := feature 2 "Beta"; embedding := [3; 4] |} ].

(** Three items, the first two with the same direction. *)
Definition emb_table_ties : list (EmbRow Q) :=
  [ {| features := feature 1 "Alpha"; embedding := [2; 0] |};
    {| features := feature 2 "Beta"; embedding := [5; 0] |};
    {| features := feature 3 "Gamma"; embedding := [0; 1] |} ].

(** Vectors of different lengths. *)
Definition emb_table_ragged : list (EmbRow Q) :=
  [ {| features := feature 1 "Alpha"; embedding := [1; 0] |};
    {| features := feature 2 "Beta"; embedding := [3; 4; 5] |} ].

Definition no_files : Store Q := fun _ => None.

Definition with_embeddings (df : list (EmbRow Q)) : Store Q :=
  write no_files VectorIndex.default_embeddings_path (Parquet (TEmbeddings df)).

(** The files after a build with the default paths. *)
Definition built (df : list (EmbRow Q)) : Store Q :=
  snd (VectorIndex.build_faiss_index (with_embeddings df)
         VectorIndex.default_embeddings_path VectorIndex.default_index_path).

(** A service that is down, and services that answer with one shape. *)
Definition svc_down : Service Q :=
  fun _ _ _ => Raises (Exn RuntimeError "503 service unavailable").

Definition svc_dict (v : list Q) : Service Q :=
  fun _ _ _ => Returns (RespDict (Some (PList (map ENum v))) None).


Definition gen_down : App.Generator :=
  fun _ _ => App.GenRaises (Exn RuntimeError "503 service unavailable").

(** [int(s)] on strings of ASCII digits, and a rating format that is never
    reached by the sample rows, whose rating is missing. *)
Definition int_of_digits (s : pystr) : Outcome Z :=
  if forallb (fun c => (48 <=? c)%N && (c <=? 57)%N) s && negb (length s =? 0)%nat
  then Ok (fold_left (fun acc c => acc * 10 + Z.of_N (c - 48))%Z s 0%Z)
  else raise ValueError "invalid literal for int() with base 10".

Definition no_format (x : cell) : Outcome pystr :=
  raise ValueError "could not convert to float".

Definition movie_x : Features.RawMovie :=
  {| Features.id := CInt 1; Features.title := CStr (lit "X");
     Features.release_date := CNone; Features.popularity := CNone;
     Features.poster_path := CNone; Features.vote_average := CNone;
     Features.runtime := CNone; Features.overview := CNone;
     Features.genres := CStr []; Features.cast := CNaN;
     Features.director := CNone |}.

Definition movie_inception : Features.RawMovie :=
  {| Features.id := CInt 27205; Features.title := CStr (lit "Inception");
     Features.release_date := CStr (lit "2010-07-15");
     Features.popularity := CNone;
     Features.poster_path := CStr (lit "/inception.jpg");
     Features.vote_average := CNone;
     Features.runtime := CInt 148;
     Features.overview := CStr (lit "  A thief who steals   secrets. ");
     Features.genres := CStr (lit "Action, Science Fiction");
     Features.cast := CNone;
     Features.director := CStr (lit "Christopher Nolan") |}.

End Examples.

(* ================================================================== *)
(** ** models/embeddings.py: the batch run                             *)
(* ================================================================== *)

(** [xs] is [ys] with some elements left out, the order kept. *)
Inductive subseq {A : Type} : list A -> list A -> Prop :=
| subseq_nil : subseq [] []
| subseq_skip (x : A) (xs ys : list A) : subseq xs ys -> subseq xs (x :: ys)
| subseq_keep (x : A) (xs ys : list A) : subseq xs ys -> subseq (x :: xs) (x :: ys).

Module EmbeddingsMain.
Import Data Genai.
Section WithFloat.
Context {F : Type} `{Float32 F}.

(** A call that gives no vector: the service raises, or answers with
    something that is neither an object, a dict nor a sequence. *)
Definition call_fails (svc : Service F) (n : nat) (model : string) (text : pystr) : Prop :=
  (exists e, svc n model text = Raises e) \/ svc n model text = Returns RespOther.

(** What is found at [INPUT_PATH]: nothing, a table without the column
    [text_blob], or a table as [features.py] writes it, whose blobs are
    strings. *)
Inductive Input :=
| Missing                                           (* no such file *)
| NoTextBlob                                        (* a table without the column [text_blob] *)
| FeatureTable (rows : list Features.FeatureRow).

(** The numbers of a vector as the saved table holds them, each by its
    [float32], which is how [build_faiss_index] reads them. *)
Definition numbers (xs : list (elem F)) : Lib.vec F :=
  flat_map (fun e => match e with ENum x => [x] | _ => [] end) xs.

(** The loop [for text in df["text_blob"].tolist()]: one [embed_one] per
    row, in order; [n] counts the calls of the service. *)
Fixpoint embed_rows (svc : Service F) (n : nat) (rows : list Features.FeatureRow)
  : list (option (list (elem F))) * nat :=
  match rows with
  | [] => ([], n)
  | r :: rows' =>
      let (vec, n1) := Embeddings.embed_one svc n (Some (Features.text_blob r))
                         Embeddings.default_model Embeddings.default_retries in
      let (vecs, n2) := embed_rows svc n1 rows' in
      (vec :: vecs, n2)
  end.

(** [df[df["embedding"].apply(_is_vector_ok)].reset_index(drop=True)]:
    the rows that are kept, each with its vector. *)
Fixpoint keep_valid (rows : list Features.FeatureRow)
         (vecs : list (option (list (elem F))))
  : list (Features.FeatureRow * list (elem F)) :=
  match rows, vecs with
  | r :: rows', v :: vecs' =>
      if Embeddings._is_vector_ok v
      then (r, match v with Some xs => xs | None => [] end) :: keep_valid rows' vecs'
      else keep_valid rows' vecs'
  | _, _ => []
  end.

(** A vector of numbers each of which [float] holds. *)
Definition storable (xs : list (elem F)) : bool :=
  forallb (fun e => match e with ENum _ => true | _ => false end) xs.

(** [os.makedirs(...)] and [df.to_parquet(OUTPUT_PATH, index=False)].
    What pyarrow makes of the column of vectors is not decided by
    [_is_vector_ok]: it goes by the Python types of the numbers, and
    refuses an [int] of more than 64 bits, or a [bool] beside a [float],
    which [_is_vector_ok] lets through.  A run is given what these two
    steps raise, if they raise, as [failure].  A table that holds an
    [int] beyond the range of [float] is written in no run; [refusal] is
    what pyarrow raises for it. *)
Definition to_parquet (kept : list (Features.FeatureRow * list (elem F)))
           (failure : option exn) (refusal : exn) : Outcome (list (EmbRow F)) :=
  match failure with
  | Some e => Raise e
  | None =>
      if forallb (fun r => storable (snd r)) kept
      then Ok (map (fun r => {| features := fst r; embedding := numbers (snd r) |}) kept)
      else Raise refusal
  end.

(** [main()]: the table saved at [OUTPUT_PATH], with the number of calls
    of the service.  The progress bar, the pauses and the printed lines
    are left out. *)
Definition main (svc : Service F) (input : Input) (failure : option exn) (refusal : exn)
  : Outcome (list (EmbRow F)) * nat :=
  match input with
  | Missing =>
      (raise FileNotFoundError
         "❌ cinebrain/data/movies_features.parquet not found. Run features.py first to create movies_features.parquet.",
       0%nat)
  | NoTextBlob => (raise ValueError "❌ 'text_blob' column missing. Re-run features.py.", 0%nat)
  | FeatureTable rows =>
      let (vecs, n) := embed_rows svc 0%nat rows in
      (to_parquet (keep_valid rows vecs) failure refusal, n)
  end.

(** What one row gives to the table that is written when [embed_one] is
    run on it alone, as the first text of a run. *)
Definition row_alone (svc : Service F) (r : Features.FeatureRow)
  : list (Features.FeatureRow * list (elem F)) :=
  match fst (Embeddings.embed_one svc 0%nat (Some (Features.text_blob r))
               Embeddings.default_model Embeddings.default_retries) with
  | Some v => if Embeddings._is_vector_ok (Some v) then [(r, v)] else []
  | None => []
  end.

End WithFloat.
Arguments Input : clear implicits.
End EmbeddingsMain.

(* ================================================================== *)
(** ** More sample data                                                *)
(* ================================================================== *)

Module Samples.
Import Data Genai.

(** A service that raises on its first two calls and then answers. *)
Definition svc_flaky (v : list Q) : Service Q :=
  fun n _ _ =>
    if (n <? 2)%nat then Raises (Exn RuntimeError "429 quota exceeded")
    else Returns (RespDict (Some (PList (map ENum v))) None).

(** A service that answers by the text alone: nothing usable for a text
    that starts with a capital B. *)
Definition svc_by_text : Service Q :=
  fun _ _ text =>
    match text with
    | 84%N :: 105%N :: 116%N :: 108%N :: 101%N :: 58%N :: 32%N :: 66%N :: _ =>
        Returns (RespDict (Some (PList [])) None)
    | _ => Returns (RespDict (Some (PList [ENum 1; ENum 0])) None)
    end.


(** A service that answers with an array of two dimensions, and one that
    answers with a list holding an [int] of more than a thousand bits. *)
Definition svc_matrix (rows : list (list Q)) : Service Q :=
  fun _ _ _ => Returns (RespArrayNd true (map (fun r => ESeq (map ENum r)) rows)).

Definition svc_huge : Service Q :=
  fun _ _ _ => Returns (RespDict (Some (PList [EHuge; ENum 1])) None).

(** A failure of the write. *)
Definition too_large : exn :=
  Exn OverflowError "Python int too large to convert to C long".

Definition three_features : list Features.FeatureRow :=
  [Examples.feature 1 "Alpha"; Examples.feature 2 "Beta"; Examples.feature 3 "Gamma"].

(** A generative service that always answers with the same text. *)
Definition gen_says (t : pystr) : App.Generator :=
  fun _ _ => App.GenReturns (Some (App.TextIs t)).

(** The first sample row as [recommend] returns it. *)
Definition rec_alpha : App.RecRow Q :=
  {| App.row := metadata (Examples.feature 1 "Alpha"); App.similarity := 1 |}.

End Samples.

(* ================================================================== *)
(** ** Notions used in the statements                                  *)
(* ================================================================== *)

(** A string without leading or trailing whitespace in which whitespace
    occurs only as single spaces. *)
Definition tidy (s : pystr) : Prop :=
  (forall c t, s = c :: t -> isspace c = false) /\
  (forall t c, s = t ++ [c] -> isspace c = false) /\
  squeezed false s = true.

(** [old in s] *)
Fixpoint occurs (old s : string) : bool :=
  String.prefix old s
  || match s with
     | String _ s' => occurs old s'
     | EmptyString => false
     end.

(* ================================================================== *)
(** ** JSON values                                                     *)
(* ================================================================== *)

(** What [r.json()] returns, with the operations the fetcher applies to
    it.  A dict is the list of its items, whose keys are distinct. *)
Module Json.

#[warnings="-register-all"] Inductive json :=
| JNull
| JBool (b : bool)
| JInt (z : Z)
| JReal (q : Q)
| JStr (s : pystr)
| JList (xs : list json)
| JDict (items : list (pystr * json)).

Fixpoint pystr_eqb (a b : pystr) : bool :=
  match a, b with
  | [], [] => true
  | x :: a', y :: b' => (x =? y)%N && pystr_eqb a' b'
  | _, _ => false
  end.

Definition lookup (key : pystr) (items : list (pystr * json)) : option json :=
  match find (fun p => pystr_eqb (fst p) key) items with
  | Some p => Some (snd p)
  | None => None
  end.

(** [type(j).__name__] *)
Definition type_name (j : json) : string :=
  match j with
  | JNull => "NoneType"
  | JBool _ => "bool"
  | JInt _ => "int"
  | JReal _ => "float"
  | JStr _ => "str"
  | JList _ => "list"
  | JDict _ => "dict"
  end.

(** [j.get(key, default)] *)
Definition get (j : json) (key : string) (default : json) : Outcome json :=
  match j with
  | JDict items =>
      Ok (match lookup (lit key) items with Some v => v | None => default end)
  | _ => raise AttributeError ("'" ++ type_name j ++ "' object has no attribute 'get'")
  end.

(** [j[key]] for a [str] key *)
Definition getitem (j : json) (key : string) : Outcome json :=
  match j with
  | JDict items =>
      match lookup (lit key) items with
      | Some v => Ok v
      | None => raise KeyError ("'" ++ key ++ "'")
      end
  | JList _ => raise TypeError "list indices must be integers or slices, not str"
  | JStr _ => raise TypeError "string indices must be integers, not 'str'"
  | _ => raise TypeError ("'" ++ type_name j ++ "' object is not subscriptable")
  end.

(** [j[:k]]; a dict cannot be sliced ([TypeError]; [KeyError] from
    Python 3.12 on, where a slice can be hashed). *)
Definition slice_to (k : nat) (j : json) : Outcome json :=
  match j with
  | JList xs => Ok (JList (firstn k xs))
  | JStr s => Ok (JStr (firstn k s))
  | JDict _ => raise TypeError "unhashable type: 'slice'"
  | _ => raise TypeError ("'" ++ type_name j ++ "' object is not subscriptable")
  end.

(** [for x in j]: the elements of a list, the characters of a string,
    the keys of a dict. *)
Definition iter (j : json) : Outcome (list json) :=
  match j with
  | JList xs => Ok xs
  | JStr s => Ok (map (fun c => JStr [c]) s)
  | JDict items => Ok (map (fun p => JStr (fst p)) items)
  | _ => raise TypeError ("'" ++ type_name j ++ "' object is not iterable")
  end.

(** [bool(j)] is false *)
Definition falsy (j : json) : bool :=
  match j with
  | JNull => true
  | JBool b => negb b
  | JInt z => (z =? 0)%Z
  | JReal q => Qeq_bool q 0
  | JStr s => match s with [] => true | _ => false end
  | JList xs => match xs with [] => true | _ => false end
  | JDict items => match items with [] => true | _ => false end
  end.

(** [hash(j)] raises for lists and dicts. *)
Definition hashable (j : json) : Outcome unit :=
  match j with
  | JList _ | JDict _ => raise TypeError ("unhashable type: '" ++ type_name j ++ "'")
  | _ => Ok tt
  end.

(** [[f(x) for x in xs]] *)
Fixpoint map_outcome {A B} (f : A -> Outcome B) (xs : list A) : Outcome (list B) :=
  match xs with
  | [] => Ok []
  | x :: xs' =>
      y <- f x ;;
      ys <- map_outcome f xs' ;;
      Ok (y :: ys)
  end.

(** [[x for x in xs if f(x)]] *)
Fixpoint filter_outcome {A} (f : A -> Outcome bool) (xs : list A) : Outcome (list A) :=
  match xs with
  | [] => Ok []
  | x :: xs' =>
      keep <- f x ;;
      ys <- filter_outcome f xs' ;;
      Ok (if (keep : bool) then x :: ys else ys)
  end.

Definition string_of_nat (n : nat) : string :=
  NilZero.string_of_uint (Nat.to_uint n).

(** The items of [sep.join(xs)]: each one has to be a [str]; [i] is the
    position of the first item of [xs]. *)
Fixpoint strs_from (i : nat) (xs : list json) : Outcome (list pystr) :=
  match xs with
  | [] => Ok []
  | JStr s :: xs' => rest <- strs_from (S i) xs' ;; Ok (s :: rest)
  | x :: _ =>
      raise TypeError ("sequence item " ++ string_of_nat i
                       ++ ": expected str instance, " ++ type_name x ++ " found")
  end.

(** [sep.join(xs)] *)
Definition join_json (sep : string) (xs : list json) : Outcome pystr :=
  ss <- strs_from 0 xs ;;
  Ok (join (lit sep) ss).

(** [j == s] for a [str] literal [s] *)
Definition is_str (s : string) (j : json) : bool :=
  match j with
  | JStr t => pystr_eqb t (lit s)
  | _ => false
  end.

(** An outcome that is a value or one of the three errors that reading
    a value of the wrong shape gives. *)
Definition shape_error (e : exn) : Prop :=
  cls e = AttributeError \/ cls e = KeyError \/ cls e = TypeError.

Definition value_or_shape_error {A} (o : Outcome A) : Prop :=
  match o with
  | Ok _ => True
  | Raise e => shape_error e
  | Stop => False
  end.

End Json.

(* ================================================================== *)
(** ** The movie service                                               *)
(* ================================================================== *)

(** [requests.get]: a request goes to a function from the number of
    earlier requests and the request to a reply. *)
Module Requests.
Import Json.

Inductive pval :=
| PInt (z : Z)
| PStr (s : string).

(** The arguments of [requests.get]. *)
Record request := {
  url : string;
  params : list (string * pval);
  headers : list (string * string)
}.

(** A request raises or gives a response; [r.json()] gives a value or
    raises ([None] below). *)
Inductive http_reply :=
| HttpRaises (e : exn)
| HttpResponse (status_code : Z) (body : option json).

Definition Http := nat -> request -> http_reply.

(** A computation that makes requests: from the number of requests made
    so far to an outcome and the new number. *)
Definition M (A : Type) := nat -> Outcome A * nat.

Definition ret {A} (a : A) : M A := fun n => (Ok a, n).

Definition lift {A} (o : Outcome A) : M A := fun n => (o, n).

Definition bindM {A B} (m : M A) (k : A -> M B) : M B :=
  fun n =>
    match m n with
    | (Ok a, n') => k a n'
    | (Raise e, n') => (Raise e, n')
    | (Stop, n') => (Stop, n')
    end.

(** [try: body  except Exception as e: handler e] *)
Definition try_exceptM {A} (body : M A) (handler : exn -> M A) : M A :=
  fun n =>
    match body n with
    | (Raise e, n') => handler e n'
    | r => r
    end.

End Requests.

Notation "x <~ m ;; k" := (Requests.bindM m (fun x => k))
  (at level 61, m at next level, right associativity).

(* ================================================================== *)
(** ** etl/fetch_tmdb.py                                               *)
(* ================================================================== *)

(** The fetcher up to the list of records it hands to pandas; the two
    files it writes from them are not modelled.  [time.sleep] and the
    printed lines are left out. *)
Module FetchTmdb.
Import Json Requests.

Definition BASE_URL : string := "https://api.themoviedb.org/3".

Section WithKey.

(** [TMDB_KEY], a non-empty string once the module is imported, the
    service, and [str(j)] as an f-string writes a JSON value. *)
Variable TMDB_KEY : string.
Variable http : Http.
Variable str_of : json -> string.

Definition has_key (key : string) (params : list (string * pval)) : bool :=
  existsb (fun p => String.eqb (fst p) key) params.

(** The request [tmdb_get(endpoint, params)] makes: the key goes into
    the header when it starts with [ey], into the parameters otherwise. *)
Definition request_of (endpoint : string) (params : option (list (string * pval)))
  : request :=
  let url := (BASE_URL ++ endpoint)%string in
  let headers := if String.prefix "ey" TMDB_KEY
                 then [("Authorization", "Bearer " ++ TMDB_KEY)%string]
                 else [] in
  let params := match params with
                | Some (p :: ps) => p :: ps
                | _ => []
                end in
  let params := if negb (has_key "api_key" params)
                   && match headers with [] => true | _ => false end
                then params ++ [("api_key"%string, PStr TMDB_KEY)]
                else params in
  {| url := url; params := params; headers := headers |}.

(** The body of the [try] of one attempt: [Some j] is the [return]
    inside the loop, [None] falls through to the next attempt. *)
Definition get_body (n : nat) (req : request) : Outcome (option json) :=
  match http n req with
  | HttpRaises e => Raise e
  | HttpResponse status_code body =>
      if (status_code =? 200)%Z
      then match body with
           | Some j => Ok (Some j)
           | None => raise ValueError "Expecting value"
           end
      else Ok None
  end.

(** The [for attempt in range(3)] loop. *)
Fixpoint get_attempts (req : request) (left : nat) (n : nat) : option json * nat :=
  match left with
  | O => (None, n)
  | S left' =>
      match try_except (get_body n req) (fun _ => Ok None) with
      | Ok (Some j) => (Some j, S n)
      | _ => get_attempts req left' (S n)
      end
  end.

(** A request that gives nothing to return: it raises, the status is
    not 200, or the body is not JSON. *)
Definition request_fails (n : nat) (req : request) : Prop :=
  forall j, http n req <> HttpResponse 200 (Some j).

(** [tmdb_get(endpoint, params=None)] *)
Definition tmdb_get (endpoint : string) (params : option (list (string * pval)))
  : M json :=
  fun n =>
    match get_attempts (request_of endpoint params) 3 n with
    | (Some j, n') => (Ok j, n')
    | (None, n') => (raise RuntimeError ("Failed to fetch data from " ++ endpoint), n')
    end.

(** The dict comprehension of [fetch_genres], as the list of the items
    it inserts, a later one replacing an earlier one with an equal key. *)
Definition genre_item (g : json) : Outcome (json * json) :=
  key <- getitem g "id" ;;
  name <- getitem g "name" ;;
  _ <- hashable key ;;
  Ok (key, name).

(** [fetch_genres()] *)
Definition fetch_genres : M (list (json * json)) :=
  data <~ tmdb_get "/genre/movie/list" None ;;
  lift (genres <- get data "genres" (JList []) ;;
        gs <- iter genres ;;
        map_outcome genre_item gs).

(** The loop of [fetch_movies] over the pages. *)
Fixpoint fetch_pages (list_type : string) (pages : list Z) : M (list json) :=
  match pages with
  | [] => ret []
  | page :: pages' =>
      data <~ tmdb_get ("/movie/" ++ list_type) (Some [("page"%string, PInt page)]) ;;
      results <~ lift (get data "results" (JList [])) ;;
      items <~ lift (iter results) ;;
      rest <~ fetch_pages list_type pages' ;;
      ret (items ++ rest)
  end.

(** [range(1, pages + 1)] *)
Definition page_numbers (pages : Z) : list Z :=
  map Z.of_nat (seq 1 (Z.to_nat pages)).

(** [fetch_movies(pages=5, list_type="popular")] *)
Definition fetch_movies (pages : Z) (list_type : string) : M (list json) :=
  fetch_pages list_type (page_numbers pages).

(** [c.get("job") in ["Director", "Writer"]] *)
Definition directs_or_writes (c : json) : Outcome bool :=
  job <- get c "job" JNull ;;
  Ok (is_str "Director" job || is_str "Writer" job).

(** [next((c["name"] for c in crew if c.get("job") == "Director"), None)] *)
Fixpoint director_of (crew : list json) : Outcome json :=
  match crew with
  | [] => Ok JNull
  | c :: crew' =>
      job <- get c "job" JNull ;;
      if is_str "Director" job then getitem c "name" else director_of crew'
  end.

(** The part of [enrich_movie] after the [try]. *)
Definition enrichment (detail credits : json) : Outcome json :=
  cast_all <- get credits "cast" (JList []) ;;
  cast_five <- slice_to 5 cast_all ;;
  cast_items <- iter cast_five ;;
  cast <- map_outcome (fun c => getitem c "name") cast_items ;;
  crew_all <- get credits "crew" (JList []) ;;
  crew_items <- iter crew_all ;;
  crew <- filter_outcome directs_or_writes crew_items ;;
  director <- director_of crew ;;
  genres_all <- get detail "genres" (JList []) ;;
  genres_items <- iter genres_all ;;
  genres <- map_outcome (fun g => getitem g "name") genres_items ;;
  runtime <- get detail "runtime" JNull ;;
  genres_txt <- join_json ", " genres ;;
  cast_txt <- join_json ", " cast ;;
  vote_average <- get detail "vote_average" JNull ;;
  overview <- get detail "overview" JNull ;;
  Ok (JDict [(lit "runtime", runtime);
             (lit "genres", JStr genres_txt);
             (lit "cast", JStr cast_txt);
             (lit "director", director);
             (lit "vote_average", vote_average);
             (lit "overview", overview)]).

(** [enrich_movie(movie_id)] *)
Definition enrich_movie (movie_id : json) : M json :=
  fun n =>
    match try_exceptM
            (detail <~ tmdb_get ("/movie/" ++ str_of movie_id) None ;;
             credits <~ tmdb_get ("/movie/" ++ str_of movie_id ++ "/credits") None ;;
             ret (Some (detail, credits)))
            (fun _ => ret None) n with
    | (Ok (Some (detail, credits)), n') => (enrichment detail credits, n')
    | (Ok None, n') => (Ok (JDict []), n')
    | (Raise e, n') => (Raise e, n')
    | (Stop, n') => (Stop, n')
    end.

(** [x or None] *)
Definition or_none (j : json) : json := if falsy j then JNull else j.

(** The body of the [try] of the loop of [main]. *)
Definition record_of (m : json) : M json :=
  movie_id <~ lift (getitem m "id") ;;
  extra <~ enrich_movie movie_id ;;
  lift (id <- getitem m "id" ;;
        title <- get m "title" JNull ;;
        release_date <- get m "release_date" JNull ;;
        popularity <- get m "popularity" JNull ;;
        poster_path <- get m "poster_path" JNull ;;
        vote_average <- get extra "vote_average" JNull ;;
        runtime <- get extra "runtime" JNull ;;
        overview <- get extra "overview" JNull ;;
        genres <- get extra "genres" JNull ;;
        cast <- get extra "cast" JNull ;;
        director <- get extra "director" JNull ;;
        Ok (JDict [(lit "id", id);
                   (lit "title", title);
                   (lit "release_date", release_date);
                   (lit "popularity", popularity);
                   (lit "poster_path", or_none poster_path);
                   (lit "vote_average", vote_average);
                   (lit "runtime", runtime);
                   (lit "overview", overview);
                   (lit "genres", genres);
                   (lit "cast", cast);
                   (lit "director", director)])).

(** The loop [for m in movies] of [main]: the handler of the [try] reads
    [m.get('title')] for its message. *)
Fixpoint records_of (movies : list json) : M (list json) :=
  match movies with
  | [] => ret []
  | m :: movies' =>
      recorded <~ try_exceptM
                    (record <~ record_of m ;; ret (Some record))
                    (fun _ => _ <~ lift (get m "title" JNull) ;; ret None) ;;
      records <~ records_of movies' ;;
      ret (match recorded with
           | Some record => record :: records
           | None => records
           end)
  end.

(** [main(pages=5, list_type="popular")]: the records from which the
    table is made. *)
Definition main (pages : Z) (list_type : string) : M (list json) :=
  genres_map <~ fetch_genres ;;
  movies <~ fetch_movies pages list_type ;;
  records_of movies.

(** [record] is a record made from the movie [m]: a dict of the eleven
    fields whose [id], [title], [release_date] and [popularity] are
    those of [m]. *)
Definition record_for (m record : json) : Prop :=
  exists items,
    record = JDict items /\
    map fst items
    = [lit "id"; lit "title"; lit "release_date"; lit "popularity"; lit "poster_path";
       lit "vote_average"; lit "runtime"; lit "overview"; lit "genres"; lit "cast";
       lit "director"] /\
    getitem record "id" = getitem m "id" /\
    get record "title" JNull = get m "title" JNull /\
    get record "release_date" JNull = get m "release_date" JNull /\
    get record "popularity" JNull = get m "popularity" JNull.

End WithKey.
End FetchTmdb.

(* ================================================================== *)
(** ** Sample replies of the movie service                             *)
(* ================================================================== *)

Module TmdbSamples.
Import Json Requests.

Definition key : string := "0123456789abcdef".

Definition str_of (j : json) : string :=
  match j with
  | JInt z => NilZero.string_of_int (Z.to_int z)
  | _ => "None"
  end.

Definition movie (id : Z) (title : string) : json :=
  JDict [(lit "id", JInt id); (lit "title", JStr (lit title));
         (lit "release_date", JStr (lit "2010-07-15"));
         (lit "popularity", JReal (83 # 2));
         (lit "poster_path", JStr [])].

(** A service that is down. *)
Definition http_down : Http :=
  fun _ _ => HttpRaises (Exn RuntimeError "connection refused").

(** A service that knows the genre list and the movie lists, one movie
    on each page, and nothing else. *)
Definition http_lists : Http :=
  fun _ req =>
    if String.eqb (url req) "https://api.themoviedb.org/3/genre/movie/list"
    then HttpResponse 200 (Some (JDict [(lit "genres", JList [])]))
    else if String.eqb (url req) "https://api.themoviedb.org/3/movie/popular"
    then match params req with
         | (_, PInt page) :: _ =>
             HttpResponse 200
               (Some (JDict [(lit "page", JInt page);
                             (lit "results", JList [movie page "A film"])]))
         | _ => HttpResponse 422 None
         end
    else HttpResponse 404 None.

Definition page_data (page : Z) : json :=
  JDict [(lit "page", JInt page); (lit "results", JList [movie page "A film"])].

Definition person (name job : string) : json :=
  JDict [(lit "name", JStr (lit name)); (lit "job", JStr (lit job))].

Definition detail_inception : json :=
  JDict [(lit "id", JInt 27205);
         (lit "runtime", JInt 148);
         (lit "genres", JList [JDict [(lit "id", JInt 28); (lit "name", JStr (lit "Action"))];
                               JDict [(lit "id", JInt 878);
                                      (lit "name", JStr (lit "Science Fiction"))]]);
         (lit "vote_average", JReal (42 # 5));
         (lit "overview", JStr (lit "A thief who steals secrets."))].

Definition credits_inception : json :=
  JDict [(lit "cast", JList [person "Leonardo DiCaprio" "Acting";
                             person "Joseph Gordon-Levitt" "Acting";
                             person "Elliot Page" "Acting";
                             person "Tom Hardy" "Acting";
                             person "Ken Watanabe" "Acting";
                             person "Cillian Murphy" "Acting"]);
         (lit "crew", JList [person "Hans Zimmer" "Original Music Composer";
                             person "Jonathan Nolan" "Writer";
                             person "Christopher Nolan" "Director";
                             person "Another Director" "Director"])].

End TmdbSamples.


(* ================================================================== *)
(** * Properties                                                       *)
(* ================================================================== *)

(** ** Text cleaning *)

Section CleanText.
Lemma sub_ws_squeezed (s : pystr) :
  forall b, squeezed b (sub_ws b s) = true.
Proof.
  induction s as [|c s IH]; intros b; simpl; [reflexivity|].
  destruct (isspace c) eqn:Hc.
  - destruct b; simpl.
    + apply IH.
    + change (isspace space) with true. simpl. apply IH.
  - simpl. rewrite Hc. apply IH.
Qed.

Lemma squeezed_fixpoint (r : pystr) :
  forall b, squeezed b r = true -> sub_ws b r = r.
Proof.
  induction r as [|c r IH]; intros b H; simpl in *; [reflexivity|].
  destruct (isspace c) eqn:Hc.
  - apply andb_prop in H as [H H3]. apply andb_prop in H as [H1 H2].
    destruct b; [discriminate|].
    apply N.eqb_eq in H2. subst c. f_equal. now apply IH.
  - f_equal. now apply IH.
Qed.

Lemma squeezed_no_double (u : pystr) :
  forall b r x y w,
    squeezed b r = true -> r = u ++ x :: y :: w ->
    isspace x = true -> isspace y = false.
Proof.
  induction u as [|c u IH]; intros b r x y w H -> Hx; simpl in H.
  - rewrite Hx in H. apply andb_prop in H as [_ H].
    destruct (isspace y); [|reflexivity].
    simpl in H. discriminate.
  - destruct (isspace c).
    + apply andb_prop in H as [_ H]. eapply IH; eauto.
    + eapply IH; eauto.
Qed.

Lemma sub_ws_snoc (t : pystr) (c : char) :
  isspace c = false -> forall b, sub_ws b (t ++ [c]) = sub_ws b t ++ [c].
Proof.
  intros Hc. induction t as [|a t IH]; intros b; simpl.
  - now rewrite Hc.
  - destruct (isspace a); [destruct b|]; simpl; now rewrite IH.
Qed.

Lemma lstrip_head (s : pystr) :
  forall c t, lstrip s = c :: t -> isspace c = false.
Proof.
  induction s as [|a s IH]; intros c t H; simpl in H; [discriminate|].
  destruct (isspace a) eqn:Ha; [now apply IH with t|].
  now injection H as -> _.
Qed.

Lemma rstrip_head (s : pystr) :
  forall c t, rstrip s = c :: t -> exists t', s = c :: t'.
Proof.
  destruct s as [|a s]; intros c t H; simpl in H; [discriminate|].
  destruct (rstrip s); [destruct (isspace a); [discriminate|]|];
    injection H as -> _; now exists s.
Qed.

Lemma rstrip_last (s : pystr) :
  forall t c, rstrip s = t ++ [c] -> isspace c = false.
Proof.
  induction s as [|a s IH]; intros t c H; simpl in H.
  - now destruct t.
  - destruct (rstrip s) as [|b r] eqn:Hr.
    + destruct (isspace a) eqn:Ha; [now destruct t|].
      destruct t as [|x t]; [now injection H as <-|].
      injection H as _ H. now destruct t.
    + destruct t as [|x t]; [discriminate|].
      injection H as _ H. now apply IH with t.
Qed.

Lemma rstrip_id (r : pystr) :
  (forall t c, r = t ++ [c] -> isspace c = false) -> rstrip r = r.
Proof.
  induction r as [|a r IH]; intros H; simpl; [reflexivity|].
  rewrite IH.
  - destruct r; [|reflexivity]. now rewrite (H [] a eq_refl).
  - intros t c ->. apply (H (a :: t) c). reflexivity.
Qed.

Lemma lstrip_id (r : pystr) :
  (forall c t, r = c :: t -> isspace c = false) -> lstrip r = r.
Proof.
  destruct r as [|a r]; intros H; simpl; [reflexivity|].
  now rewrite (H a r eq_refl).
Qed.

(** The three shape properties of a cleaned string. *)
Lemma clean_text_shape (x : cell) :
  (forall c t, Features.clean_text x = c :: t -> isspace c = false) /\
  (forall t c, Features.clean_text x = t ++ [c] -> isspace c = false) /\
  squeezed false (Features.clean_text x) = true.
Proof.
  assert (Hnil : (forall c t, @nil char = c :: t -> isspace c = false) /\
                 (forall t c, @nil char = t ++ [c] -> isspace c = false) /\
                 squeezed false [] = true).
  { repeat split; intros; try discriminate. now destruct t. }
  destruct x; try exact Hnil. clear Hnil.
  unfold Features.clean_text, re_sub_ws, strip.
  repeat split.
  - intros c t H.
    destruct (rstrip (lstrip s)) as [|a r] eqn:Hr; [discriminate|].
    destruct (rstrip_head _ _ _ Hr) as [t' Ht'].
    pose proof (lstrip_head _ _ _ Ht') as Ha.
    simpl in H. rewrite Ha in H. now injection H as <- _.
  - intros t c H.
    destruct (rstrip (lstrip s)) as [|a r] eqn:Hr using rev_ind;
      [now destruct t|]. clear IHr.
    pose proof (rstrip_last _ _ _ Hr) as Ha.
    rewrite (sub_ws_snoc _ _ Ha) in H.
    apply app_inj_tail in H as [_ <-]. exact Ha.
  - apply sub_ws_squeezed.
Qed.

(** C10: [clean_text] returns a string for every input, the empty one for
    an input that is not a [str]; the result has no leading or trailing
    whitespace and no two consecutive whitespace characters; cleaning a
    cleaned string changes nothing. *)
Theorem clean_text_total_idempotent (x : cell) :
  (exists r : pystr, Features.clean_text x = r) /\
  ((forall s, x <> CStr s) -> Features.clean_text x = []) /\
  (forall c t, Features.clean_text x = c :: t -> isspace c = false) /\
  (forall t c, Features.clean_text x = t ++ [c] -> isspace c = false) /\
  (forall u a b w, Features.clean_text x = u ++ a :: b :: w ->
                   isspace a = true -> isspace b = false) /\
  Features.clean_text (CStr (Features.clean_text x)) = Features.clean_text x.
Proof.
  destruct (clean_text_shape x) as (Hhead & Hlast & Hsq).
  split; [now eexists|].
  split; [intros H; destruct x; try reflexivity; now destruct (H s)|].
  split; [exact Hhead|]. split; [exact Hlast|].
  split.
  - intros u a b w H. eapply squeezed_no_double; eauto.
  - set (r := Features.clean_text x) in *.
    unfold Features.clean_text at 1. unfold re_sub_ws, strip.
    rewrite (lstrip_id _ Hhead), (rstrip_id _ Hlast).
    now apply squeezed_fixpoint.
Qed.

End CleanText.

(** ** Feature table *)

Lemma clean_text_one_char (c : char) :
  Features.clean_text (CStr [c]) = if isspace c then [] else [c].
Proof.
  unfold Features.clean_text, re_sub_ws, strip. cbn [lstrip].
  destruct (isspace c) eqn:Hc; cbn [rstrip]; rewrite ?Hc; [reflexivity|].
  cbn [sub_ws]. now rewrite Hc.
Qed.

(** The blob of an item that has a one-character title and nothing else is
    at most nine characters long. *)
Lemma one_char_title_blob (m : Features.RawMovie) (c : char) :
  Features.title m = CStr [c] ->
  Features.clean_text (Features.overview m) = [] ->
  Features.clean_text (Features.genres m) = [] ->
  Features.clean_text (Features.cast m) = [] ->
  Features.clean_text (Features.director m) = [] ->
  (length (Features.text_blob (Features.derive m)) <= 9)%nat.
Proof.
  intros Ht Ho Hg Hc Hd.
  unfold Features.derive, Features.build_text_blob, Features.clean_cols.
  cbn [Features.text_blob Features.t_title Features.t_overview
       Features.t_genres Features.t_cast Features.t_director].
  rewrite Ht, Ho, Hg, Hc, Hd, clean_text_one_char.
  destruct (isspace c); vm_compute; lia.
Qed.

(** A run that ends well saves the informative rows of the table. *)
Lemma features_main_ok (db : list Features.RawMovie) (out : list Features.FeatureRow) :
  Features.main (Some db) = Ok out ->
  db <> [] /\ out = filter Features.informative (map Features.derive db).
Proof.
  unfold Features.main. destruct db as [|m db]; [discriminate|].
  intros H. injection H as <-. split; [discriminate|reflexivity].
Qed.

(** C7: an item is in the feature table exactly when its text blob, built
    from the cleaned title, overview, genres, cast and director, is longer
    than 30 characters; an item with a one-character title and no other
    descriptive field is not in the table. *)
Theorem feature_table_membership
  (db : list Features.RawMovie) (out : list Features.FeatureRow) :
  Features.main (Some db) = Ok out ->
  (forall m, In m db ->
     (In (Features.derive m) out <->
      (30 < length (Features.text_blob (Features.derive m)))%nat)) /\
  (forall r, In r out -> exists m, In m db /\ r = Features.derive m) /\
  (forall m c, In m db ->
     Features.title m = CStr [c] ->
     Features.clean_text (Features.overview m) = [] ->
     Features.clean_text (Features.genres m) = [] ->
     Features.clean_text (Features.cast m) = [] ->
     Features.clean_text (Features.director m) = [] ->
     ~ In (Features.derive m) out).
Proof.
  intros H. apply features_main_ok in H as [_ ->].
  assert (Hin : forall r, In r (filter Features.informative (map Features.derive db)) <->
                          (exists m, In m db /\ r = Features.derive m) /\
                          (30 < length (Features.text_blob r))%nat).
  { intros r. rewrite filter_In, in_map_iff. unfold Features.informative.
    rewrite Nat.ltb_lt. split; intros [[m Hm] Hl]; (split; [exists m|exact Hl]);
      destruct Hm; split; auto. }
  split; [|split].
  - intros m Hm. split.
    + intros Hr. now apply Hin in Hr.
    + intros Hl. apply Hin. split; [now exists m|exact Hl].
  - intros r Hr. now apply Hin in Hr.
  - intros m c Hm Ht Ho Hg Hc Hd Hr. apply Hin in Hr as [_ Hl].
    pose proof (one_char_title_blob m c Ht Ho Hg Hc Hd). lia.
Qed.

Lemma feature_table_membership_witness :
  Features.main (Some [Examples.movie_x; Examples.movie_inception])
  = Ok [Features.derive Examples.movie_inception] /\
  ~ In (Features.derive Examples.movie_x) [Features.derive Examples.movie_inception].
Proof.
  assert (H : Features.main (Some [Examples.movie_x; Examples.movie_inception])
              = Ok [Features.derive Examples.movie_inception])
    by (vm_compute; reflexivity).
  split; [exact H|].
  destruct (feature_table_membership _ _ H) as (_ & _ & Hx).
  apply (Hx Examples.movie_x 88%N); [left|..]; reflexivity.
Defined.

(** ** Runtime formatting *)

(** The minute counts of the specification. *)
Lemma fmt_runtime_examples :
  App.fmt_runtime (CInt 134) = Ok (lit "2h 14m") /\
  App.fmt_runtime (CInt 60) = Ok (lit "1h") /\
  App.fmt_runtime (CInt 45) = Ok (lit "45m").
Proof. repeat split; vm_compute; reflexivity. Qed.

(** A non-negative minute count that [float] accepts is written as hours
    and minutes, as hours alone, or as minutes alone. *)
Lemma fmt_runtime_minutes (m : Z) :
  (0 <= m < App.float_limit)%Z ->
  ((m / 60 <> 0)%Z -> (m mod 60 <> 0)%Z ->
   App.fmt_runtime (CInt m)
   = Ok (str_of_int (m / 60) ++ lit "h " ++ str_of_int (m mod 60) ++ lit "m")) /\
  ((0 < m)%Z -> (m mod 60 = 0)%Z ->
   App.fmt_runtime (CInt m) = Ok (str_of_int (m / 60) ++ lit "h")) /\
  ((m < 60)%Z -> App.fmt_runtime (CInt m) = Ok (str_of_int m ++ lit "m")).
Proof.
  intros Hm.
  assert (Hlt : (Z.abs m <? App.float_limit)%Z = true)
    by (apply Z.ltb_lt; rewrite Z.abs_eq; lia).
  unfold App.fmt_runtime. cbn [App.is_int_or_float negb App.isnan_float].
  rewrite Hlt. cbn [bind App.py_int].
  split; [|split].
  - intros Hh Hr.
    apply Z.eqb_neq in Hh, Hr. now rewrite Hh, Hr.
  - intros Hpos Hr.
    assert (Hh : (m / 60 <> 0)%Z).
    { intros H0. apply Z.div_small_iff in H0; [|lia].
      destruct H0 as [H0|H0]; [|lia].
      rewrite Z.mod_small in Hr by lia. lia. }
    apply Z.eqb_neq in Hh. apply Z.eqb_eq in Hr. now rewrite Hh, Hr.
  - intros Hsmall.
    rewrite Z.div_small, Z.mod_small by lia. reflexivity.
Qed.

(** An integer that [float] cannot hold is not formatted at all. *)
Lemma fmt_runtime_huge :
  App.fmt_runtime (CInt (2 ^ 1024))
  = Raise (Exn OverflowError "int too large to convert to float").
Proof. vm_compute. reflexivity. Qed.

(** C8: for a missing or NaN runtime the formatter returns the three code
    points U+201A U+00C4 U+00EE of its source literal, which is not the em
    dash U+2014. *)
Theorem fmt_runtime_missing_literal :
  App.fmt_runtime CNone = Ok [8218; 196; 238]%N /\
  App.fmt_runtime CNaN = Ok [8218; 196; 238]%N /\
  App.fmt_runtime CNone <> Ok App.em_dash /\
  App.fmt_runtime CNaN <> Ok App.em_dash.
Proof. repeat split; try reflexivity; vm_compute; discriminate. Qed.

(** ** Explanations *)

(** Every failure of the generative service gives [None]. *)
Lemma explain_failure_none (gen : App.Generator) (n : nat)
      (q t : pystr) (o : option pystr) :
  (forall e, gen n (App.prompt_of q t o) = App.GenRaises e ->
             App.explain_recommendation gen n q t o = Ok None) /\
  (gen n (App.prompt_of q t o) = App.GenReturns None ->
   App.explain_recommendation gen n q t o = Ok None) /\
  (forall e, gen n (App.prompt_of q t o) = App.GenReturns (Some (App.TextRaises e)) ->
             App.explain_recommendation gen n q t o = Ok None) /\
  (gen n (App.prompt_of q t o) = App.GenReturns (Some (App.TextIs [])) ->
   App.explain_recommendation gen n q t o = Ok None).
Proof.
  unfold App.explain_recommendation, App.explain_body.
  repeat split; intros; rewrite H; reflexivity.
Qed.

Lemma explain_returns (gen : App.Generator) (n : nat)
      (q t : pystr) (o : option pystr) :
  exists r, App.explain_recommendation gen n q t o = Ok r.
Proof.
  unfold App.explain_recommendation, App.explain_body.
  destruct (gen n (App.prompt_of q t o)) as [[[txt|e]|]|e]; simpl;
    try (now eexists).
  destruct (Features.truthy txt); now eexists.
Qed.

Section Cards.
Context {F : Type} `{Float32 F}.
Variable int_of_str : pystr -> Outcome Z.
Variable format_1f : cell -> Outcome pystr.

(** Rendering with any generator and with a generator that always fails
    end the same way and differ in the explanations only. *)
Lemma render_cards_any_generator (query : pystr) (recs : list (App.RecRow F)) :
  forall (gen : App.Generator) (e : exn) (n n' : nat),
    match App.render_cards int_of_str format_1f gen n query recs,
          App.render_cards int_of_str format_1f (fun _ _ => App.GenRaises e)
            n' query recs with
    | Ok cs, Ok cs' =>
        map (@App.shown F) cs = recs /\
        map (@App.content F) cs = map (@App.content F) cs' /\
        Forall (fun c => App.explanation c = None) cs'
    | Raise x, Raise x' => x = x'
    | Stop, Stop => True
    | _, _ => False
    end.
Proof.
  induction recs as [|r recs IH]; intros gen e n n'; simpl.
  - repeat split; constructor.
  - unfold App.render_card.
    destruct (App.year_text int_of_str (Data.m_year (App.row r))) as [y|x|];
      simpl; [|reflexivity|exact I].
    destruct (App.rating_text format_1f (Data.m_vote_average (App.row r)))
      as [rt|x|]; simpl; [|reflexivity|exact I].
    destruct (App.fmt_runtime (Data.m_runtime (App.row r))) as [txt|x|];
      simpl; [|reflexivity|exact I].
    destruct (explain_returns gen n query (Data.m_title (App.row r))
                (Some (Data.m_overview (App.row r)))) as [ex ->].
    simpl.
    specialize (IH gen e (S n) (S n')).
    destruct (App.render_cards int_of_str format_1f gen (S n) query recs)
      as [cs|x|];
      destruct (App.render_cards int_of_str format_1f _ (S n') query recs)
        as [cs'|x'|];
      simpl; try contradiction; try assumption; try exact I.
    destruct IH as (Hs & Hc & He).
    split; [simpl; congruence|]. split.
    + simpl. unfold App.content at 1 3. simpl. now rewrite Hc.
    + constructor; [reflexivity|exact He].
Qed.

(** C9: [explain_recommendation] always returns, and returns [None] when
    the generative service raises, answers with nothing, or answers with an
    empty text; the cards of all recommendations are rendered whatever the
    service does, with the same content apart from the explanations. *)
Theorem explanation_is_best_effort
  (gen : App.Generator) (n : nat) (query title : pystr) (overview : option pystr)
  (recs : list (App.RecRow F)) (e : exn) :
  (exists r, App.explain_recommendation gen n query title overview = Ok r) /\
  (forall x, gen n (App.prompt_of query title overview) = App.GenRaises x ->
             App.explain_recommendation gen n query title overview = Ok None) /\
  (gen n (App.prompt_of query title overview) = App.GenReturns None ->
   App.explain_recommendation gen n query title overview = Ok None) /\
  (forall x, gen n (App.prompt_of query title overview)
             = App.GenReturns (Some (App.TextRaises x)) ->
             App.explain_recommendation gen n query title overview = Ok None) /\
  (gen n (App.prompt_of query title overview) = App.GenReturns (Some (App.TextIs [])) ->
   App.explain_recommendation gen n query title overview = Ok None) /\
  match App.render_cards int_of_str format_1f gen n query recs,
        App.render_cards int_of_str format_1f (fun _ _ => App.GenRaises e)
          n query recs with
  | Ok cs, Ok cs' =>
      map (@App.shown F) cs = recs /\
      map (@App.content F) cs = map (@App.content F) cs' /\
      Forall (fun c => App.explanation c = None) cs'
  | Raise x, Raise x' => x = x'
  | Stop, Stop => True
  | _, _ => False
  end.
Proof.
  split; [apply explain_returns|].
  destruct (explain_failure_none gen n query title overview) as (H1 & H2 & H3 & H4).
  repeat (split; [assumption|]).
  apply render_cards_any_generator.
Qed.

End Cards.

(** ** A query that cannot be embedded *)

Section EmbeddingFailure.
Context {F : Type} `{Float32 F}.

(** The two copies of [embed_query] are the same function. *)
Lemma embed_query_same (svc : Genai.Service F) (n : nat) (text : pystr) (model : string) :
  App.embed_query svc n text model = Recommend.embed_query svc n text model.
Proof. reflexivity. Qed.

(** [embed_query] makes one call of the service. *)
Lemma embed_query_one_call (svc : Genai.Service F) (n : nat) (text : pystr) (model : string) :
  snd (Recommend.embed_query svc n text model) = S n.
Proof. reflexivity. Qed.

(** When the service raises, [embed_query] returns [None]. *)
Lemma embed_query_raises (svc : Genai.Service F) (n : nat) (text : pystr)
      (model : string) (e : exn) :
  svc n model text = Genai.Raises e ->
  fst (Recommend.embed_query svc n text model) = None.
Proof.
  intros Hs. unfold Recommend.embed_query, Recommend.query_body, Genai.call.
  now rewrite Hs.
Qed.

(** C1: when the query cannot be embedded and the index files load, the
    page's [recommend] returns the empty frame and the page shows "no
    recommendations"; [recommend_by_text] returns [None]; neither
    raises. *)
Theorem embedding_failure_gives_no_results
  (int_of_str : pystr -> Outcome Z) (format_1f : cell -> Outcome pystr)
  (st : Data.Store F) (svc : Genai.Service F) (gen : App.Generator)
  (query : pystr) (k : Z) (ix : Lib.IndexFlatIP F) (mapping : list Data.MapRow) :
  fst (Recommend.embed_query svc 0 query Recommend.default_model) = None ->
  (App.load_index_and_mapping st = Ok (ix, mapping) ->
   App.recommend st svc query k = Ok [] /\
   (forall clicked, strip query <> [] ->
      App.page int_of_str format_1f st svc gen clicked query
      = Ok (@App.NoRecommendations F))) /\
  (Recommend.load_index st = Ok (ix, mapping) ->
   Recommend.recommend_by_text st svc query k = Ok None).
Proof.
  intros Hq. split.
  - intros Hl.
    assert (Hr : forall k', App.recommend st svc query k' = Ok []).
    { intros k'. unfold App.recommend. rewrite Hl. cbn [bind].
      rewrite embed_query_same. unfold App.default_model.
      unfold Recommend.default_model in Hq. now rewrite Hq. }
    split; [apply Hr|].
    intros clicked Hne. unfold App.page.
    assert (Hs : Features.truthy (strip query) = true)
      by (destruct (strip query); [contradiction|reflexivity]).
    assert (Ht : Features.truthy query = true).
    { destruct query; [|reflexivity]. now vm_compute in Hs. }
    rewrite Ht, Hs, orb_true_r, Hr. reflexivity.
  - intros Hl. unfold Recommend.recommend_by_text. rewrite Hl. cbn [bind].
    now rewrite Hq.
Qed.

End EmbeddingFailure.

(** With the index built and the embedding service down,
    [recommend_by_text] returns [None], which is not an empty frame. *)
Lemma recommend_by_text_returns_none :
  fst (Recommend.embed_query Examples.svc_down 0 (lit "space heist")
         Recommend.default_model) = None /\
  Recommend.recommend_by_text (Examples.built Examples.emb_table)
    Examples.svc_down (lit "space heist") 5 = Ok None /\
  Recommend.recommend_by_text (Examples.built Examples.emb_table)
    Examples.svc_down (lit "space heist") 5 <> Ok (Some []).
Proof.
  split; [reflexivity|]. split; [vm_compute; reflexivity|].
  vm_compute. discriminate.
Qed.

Lemma embedding_failure_gives_no_results_witness :
  App.recommend (Examples.built Examples.emb_table) Examples.svc_down
    (lit "space heist") 6 = Ok [] /\
  App.page Examples.int_of_digits Examples.no_format
    (Examples.built Examples.emb_table) Examples.svc_down Examples.gen_down
    true (lit "space heist") = Ok (@App.NoRecommendations Q) /\
  Recommend.recommend_by_text (Examples.built Examples.emb_table)
    Examples.svc_down (lit "space heist") 5 = Ok None.
Proof.
  pose (st := Examples.built Examples.emb_table).
  assert (Hl : exists ix mapping, App.load_index_and_mapping st = Ok (ix, mapping)
                                  /\ Recommend.load_index st = Ok (ix, mapping)).
  { eexists _, _. split; vm_compute; reflexivity. }
  destruct Hl as (ix & mapping & Ha & Hr).
  destruct (embedding_failure_gives_no_results Examples.int_of_digits
              Examples.no_format st Examples.svc_down Examples.gen_down
              (lit "space heist") 6 ix mapping eq_refl) as [Happ _].
  destruct (embedding_failure_gives_no_results Examples.int_of_digits
              Examples.no_format st Examples.svc_down Examples.gen_down
              (lit "space heist") 5 ix mapping eq_refl) as [_ Hcli].
  destruct (Happ Ha) as [H1 H2].
  split; [exact H1|]. split; [|exact (Hcli Hr)].
  apply H2. vm_compute. discriminate.
Defined.

(** ** The two embedding paths *)

Section EmbeddingPaths.
Context {F : Type} `{Float32 F}.

(** numpy converts a sequence of numbers to their [float32] values. *)
Lemma convert_all_nums (v : list F) :
  Genai.convert_all Genai.flat (map Genai.ENum v) = Ok (map (fun x => [x]) v).
Proof.
  induction v as [|x v IH]; [reflexivity|].
  cbn [map Genai.convert_all Genai.flat bind]. now rewrite IH.
Qed.

Lemma shape_nums (v : list F) :
  Genai.shape (Genai.ESeq (map Genai.ENum v)) <> None.
Proof.
  cbn [Genai.shape]. rewrite map_map. cbn [Genai.shape].
  destruct v as [|x v]; cbn [map]; [discriminate|].
  replace (forallb (fun t : option (list nat) =>
                      match t with
                      | Some t' => Genai.same_shape t' []
                      | None => false
                      end) (map (fun _ : F => Some []) v)) with true;
    [discriminate|].
  symmetry. apply forallb_forall. intros t Ht.
  apply in_map_iff in Ht as (y & <- & _). reflexivity.
Qed.

Lemma np_array_nums (v : list F) : Genai.np_array (map Genai.ENum v) = Ok v.
Proof.
  unfold Genai.np_array.
  destruct (Genai.shape (Genai.ESeq (map Genai.ENum v))) eqn:Hs;
    [|now apply shape_nums in Hs].
  clear Hs. cbn [Genai.flat]. rewrite convert_all_nums. cbn [bind]. f_equal.
  induction v as [|y v IH]; [reflexivity|]. cbn [map concat app]. now rewrite IH.
Qed.

Lemma is_vector_ok_nums (v : list F) :
  v <> [] -> Embeddings._is_vector_ok (Some (map Genai.ENum v)) = true.
Proof.
  destruct v as [|x v]; [contradiction|]. intros _. simpl.
  induction v as [|y v IH]; simpl; [reflexivity|exact IH].
Qed.




End EmbeddingPaths.



(** ** Building the index *)

Section Build.
Context {F : Type} `{Float32 F}.

Lemma np_vstack_ok (rows X : list (Lib.vec F)) :
  Lib.np_vstack rows = Ok X -> X = rows /\ rows <> [].
Proof.
  unfold Lib.np_vstack. destruct rows as [|r rest]; [discriminate|].
  destruct (forallb (fun r' => length r' =? length r)%nat rest); [|discriminate].
  intros Hx. injection Hx as <-. split; [reflexivity|discriminate].
Qed.

Lemma np_vstack_ragged (rows : list (Lib.vec F)) (r1 r2 : Lib.vec F) :
  In r1 rows -> In r2 rows -> length r1 <> length r2 ->
  Lib.np_vstack rows
  = Raise (Exn ValueError
      "all the input array dimensions except for the concatenation axis must match exactly").
Proof.
  intros H1 H2 Hne. unfold Lib.np_vstack.
  destruct rows as [|r rest]; [contradiction|].
  destruct (forallb (fun r' => length r' =? length r)%nat rest) eqn:Hall;
    [|reflexivity].
  rewrite forallb_forall in Hall.
  assert (Hlen : forall x, In x (r :: rest) -> length x = length r).
  { intros x [<-|Hx]; [reflexivity|]. now apply Nat.eqb_eq, Hall. }
  rewrite (Hlen _ H1), (Hlen _ H2) in Hne. contradiction.
Qed.

(** C4: a build from an embeddings table without rows fails with numpy's
    [ValueError] "need at least one array to concatenate" (the
    [EmptyInputError] of the specification), a build from vectors of
    different lengths fails with numpy's [ValueError] on mismatching
    dimensions (its [DimensionMismatchError]), and in both cases the files
    are exactly those from before: no index and no sidecar is written. *)
Theorem build_rejects_empty_and_ragged
  (st : Data.Store F) (embeddings_path index_path : string)
  (df : list (Data.EmbRow F)) :
  st embeddings_path = Some (Data.Parquet (Data.TEmbeddings df)) ->
  (df = [] ->
   VectorIndex.build_faiss_index st embeddings_path index_path
   = (Raise (Exn ValueError "need at least one array to concatenate"), st)) /\
  (forall r1 r2, In r1 df -> In r2 df ->
     length (Data.embedding r1) <> length (Data.embedding r2) ->
     VectorIndex.build_faiss_index st embeddings_path index_path
     = (Raise (Exn ValueError
          "all the input array dimensions except for the concatenation axis must match exactly"),
        st)).
Proof.
  intros Hst. unfold VectorIndex.build_faiss_index. rewrite Hst.
  cbn [VectorIndex.read_embeddings bind]. split.
  - intros ->. reflexivity.
  - intros r1 r2 H1 H2 Hne.
    rewrite (np_vstack_ragged (map (@Data.embedding F) df)
               (Data.embedding r1) (Data.embedding r2));
      [reflexivity|now apply in_map|now apply in_map|exact Hne].
Qed.

(** A build that fails leaves the files as they were. *)
Lemma build_failure_writes_nothing
  (st st' : Data.Store F) (embeddings_path index_path : string) (e : exn) :
  VectorIndex.build_faiss_index st embeddings_path index_path = (Raise e, st') ->
  st' = st.
Proof.
  unfold VectorIndex.build_faiss_index.
  destruct (st embeddings_path) as [f|]; [|now intros [= _ <-]].
  destruct (VectorIndex.read_embeddings f) as [df| |]; cbn [bind];
    try (now intros [= _ <-]).
  destruct (Lib.np_vstack _) as [X| |]; cbn [bind]; now intros [= _ <-].
Qed.

Lemma write_same (st : Data.Store F) (p : string) (f : Data.File F) :
  Data.write st p f p = Some f.
Proof. unfold Data.write. now rewrite String.eqb_refl. Qed.

Lemma write_other (st : Data.Store F) (p q : string) (f : Data.File F) :
  q <> p -> Data.write st p f q = st q.
Proof.
  intros Hne. unfold Data.write.
  destruct (String.eqb_spec q p); [contradiction|reflexivity].
Qed.

(** C5: after a successful build the files are the earlier ones with the
    index written at [index_path] and then the sidecar at its path; the
    index holds as many vectors as the sidecar has rows, and the [i]-th
    sidecar row is the metadata of the [i]-th row of the embeddings table,
    whose normalised vector is the [i]-th vector of the index.  With the
    default paths the two files are the ones [load_index] reads. *)
Theorem build_aligns_index_and_sidecar
  (st st' : Data.Store F) (embeddings_path index_path : string) :
  VectorIndex.build_faiss_index st embeddings_path index_path = (Ok tt, st') ->
  exists (df : list (Data.EmbRow F)) (ix : Lib.IndexFlatIP F)
         (mapping : list Data.MapRow),
    st embeddings_path = Some (Data.Parquet (Data.TEmbeddings df)) /\
    st' = Data.write (Data.write st index_path (Data.FaissIndex ix))
            (VectorIndex.map_path_of index_path)
            (Data.Parquet (Data.TMapping mapping)) /\
    st' (VectorIndex.map_path_of index_path)
    = Some (Data.Parquet (Data.TMapping mapping)) /\
    (VectorIndex.map_path_of index_path <> index_path ->
     st' index_path = Some (Data.FaissIndex ix)) /\
    Lib.ntotal ix = length mapping /\
    length mapping = length df /\
    (forall i r, nth_error df i = Some r ->
       nth_error mapping i = Some (Data.metadata (Data.features r)) /\
       nth_error (Lib.xb ix) i = Some (Lib.renorm (Data.embedding r))) /\
    (index_path = VectorIndex.default_index_path ->
     Recommend.load_index st' = Ok (ix, mapping)).
Proof.
  unfold VectorIndex.build_faiss_index.
  destruct (st embeddings_path) as [f|] eqn:Hst; [|discriminate].
  destruct (VectorIndex.read_embeddings f) as [df| |] eqn:Hdf; cbn [bind];
    try discriminate.
  destruct (Lib.np_vstack _) as [X| |] eqn:HX; cbn [bind]; try discriminate.
  intros Heq. injection Heq as <-.
  apply np_vstack_ok in HX as [-> _].
  assert (f = Data.Parquet (Data.TEmbeddings df)) as ->.
  { destruct f as [[df'|rows]|ix|]; simpl in Hdf; try discriminate.
    now injection Hdf as ->. }
  exists df.
  exists (Lib.add (Lib.new_index (Lib.shape1 (Lib.normalize_L2 (map (@Data.embedding F) df))))
                  (Lib.normalize_L2 (map (@Data.embedding F) df))).
  exists (map (fun r => Data.metadata (Data.features r)) df).
  split; [reflexivity|]. split; [reflexivity|].
  split; [apply write_same|].
  split; [intros Hne; rewrite write_other by congruence; apply write_same|].
  split; [unfold Lib.ntotal, Lib.add, Lib.normalize_L2; simpl;
          now rewrite !length_map|].
  split; [apply length_map|].
  split.
  - intros i r Hi. split.
    + now rewrite nth_error_map, Hi.
    + unfold Lib.add, Lib.normalize_L2. simpl.
      now rewrite !nth_error_map, Hi.
  - intros ->. unfold Recommend.load_index.
    rewrite write_same.
    rewrite write_other by (vm_compute; discriminate).
    rewrite write_same. reflexivity.
Qed.

End Build.

Lemma build_rejects_empty_and_ragged_witness :
  VectorIndex.build_faiss_index (Examples.with_embeddings [])
    VectorIndex.default_embeddings_path VectorIndex.default_index_path
  = (Raise (Exn ValueError "need at least one array to concatenate"),
     Examples.with_embeddings []) /\
  VectorIndex.build_faiss_index (Examples.with_embeddings Examples.emb_table_ragged)
    VectorIndex.default_embeddings_path VectorIndex.default_index_path
  = (Raise (Exn ValueError
       "all the input array dimensions except for the concatenation axis must match exactly"),
     Examples.with_embeddings Examples.emb_table_ragged).
Proof.
  split.
  - apply (build_rejects_empty_and_ragged (Examples.with_embeddings [])
             VectorIndex.default_embeddings_path VectorIndex.default_index_path []);
      reflexivity.
  - apply (build_rejects_empty_and_ragged
             (Examples.with_embeddings Examples.emb_table_ragged)
             VectorIndex.default_embeddings_path VectorIndex.default_index_path
             Examples.emb_table_ragged eq_refl)
      with (r1 := {| Data.features := Examples.feature 1 "Alpha";
                     Data.embedding := [1; 0] |})
           (r2 := {| Data.features := Examples.feature 2 "Beta";
                     Data.embedding := [3; 4; 5] |}).
    + left. reflexivity.
    + right. left. reflexivity.
    + simpl. discriminate.
Defined.

Lemma build_aligns_index_and_sidecar_witness :
  exists (ix : Lib.IndexFlatIP Q) (mapping : list Data.MapRow),
    Recommend.load_index (Examples.built Examples.emb_table) = Ok (ix, mapping) /\
    Lib.ntotal ix = 2%nat /\ length mapping = 2%nat.
Proof.
  destruct (build_aligns_index_and_sidecar
              (Examples.with_embeddings Examples.emb_table)
              (Examples.built Examples.emb_table)
              VectorIndex.default_embeddings_path VectorIndex.default_index_path)
    as (df & ix & mapping & Hdf & _ & _ & _ & Hn & Hm & _ & Hload).
  - vm_compute. reflexivity.
  - exists ix, mapping.
    assert (Hlen : length df = 2%nat).
    { vm_compute in Hdf. injection Hdf as <-. reflexivity. }
    split; [now apply Hload|]. split; congruence.
Defined.

(** ** Searching the index *)

Section Search.
Context {F : Type} `{Float32 F}.

Lemma insert_hit_length (h : Lib.hit F) (l : list (Lib.hit F)) :
  length (Lib.insert_hit h l) = S (length l).
Proof.
  induction l as [|e l IH]; simpl; [reflexivity|].
  destruct (fltb (fst h) (fst e)); simpl; [now rewrite IH|reflexivity].
Qed.

Lemma removelast_length {A} (l : list A) :
  length (removelast l) = pred (length l).
Proof.
  induction l as [|a [|b l] IH]; try reflexivity.
  change (removelast (a :: b :: l)) with (a :: removelast (b :: l)).
  change (length (a :: removelast (b :: l))) with (S (length (removelast (b :: l)))).
  rewrite IH. reflexivity.
Qed.

Lemma push_length (h : Lib.hit F) (l : list (Lib.hit F)) :
  length (Lib.push h l) = length l.
Proof.
  unfold Lib.push. destruct (fltb _ _); [|reflexivity].
  now rewrite removelast_length, insert_hit_length.
Qed.

Lemma scan_length (q : Lib.vec F) (xs : list (Lib.vec F)) :
  forall i best, length (Lib.scan q xs i best) = length best.
Proof.
  induction xs as [|x xs IH]; intros i best; simpl; [reflexivity|].
  now rewrite IH, push_length.
Qed.

(** The search returns [k] hits, whatever the size of the index. *)
Lemma knn_length (ix : Lib.IndexFlatIP F) (q : Lib.vec F) (k : nat) :
  length (Lib.knn ix q k) = k.
Proof. unfold Lib.knn. now rewrite scan_length, repeat_length. Qed.

Lemma insert_hit_Forall (P : Lib.hit F -> Prop) (h : Lib.hit F) (l : list (Lib.hit F)) :
  P h -> Forall P l -> Forall P (Lib.insert_hit h l).
Proof.
  intros Hh Hl. induction Hl as [|e l He Hl IH]; simpl.
  - now constructor.
  - destruct (fltb (fst h) (fst e)); repeat constructor; assumption.
Qed.

Lemma removelast_Forall {A} (P : A -> Prop) (l : list A) :
  Forall P l -> Forall P (removelast l).
Proof.
  induction 1 as [|a l Ha Hl IH]; [constructor|].
  destruct l as [|b l]; [constructor|].
  change (removelast (a :: b :: l)) with (a :: removelast (b :: l)).
  now constructor.
Qed.

Lemma push_Forall (P : Lib.hit F -> Prop) (h : Lib.hit F) (l : list (Lib.hit F)) :
  P h -> Forall P l -> Forall P (Lib.push h l).
Proof.
  intros Hh Hl. unfold Lib.push. destruct (fltb _ _); [|assumption].
  now apply removelast_Forall, insert_hit_Forall.
Qed.

Lemma label_ok_mono (n m : Z) (x : Lib.hit F) :
  (n <= m)%Z -> Lib.label_ok n x -> Lib.label_ok m x.
Proof. unfold Lib.label_ok. intros Hnm [Hx|Hx]; [now left|right; lia]. Qed.

Lemma scan_labels (q : Lib.vec F) (xs : list (Lib.vec F)) :
  forall i best, (0 <= i)%Z ->
    Forall (Lib.label_ok i) best ->
    Forall (Lib.label_ok (i + Z.of_nat (length xs))) (Lib.scan q xs i best).
Proof.
  induction xs as [|x xs IH]; intros i best Hi Hb; simpl.
  - now rewrite Z.add_0_r.
  - replace (i + Z.pos (Pos.of_succ_nat (length xs)))%Z
      with ((i + 1) + Z.of_nat (length xs))%Z by lia.
    apply IH; [lia|].
    apply push_Forall.
    + right. simpl. lia.
    + eapply Forall_impl; [|exact Hb].
      intros a. apply label_ok_mono. lia.
Qed.

(** Every label of a search result is [-1] or a position of the index. *)
Lemma knn_labels (ix : Lib.IndexFlatIP F) (q : Lib.vec F) (k : nat) :
  Forall (Lib.label_ok (Z.of_nat (Lib.ntotal ix))) (Lib.knn ix q k).
Proof.
  unfold Lib.knn, Lib.ntotal.
  apply (scan_labels q (Lib.xb ix) 0 (repeat Lib.no_hit k)); [lia|].
  apply Forall_forall. intros x Hx. apply repeat_spec in Hx. subst x.
  now left.
Qed.

Lemma scan_padding (q : Lib.vec F) (xs : list (Lib.vec F)) :
  forall i best, (0 <= i)%Z ->
    Forall (fun x => snd x = (-1)%Z -> fst x = flt_lowest) best ->
    Forall (fun x => snd x = (-1)%Z -> fst x = flt_lowest) (Lib.scan q xs i best).
Proof.
  induction xs as [|x xs IH]; intros i best Hi Hb; simpl; [exact Hb|].
  apply IH; [lia|]. apply push_Forall; [simpl; lia|exact Hb].
Qed.

(** A hit without a label has the lowest float as its inner product. *)
Lemma knn_padding (ix : Lib.IndexFlatIP F) (q : Lib.vec F) (k : nat) :
  Forall (fun x => snd x = (-1)%Z -> fst x = flt_lowest) (Lib.knn ix q k).
Proof.
  unfold Lib.knn. apply scan_padding; [lia|].
  apply Forall_forall. intros x Hx. apply repeat_spec in Hx. now subst x.
Qed.

Lemma found_insert_hit (h : Lib.hit F) (l : list (Lib.hit F)) :
  (Lib.found (Lib.insert_hit h l) <= S (Lib.found l))%nat.
Proof.
  unfold Lib.found. induction l as [|e l IH]; simpl.
  - destruct (0 <=? snd h)%Z; simpl; lia.
  - destruct (fltb (fst h) (fst e)); simpl.
    + destruct (0 <=? snd e)%Z; simpl; lia.
    + destruct (0 <=? snd h)%Z; simpl; lia.
Qed.

Lemma found_removelast (l : list (Lib.hit F)) :
  (Lib.found (removelast l) <= Lib.found l)%nat.
Proof.
  unfold Lib.found. induction l as [|a [|b l] IH].
  - simpl. lia.
  - simpl. lia.
  - change (removelast (a :: b :: l)) with (a :: removelast (b :: l)).
    set (t := removelast (b :: l)) in *.
    cbn [filter] in *. destruct (0 <=? snd a)%Z; cbn [length] in *; lia.
Qed.

Lemma found_push (h : Lib.hit F) (l : list (Lib.hit F)) :
  (Lib.found (Lib.push h l) <= S (Lib.found l))%nat.
Proof.
  unfold Lib.push. destruct (fltb _ _); [|lia].
  pose proof (found_removelast (Lib.insert_hit h l)).
  pose proof (found_insert_hit h l). lia.
Qed.

Lemma found_scan (q : Lib.vec F) (xs : list (Lib.vec F)) :
  forall i best,
    (Lib.found (Lib.scan q xs i best) <= Lib.found best + length xs)%nat.
Proof.
  induction xs as [|x xs IH]; intros i best; simpl; [lia|].
  pose proof (IH (i + 1)%Z (Lib.push (Lib.inner_product q x, i) best)).
  pose proof (found_push (Lib.inner_product q x, i) best). lia.
Qed.

Lemma found_le_length (l : list (Lib.hit F)) : (Lib.found l <= length l)%nat.
Proof. unfold Lib.found. apply filter_length_le. Qed.

Lemma found_no_hits (k : nat) : Lib.found (repeat (@Lib.no_hit F _) k) = 0%nat.
Proof. unfold Lib.found. induction k; simpl; [reflexivity|exact IHk]. Qed.

(** At most [min k N] of the hits carry a label. *)
Lemma knn_found (ix : Lib.IndexFlatIP F) (q : Lib.vec F) (k : nat) :
  (Lib.found (Lib.knn ix q k) <= Nat.min k (Lib.ntotal ix))%nat.
Proof.
  pose proof (found_le_length (Lib.knn ix q k)) as Hk.
  rewrite knn_length in Hk.
  pose proof (found_scan q (Lib.xb ix) 0 (repeat Lib.no_hit k)) as Hn.
  rewrite found_no_hits in Hn.
  unfold Lib.knn, Lib.ntotal in *. lia.
Qed.

End Search.

Section Ranking.
Context {F : Type} `{FloatOrder F}.

Lemma fltb_irrefl (a : F) : fltb a a = false.
Proof.
  destruct (fltb a a) eqn:Ha; [|reflexivity].
  now rewrite (fltb_asym a a Ha) in Ha.
Qed.

(** Inserting the hit of vector [n] keeps the order. *)
Lemma insert_hit_ranked (n : Z) (s : F) (l : list (Lib.hit F)) :
  Forall (Lib.label_ok n) l ->
  ForallOrdPairs Lib.before l ->
  ForallOrdPairs Lib.before (Lib.insert_hit (s, n) l).
Proof.
  intros Hok Hr.
  induction Hr as [|e l He Hr IH]; simpl.
  - repeat constructor.
  - apply Forall_cons_iff in Hok as [Hoke Hokl].
    destruct (fltb s (fst e)) eqn:Hse.
    + constructor; [|now apply IH].
      apply insert_hit_Forall; [|exact He].
      split; simpl; [now apply fltb_asym|]. intros Hc. congruence.
    + constructor; [|now constructor].
      assert (Hlab : forall b : Lib.hit F,
                 Lib.label_ok n b -> (0 <= snd b)%Z -> (snd b < n)%Z).
      { intros b [Hb|Hb] Hpos; lia. }
      constructor.
      * split; simpl; [exact Hse|]. intros _. now apply Hlab.
      * rewrite Forall_forall in *. intros b Hb.
        destruct (He b Hb) as [Heb _].
        split; simpl.
        -- exact (fltb_negtrans _ _ _ Hse Heb).
        -- intros _. apply Hlab. now apply Hokl.
Qed.

Lemma removelast_ranked (R : Lib.hit F -> Lib.hit F -> Prop) (l : list (Lib.hit F)) :
  ForallOrdPairs R l -> ForallOrdPairs R (removelast l).
Proof.
  induction 1 as [|a l Ha Hl IH]; [constructor|].
  destruct l as [|b l]; [constructor|].
  change (removelast (a :: b :: l)) with (a :: removelast (b :: l)).
  constructor; [now apply removelast_Forall|exact IH].
Qed.

Lemma push_ranked (n : Z) (s : F) (l : list (Lib.hit F)) :
  (0 <= n)%Z ->
  Forall (Lib.label_ok n) l -> ForallOrdPairs Lib.before l ->
  Forall (Lib.label_ok (n + 1)) (Lib.push (s, n) l) /\
  ForallOrdPairs Lib.before (Lib.push (s, n) l).
Proof.
  intros Hn Hok Hr. split.
  - apply push_Forall; [right; simpl; lia|].
    eapply Forall_impl; [|exact Hok]. intros a. apply label_ok_mono. lia.
  - unfold Lib.push.
    destruct (fltb (fst (last l (s, n))) (fst (s, n))); [|assumption].
    now apply removelast_ranked, insert_hit_ranked.
Qed.

Lemma scan_ranked (q : Lib.vec F) (xs : list (Lib.vec F)) :
  forall i best, (0 <= i)%Z ->
    Forall (Lib.label_ok i) best -> ForallOrdPairs Lib.before best ->
    ForallOrdPairs Lib.before (Lib.scan q xs i best).
Proof.
  induction xs as [|x xs IH]; intros i best Hi Hok Hr; simpl; [exact Hr|].
  destruct (push_ranked i (Lib.inner_product q x) best Hi Hok Hr) as [Hok' Hr'].
  apply IH; [lia|assumption|assumption].
Qed.

(** The hits of a search are ranked. *)
Lemma knn_ranked (ix : Lib.IndexFlatIP F) (q : Lib.vec F) (k : nat) :
  ForallOrdPairs Lib.before (Lib.knn ix q k).
Proof.
  unfold Lib.knn. apply scan_ranked; [lia| |].
  - apply Forall_forall. intros x Hx. apply repeat_spec in Hx. subst x. now left.
  - induction k; simpl; constructor; [|assumption].
    apply Forall_forall. intros x Hx. apply repeat_spec in Hx. subst x.
    split; simpl; [apply fltb_irrefl|lia].
Qed.

Lemma ordered_pairs_nth {A} (R : A -> A -> Prop) (l : list A) :
  ForallOrdPairs R l ->
  forall i j a b, (i < j)%nat ->
    nth_error l i = Some a -> nth_error l j = Some b -> R a b.
Proof.
  induction 1 as [|x l Hx Hl IH]; intros i j a b Hij Ha Hb.
  - now destruct i.
  - destruct j as [|j]; [lia|]. simpl in Hb.
    destruct i as [|i]; simpl in Ha.
    + injection Ha as <-. rewrite Forall_forall in Hx.
      apply Hx. eapply nth_error_In; eassumption.
    + apply (IH i j); [lia|assumption|assumption].
Qed.

(** In the result of a search, of two hits with the same inner product
    the one added to the index later stands first. *)
Lemma knn_ties_later_first (ix : Lib.IndexFlatIP F) (q : Lib.vec F) (k : nat) :
  forall i j a b, (i < j)%nat ->
    nth_error (Lib.knn ix q k) i = Some a ->
    nth_error (Lib.knn ix q k) j = Some b ->
    fst a = fst b -> (0 <= snd b)%Z -> (snd b < snd a)%Z.
Proof.
  intros i j a b Hij Ha Hb Heq Hpos.
  destruct (ordered_pairs_nth Lib.before _ (knn_ranked ix q k) i j a b Hij Ha Hb)
    as [_ Htie].
  apply Htie; [|exact Hpos]. rewrite Heq. apply fltb_irrefl.
Qed.

End Ranking.

(** ** Recommendations *)

Section Recommendations.
Context {F : Type} `{Float32 F}.

Lemma renorm_length (x : Lib.vec F) : length (Lib.renorm x) = length x.
Proof.
  unfold Lib.renorm. destruct (fltb fzero _); [apply length_map|reflexivity].
Qed.

Lemma row_at_ok {A} (rows : list A) (l : Z) (r : A) :
  Lib.row_at rows l = Ok r ->
  nth_error rows (Z.to_nat (if (l <? 0)%Z then l + Z.of_nat (length rows) else l))
  = Some r.
Proof.
  unfold Lib.row_at.
  set (p := if (l <? 0)%Z then (l + Z.of_nat (length rows))%Z else l).
  destruct ((0 <=? p)%Z && (p <? Z.of_nat (length rows))%Z); [|discriminate].
  destruct (nth_error rows (Z.to_nat p)); [|discriminate].
  now intros [= ->].
Qed.

Lemma row_at_in_range {A} (rows : list A) (l : Z) :
  (- Z.of_nat (length rows) <= l < Z.of_nat (length rows))%Z ->
  exists r, Lib.row_at rows l = Ok r.
Proof.
  intros Hl. unfold Lib.row_at.
  set (p := if (l <? 0)%Z then (l + Z.of_nat (length rows))%Z else l).
  assert (Hp : (0 <= p < Z.of_nat (length rows))%Z).
  { unfold p. destruct (Z.ltb_spec l 0); lia. }
  replace ((0 <=? p)%Z && (p <? Z.of_nat (length rows))%Z) with true
    by (symmetry; apply andb_true_intro; split;
        [apply Z.leb_le|apply Z.ltb_lt]; lia).
  destruct (nth_error rows (Z.to_nat p)) as [r|] eqn:Hr; [now exists r|].
  apply nth_error_None in Hr. lia.
Qed.

Lemma iloc_ok {A} (rows : list A) (labels : list Z) (rs : list A) :
  Lib.iloc rows labels = Ok rs ->
  length rs = length labels /\
  Forall (fun r => In r rows) rs /\
  (forall i l, nth_error labels i = Some l ->
     exists r, nth_error rs i = Some r /\
       nth_error rows (Z.to_nat (if (l <? 0)%Z then l + Z.of_nat (length rows) else l))
       = Some r).
Proof.
  revert rs. induction labels as [|l ls IH]; intros rs Hrs; simpl in Hrs.
  - injection Hrs as <-. repeat split; [constructor|]. intros [|i] l Hl; discriminate.
  - destruct (Lib.row_at rows l) as [r| |] eqn:Hr; cbn [bind] in Hrs;
      try discriminate.
    destruct (Lib.iloc rows ls) as [rs'| |]; cbn [bind] in Hrs; try discriminate.
    injection Hrs as <-.
    destruct (IH rs' eq_refl) as (Hlen & Hin & Hnth).
    apply row_at_ok in Hr.
    split; [simpl; now rewrite Hlen|].
    split; [constructor; [eapply nth_error_In; eassumption|exact Hin]|].
    intros [|i] l' Hl'; simpl in Hl'.
    + injection Hl' as <-. exists r. split; [reflexivity|exact Hr].
    + now apply Hnth.
Qed.

Lemma iloc_in_range {A} (rows : list A) (labels : list Z) :
  Forall (fun l => (- Z.of_nat (length rows) <= l < Z.of_nat (length rows))%Z) labels ->
  exists rs, Lib.iloc rows labels = Ok rs.
Proof.
  induction 1 as [|l ls Hl Hls [rs IH]]; simpl; [now eexists|].
  destruct (row_at_in_range rows l Hl) as [r ->]. rewrite IH. now eexists.
Qed.

(** The frame of results, row by row. *)
Lemma nth_results (results : list Data.MapRow) (hits : list (Lib.hit F)) :
  forall i,
    nth_error (map (@Recommend.pick F) (combine results (map fst hits))) i
    = match nth_error results i, nth_error hits i with
      | Some m, Some h => Some (Recommend.pick (m, fst h))
      | _, _ => None
      end.
Proof.
  revert hits. induction results as [|m results IH]; intros hits i.
  - destruct i; reflexivity.
  - destruct hits as [|h hits]; simpl.
    + destruct i; simpl; [reflexivity|]. now destruct (nth_error results i).
    + destruct i; simpl; [reflexivity|apply IH].
Qed.

(** What a call of [recommend_by_text] amounts to once the index is
    loaded and the query is embedded. *)
Lemma recommend_by_text_steps
  (st : Data.Store F) (svc : Genai.Service F) (query : pystr) (k : Z)
  (ix : Lib.IndexFlatIP F) (mapping : list Data.MapRow) (q : Lib.vec F) :
  Recommend.load_index st = Ok (ix, mapping) ->
  fst (Recommend.embed_query svc 0 query Recommend.default_model) = Some q ->
  Recommend.recommend_by_text st svc query k
  = (DI <- Lib.search ix (Lib.renorm q) k ;;
     results <- Lib.iloc mapping (snd DI) ;;
     Ok (Some (map (@Recommend.pick F) (combine results (fst DI))))).
Proof.
  intros Hl Hq. unfold Recommend.recommend_by_text.
  rewrite Hl. cbn [bind]. rewrite Hq.
  destruct (Lib.search ix (Lib.renorm q) k) as [[D I]| |]; reflexivity.
Qed.

(** C2, as the code has it: with the index loaded and the query embedded
    into a vector of the index's dimension, a call with [k <= 0] fails on
    the assertion [k > 0] of the search, and a call with [k > 0] on a
    non-empty index returns exactly [k] rows, each one built from a row of
    the sidecar; [k] is not reduced to the size of the index. *)
Theorem recommend_does_not_clamp_k
  (st : Data.Store F) (svc : Genai.Service F) (query : pystr) (k : Z)
  (ix : Lib.IndexFlatIP F) (mapping : list Data.MapRow) (q : Lib.vec F) :
  Recommend.load_index st = Ok (ix, mapping) ->
  length mapping = Lib.ntotal ix ->
  fst (Recommend.embed_query svc 0 query Recommend.default_model) = Some q ->
  length q = Lib.d ix ->
  ((k <= 0)%Z ->
   Recommend.recommend_by_text st svc query k
   = Raise (Exn AssertionError "k > 0")) /\
  ((0 < k)%Z -> (0 < Lib.ntotal ix)%nat ->
   exists res,
     Recommend.recommend_by_text st svc query k = Ok (Some res) /\
     length res = Z.to_nat k /\
     Forall (fun r => exists m, In m mapping /\
                                r = Recommend.pick (m, Recommend.r_similarity r)) res).
Proof.
  intros Hl Hn Hq Hd.
  rewrite (recommend_by_text_steps st svc query k ix mapping q Hl Hq).
  unfold Lib.search.
  rewrite renorm_length, Hd, Nat.eqb_refl. cbn [negb].
  split.
  - intros Hk. apply Z.ltb_ge in Hk. rewrite Hk. reflexivity.
  - intros Hk Hpos. apply Z.ltb_lt in Hk. rewrite Hk. cbn [negb bind fst snd].
    set (hits := Lib.knn ix (Lib.renorm q) (Z.to_nat k)).
    destruct (iloc_in_range mapping (map snd hits)) as [rs Hrs].
    { apply Forall_forall. intros l Hin. apply in_map_iff in Hin as (h & <- & Hh).
      pose proof (knn_labels ix (Lib.renorm q) (Z.to_nat k)) as Hlab.
      rewrite Forall_forall in Hlab. specialize (Hlab h Hh).
      rewrite Hn. destruct Hlab as [Hm|Hr]; lia. }
    rewrite Hrs. cbn [bind]. eexists. split; [reflexivity|].
    destruct (iloc_ok mapping (map snd hits) rs Hrs) as (Hlen & Hin & _).
    rewrite length_map in Hlen.
    split.
    + rewrite length_map, length_combine, length_map, Hlen.
      pose proof (knn_length ix (Lib.renorm q) (Z.to_nat k)) as Hk'.
      fold hits in Hk'. unfold Lib.hit in *. lia.
    + apply Forall_forall. intros r Hr.
      apply in_map_iff in Hr as ([m s] & <- & Hms).
      exists m. split; [|reflexivity].
      apply in_combine_l in Hms. rewrite Forall_forall in Hin. now apply Hin.
Qed.

End Recommendations.

Section RankedRecommendations.
Context {F : Type} `{FloatOrder F}.

(** C3, as the code has it: a successful call returns exactly [k] rows,
    of which at most [min k N] come from a vector of the index; the
    similarities do not increase from one row to the next; the rows are in
    the order of the hits of the search, the row of a hit with label [l]
    being built from row [l] of the sidecar and the row of a missing hit
    from its last row, with the lowest float as similarity. *)
Theorem recommend_ranks_by_similarity
  (st : Data.Store F) (svc : Genai.Service F) (query : pystr) (k : Z)
  (ix : Lib.IndexFlatIP F) (mapping : list Data.MapRow) (q : Lib.vec F)
  (res : list (Recommend.Rec F)) :
  Recommend.load_index st = Ok (ix, mapping) ->
  fst (Recommend.embed_query svc 0 query Recommend.default_model) = Some q ->
  Recommend.recommend_by_text st svc query k = Ok (Some res) ->
  let hits := Lib.knn ix (Lib.renorm q) (Z.to_nat k) in
  length res = Z.to_nat k /\
  (Lib.found hits <= Nat.min (Z.to_nat k) (Lib.ntotal ix))%nat /\
  (forall i j a b, (i < j)%nat ->
     nth_error res i = Some a -> nth_error res j = Some b ->
     fltb (Recommend.r_similarity a) (Recommend.r_similarity b) = false) /\
  (forall i h, nth_error hits i = Some h ->
     exists m, nth_error res i = Some (Recommend.pick (m, fst h)) /\
       ((0 <= snd h)%Z /\ nth_error mapping (Z.to_nat (snd h)) = Some m \/
        snd h = (-1)%Z /\ fst h = flt_lowest /\
        nth_error mapping (length mapping - 1) = Some m)).
Proof.
  intros Hl Hq Hres hits.
  rewrite (recommend_by_text_steps st svc query k ix mapping q Hl Hq) in Hres.
  unfold Lib.search in Hres.
  destruct (negb (length (Lib.renorm q) =? Lib.d ix)%nat); [discriminate|].
  destruct (negb (0 <? k)%Z); [discriminate|].
  cbn [bind fst snd] in Hres. fold hits in Hres.
  destruct (Lib.iloc mapping (map snd hits)) as [rs| |] eqn:Hrs;
    cbn [bind] in Hres; try discriminate.
  injection Hres as <-.
  destruct (iloc_ok mapping (map snd hits) rs Hrs) as (Hlen & _ & Hrows).
  rewrite length_map in Hlen.
  pose proof (knn_length ix (Lib.renorm q) (Z.to_nat k)) as Hk. fold hits in Hk.
  pose proof (knn_ranked ix (Lib.renorm q) (Z.to_nat k)) as Hranked.
  fold hits in Hranked.
  pose proof (knn_labels ix (Lib.renorm q) (Z.to_nat k)) as Hlabels.
  fold hits in Hlabels.
  pose proof (knn_padding ix (Lib.renorm q) (Z.to_nat k)) as Hpad.
  fold hits in Hpad.
  assert (Hnth : forall i r, nth_error
                   (map (@Recommend.pick F) (combine rs (map fst hits))) i = Some r ->
                 exists h, nth_error hits i = Some h /\ Recommend.r_similarity r = fst h).
  { intros i r Hr. rewrite nth_results in Hr.
    destruct (nth_error rs i) as [m|]; [|discriminate].
    destruct (nth_error hits i) as [h|]; [|discriminate].
    injection Hr as <-. now exists h. }
  split; [|split; [|split]].
  - rewrite length_map, length_combine, length_map.
    unfold Lib.hit in *. lia.
  - apply knn_found.
  - intros i j a b Hij Ha Hb.
    destruct (Hnth i a Ha) as (ha & Hha & ->).
    destruct (Hnth j b Hb) as (hb & Hhb & ->).
    apply (ordered_pairs_nth Lib.before hits Hranked i j ha hb Hij Hha Hhb).
  - intros i h Hh.
    destruct (Hrows i (snd h)) as (m & Hr & Hm).
    { rewrite nth_error_map. unfold Lib.hit in *. now rewrite Hh. }
    exists m. split.
    { rewrite nth_results, Hr. unfold Lib.hit in *. now rewrite Hh. }
    rewrite Forall_forall in Hlabels, Hpad.
    pose proof (nth_error_In _ _ Hh) as Hin.
    destruct (Hlabels h Hin) as [Hneg|Hpos].
    + right. split; [exact Hneg|]. split; [now apply Hpad|].
      rewrite Hneg in Hm. simpl in Hm.
      replace (length mapping - 1)%nat
        with (Z.to_nat (-1 + Z.of_nat (length mapping))) by lia.
      exact Hm.
    + left. split; [lia|].
      destruct (Z.ltb_spec (snd h) 0); [lia|exact Hm].
Qed.

End RankedRecommendations.

(** The rationals of [Examples.Qfloat] are ordered as [FloatOrder] asks. *)
Lemma Qfloat_order : FloatOrder Q.
Proof.
  assert (Hlt : forall a b : Q, fltb a b = true <-> (a < b)%Q).
  { intros a b. simpl. rewrite negb_true_iff.
    split.
    - intros Hle. apply Qnot_le_lt. intros Hc.
      apply Qle_bool_iff in Hc. congruence.
    - intros Hab. destruct (Qle_bool b a) eqn:Hle; [|reflexivity].
      apply Qle_bool_iff in Hle. exfalso. exact (Qlt_not_le _ _ Hab Hle). }
  assert (Hge : forall a b : Q, fltb a b = false <-> (b <= a)%Q).
  { intros a b. simpl. rewrite negb_false_iff. apply Qle_bool_iff. }
  constructor.
  - intros a b Hab. apply Hge. apply Qlt_le_weak. now apply Hlt.
  - intros a b c Hab Hbc. apply Hge. eapply Qle_trans; apply Hge; eassumption.
Qed.

(** An index of two items asked for three results returns three rows. *)
Lemma recommend_three_of_two :
  exists ix mapping res,
    Recommend.load_index (Examples.built Examples.emb_table) = Ok (ix, mapping) /\
    Lib.ntotal ix = 2%nat /\
    Recommend.recommend_by_text (Examples.built Examples.emb_table)
      (Examples.svc_dict [1; 0]) (lit "space heist") 3 = Ok (Some res) /\
    length res = 3%nat /\
    length res <> Lib.ntotal ix /\
    map (@Recommend.r_title Q) res = [lit "Alpha"; lit "Beta"; lit "Beta"].
Proof.
  eexists _, _, _.
  split; [vm_compute; reflexivity|].
  split; [reflexivity|].
  split; [vm_compute; reflexivity|].
  split; [reflexivity|].
  split; [vm_compute; discriminate|reflexivity].
Qed.

Lemma recommend_does_not_clamp_k_witness :
  Recommend.recommend_by_text (Examples.built Examples.emb_table)
    (Examples.svc_dict [1; 0]) (lit "space heist") 0
  = Raise (Exn AssertionError "k > 0") /\
  exists res,
    Recommend.recommend_by_text (Examples.built Examples.emb_table)
      (Examples.svc_dict [1; 0]) (lit "space heist") 3 = Ok (Some res) /\
    length res = 3%nat.
Proof.
  split.
  - edestruct (recommend_does_not_clamp_k (Examples.built Examples.emb_table)
                 (Examples.svc_dict [1; 0]) (lit "space heist") 0) as [Hzero _].
    + vm_compute. reflexivity.
    + reflexivity.
    + vm_compute. reflexivity.
    + reflexivity.
    + apply Hzero. lia.
  - edestruct (recommend_does_not_clamp_k (Examples.built Examples.emb_table)
                 (Examples.svc_dict [1; 0]) (lit "space heist") 3) as [_ Hpos].
    + vm_compute. reflexivity.
    + reflexivity.
    + vm_compute. reflexivity.
    + reflexivity.
    + destruct Hpos as (res & Hres & Hlen & _); [lia|vm_compute; lia|].
      exists res. split; [exact Hres|exact Hlen].
Defined.

(** An index of three items asked for five results returns five rows,
    more than [min 5 3]. *)
Lemma recommend_five_of_three :
  exists ix mapping res,
    Recommend.load_index (Examples.built Examples.emb_table_ties) = Ok (ix, mapping) /\
    Lib.ntotal ix = 3%nat /\
    Recommend.recommend_by_text (Examples.built Examples.emb_table_ties)
      (Examples.svc_dict [1; 0]) (lit "space heist") 5 = Ok (Some res) /\
    length res = 5%nat /\
    ~ (length res <= Nat.min 5 3)%nat.
Proof.
  eexists _, _, _.
  split; [vm_compute; reflexivity|].
  split; [reflexivity|].
  split; [vm_compute; reflexivity|].
  split; [reflexivity|]. simpl. lia.
Qed.

(** Two items with the same direction: the later one comes first. *)
Lemma equal_hits_example :
  option_map (map (@Recommend.r_title Q))
    (match Recommend.recommend_by_text (Examples.built Examples.emb_table_ties)
             (Examples.svc_dict [1; 0]) (lit "space heist") 2 with
     | Ok r => r
     | _ => None
     end)
  = Some [lit "Beta"; lit "Alpha"].
Proof. vm_compute. reflexivity. Qed.

Lemma recommend_ranks_by_similarity_witness :
  exists res,
    Recommend.recommend_by_text (Examples.built Examples.emb_table_ties)
      (Examples.svc_dict [1; 0]) (lit "space heist") 2 = Ok (Some res) /\
    length res = 2%nat /\
    map (@Recommend.r_similarity Q) res = [1; 1].
Proof.
  eexists. split; [vm_compute; reflexivity|].
  edestruct (@recommend_ranks_by_similarity Q Examples.Qfloat Qfloat_order
               (Examples.built Examples.emb_table_ties)
               (Examples.svc_dict [1; 0]) (lit "space heist") 2)
    as (Hlen & _).
  - vm_compute. reflexivity.
  - vm_compute. reflexivity.
  - vm_compute. reflexivity.
  - split; [exact Hlen|reflexivity].
Defined.

(* ================================================================== *)
(** * Further properties                                               *)
(* ================================================================== *)

(** ** Embedding one text *)

Section EmbedOne.
Context {F : Type} `{Float32 F}.

Lemma is_vector_ok_inv (xs : list (Genai.elem F)) :
  Embeddings._is_vector_ok (Some xs) = true ->
  xs <> [] /\ forallb Genai.is_num xs = true.
Proof.
  destruct xs as [|x xs]; [discriminate|]. intros Hok.
  split; [discriminate|exact Hok].
Qed.

Lemma response_as_vector_ok (resp : Genai.response F) (xs : list (Genai.elem F)) :
  Embeddings.response_as_vector resp = Ok (Some xs) ->
  xs <> [] /\
  (forallb Genai.is_num xs = true \/ resp = Genai.RespArrayNd true xs).
Proof.
  destruct resp as [p|e b|ys|numeric ys|numeric|numeric subs|];
    cbn [Embeddings.response_as_vector]; try discriminate.
  - destruct (Embeddings._is_vector_ok (Some ys)) eqn:Hok; [|discriminate].
    intros [= <-]. apply is_vector_ok_inv in Hok as [Hne Hnum].
    split; [exact Hne|now left].
  - destruct numeric; simpl; [|discriminate].
    destruct ys as [|y ys]; simpl; [discriminate|].
    intros [= <-]. split; [discriminate|]. left. simpl.
    induction ys as [|z ys IH]; simpl; [reflexivity|exact IH].
  - destruct numeric; discriminate.
  - destruct numeric; cbn [andb]; [|discriminate].
    destruct (0 <? list_sum (map Genai.size subs))%nat eqn:Hsize; [|discriminate].
    intros [= <-]. split; [|now right].
    intros ->. discriminate Hsize.
Qed.

Lemma attempt_body_ok (svc : Genai.Service F) (n : nat) (model : string)
      (text : pystr) (xs : list (Genai.elem F)) :
  Embeddings.attempt_body svc n model text = Ok (Some xs) ->
  xs <> [] /\
  (forallb Genai.is_num xs = true \/
   svc n model text = Genai.Returns (Genai.RespArrayNd true xs)).
Proof.
  unfold Embeddings.attempt_body, Genai.call.
  destruct (svc n model text) as [resp|e]; cbn [bind]; [|discriminate].
  destruct (Embeddings._extract_vector resp) as [vec| |]; cbn [bind]; try discriminate.
  destruct (Embeddings._is_vector_ok vec) eqn:Hok.
  - intros [= ->]. apply is_vector_ok_inv in Hok as [Hne Hnum].
    split; [exact Hne|now left].
  - intros Hr. apply response_as_vector_ok in Hr as [Hne [Hnum| ->]].
    + split; [exact Hne|now left].
    + split; [exact Hne|now right].
Qed.

Lemma attempts_spec (svc : Genai.Service F) (model : string) (text : pystr) :
  forall left n,
    (n <= snd (Embeddings.attempts svc model text left n) <= n + left)%nat /\
    (forall v, fst (Embeddings.attempts svc model text left n) = Some v ->
       v <> [] /\
       (n < snd (Embeddings.attempts svc model text left n))%nat /\
       (forallb Genai.is_num v = true \/
        svc (pred (snd (Embeddings.attempts svc model text left n))) model text
        = Genai.Returns (Genai.RespArrayNd true v))) /\
    (fst (Embeddings.attempts svc model text left n) = None ->
     snd (Embeddings.attempts svc model text left n) = (n + left)%nat).
Proof.
  induction left as [|left IH]; intros n; cbn [Embeddings.attempts].
  - simpl. split; [lia|]. split; [discriminate|]. intros _. lia.
  - destruct (IH (S n)) as (Hb & Hs & Hn).
    destruct (Embeddings.attempt_body svc n model text) as [[xs|]|e|] eqn:Hbody;
      cbn [try_except].
    + simpl. split; [lia|]. split; [|discriminate].
      intros v [= <-]. apply attempt_body_ok in Hbody as [Hne Hkind].
      split; [exact Hne|]. split; [lia|exact Hkind].
    + split; [lia|]. split.
      * intros v Hv. destruct (Hs v Hv) as (? & ? & ?).
        split; [assumption|]. split; [lia|assumption].
      * intros Hv. rewrite (Hn Hv). lia.
    + split; [lia|]. split.
      * intros v Hv. destruct (Hs v Hv) as (? & ? & ?).
        split; [assumption|]. split; [lia|assumption].
      * intros Hv. rewrite (Hn Hv). lia.
    + split; [lia|]. split.
      * intros v Hv. destruct (Hs v Hv) as (? & ? & ?).
        split; [assumption|]. split; [lia|assumption].
      * intros Hv. rewrite (Hn Hv). lia.
Qed.

Lemma embed_one_spec
  (svc : Genai.Service F) (n : nat) (text : option pystr) (model : string)
  (retries : nat) :
  (n <= snd (Embeddings.embed_one svc n text model retries) <= n + retries)%nat /\
  (forall v, fst (Embeddings.embed_one svc n text model retries) = Some v ->
     v <> [] /\
     (n < snd (Embeddings.embed_one svc n text model retries))%nat /\
     (forallb Genai.is_num v = true \/
      svc (pred (snd (Embeddings.embed_one svc n text model retries))) model
        (strip match text with Some t => t | None => [] end)
      = Genai.Returns (Genai.RespArrayNd true v))) /\
  (fst (Embeddings.embed_one svc n text model retries) = None ->
   snd (Embeddings.embed_one svc n text model retries) = n \/
   snd (Embeddings.embed_one svc n text model retries) = (n + retries)%nat).
Proof.
  unfold Embeddings.embed_one.
  destruct (strip match text with Some t => t | None => [] end) as [|c t].
  - simpl. split; [lia|]. split; [discriminate|]. now left.
  - destruct (attempts_spec svc model (c :: t) retries n) as (Hb & Hs & Hn).
    split; [exact Hb|]. split; [exact Hs|].
    intros Hv. right. now apply Hn.
Qed.

(** X1: [embed_one] makes at most [retries] calls of the service.  A vector it
    returns is non-empty and cost at least one call; it holds [int]s and
    [float]s only, unless the last reply was itself an array of two or
    more dimensions with a numeric dtype, in which case what is returned
    is the list of the sub-arrays of that reply.  When [embed_one] returns
    [None] it made either no call at all or all [retries] calls. *)
Theorem embed_one_calls_and_result
  (svc : Genai.Service F) (n : nat) (text : option pystr) (model : string)
  (retries : nat) :
  (n <= snd (Embeddings.embed_one svc n text model retries) <= n + retries)%nat /\
  (forall v, fst (Embeddings.embed_one svc n text model retries) = Some v ->
     v <> [] /\
     (n < snd (Embeddings.embed_one svc n text model retries))%nat /\
     (forallb Genai.is_num v = true \/
      svc (pred (snd (Embeddings.embed_one svc n text model retries))) model
        (strip match text with Some t => t | None => [] end)
      = Genai.Returns (Genai.RespArrayNd true v))) /\
  (fst (Embeddings.embed_one svc n text model retries) = None ->
   snd (Embeddings.embed_one svc n text model retries) = n \/
   snd (Embeddings.embed_one svc n text model retries) = (n + retries)%nat).
Proof. apply embed_one_spec. Qed.

Lemma strip_blank (t : pystr) : forallb isspace t = true -> strip t = [].
Proof.
  intros Ht. unfold strip.
  assert (Hl : lstrip t = []).
  { induction t as [|c t IH]; [reflexivity|]. simpl in *.
    apply andb_prop in Ht as [Hc Ht]. rewrite Hc. now apply IH. }
  now rewrite Hl.
Qed.

(** X2: A text that is [None], empty or made of whitespace only is not sent
    to the service: [embed_one] returns [None] without a call. *)
Theorem embed_one_blank_makes_no_call
  (svc : Genai.Service F) (n : nat) (text : option pystr) (model : string)
  (retries : nat) :
  (forall t, text = Some t -> forallb isspace t = true) ->
  Embeddings.embed_one svc n text model retries = (None, n).
Proof.
  intros Hblank. unfold Embeddings.embed_one.
  destruct text as [t|]; [|reflexivity].
  now rewrite (strip_blank t (Hblank t eq_refl)).
Qed.

Lemma attempts_until_success (svc : Genai.Service F) (model : string)
      (text : pystr) (v : list F) (b : option (Genai.batch F)) :
  v <> [] ->
  forall j left n,
    (j < left)%nat ->
    (forall i, (i < j)%nat -> EmbeddingsMain.call_fails svc (n + i) model text) ->
    svc (n + j)%nat model text
    = Genai.Returns (Genai.RespDict (Some (Genai.PList (map Genai.ENum v))) b) ->
    Embeddings.attempts svc model text left n
    = (Some (map Genai.ENum v), S (n + j)).
Proof.
  intros Hv. induction j as [|j IH]; intros left n Hj Hfail Hsucc.
  - destruct left as [|left]; [lia|]. cbn [Embeddings.attempts].
    unfold Embeddings.attempt_body, Genai.call.
    rewrite Nat.add_0_r in Hsucc. rewrite Hsucc. cbn [bind Embeddings._extract_vector].
    rewrite (is_vector_ok_nums v Hv). cbn [try_except].
    now rewrite Nat.add_0_r.
  - destruct left as [|left]; [lia|]. cbn [Embeddings.attempts].
    assert (Hnone : try_except (Embeddings.attempt_body svc n model text)
                      (fun _ => Ok None) = Ok None).
    { unfold Embeddings.attempt_body, Genai.call.
      specialize (Hfail 0%nat ltac:(lia)). rewrite Nat.add_0_r in Hfail.
      destruct Hfail as [[e He]|He]; rewrite He; reflexivity. }
    rewrite Hnone.
    rewrite (IH left (S n)); [f_equal; lia|lia| |].
    + intros i Hi. replace (S n + i)%nat with (n + S i)%nat by lia.
      apply Hfail. lia.
    + now replace (S n + j)%nat with (n + S j)%nat by lia.
Qed.

(** X3: [embed_one] retries: when the first [j] calls fail, [j] being below
    [retries], and the next call answers with a non-empty list of
    numbers under ["embedding"], that list is returned after [j + 1]
    calls; every call is made with the stripped text. *)
Theorem embed_one_retries_until_success
  (svc : Genai.Service F) (n j retries : nat) (text : pystr) (model : string)
  (v : list F) (b : option (Genai.batch F)) :
  strip text <> [] ->
  v <> [] ->
  (j < retries)%nat ->
  (forall i, (i < j)%nat -> EmbeddingsMain.call_fails svc (n + i) model (strip text)) ->
  svc (n + j)%nat model (strip text)
  = Genai.Returns (Genai.RespDict (Some (Genai.PList (map Genai.ENum v))) b) ->
  Embeddings.embed_one svc n (Some text) model retries
  = (Some (map Genai.ENum v), S (n + j)).
Proof.
  intros Hne Hv Hj Hfail Hsucc. unfold Embeddings.embed_one.
  destruct (strip text) as [|c t] eqn:Hs; [contradiction|].
  now apply attempts_until_success with b.
Qed.

End EmbedOne.

Lemma embed_one_blank_makes_no_call_witness :
  Embeddings.embed_one Examples.svc_down 0 (Some (lit "   ")) Embeddings.default_model 3
  = (None, 0%nat).
Proof.
  apply embed_one_blank_makes_no_call.
  intros t [= <-]. reflexivity.
Defined.

Lemma embed_one_retries_until_success_witness :
  Embeddings.embed_one (Samples.svc_flaky [3; 4]) 0 (Some (lit " space heist "))
    Embeddings.default_model 3
  = (Some [Genai.ENum 3; Genai.ENum 4], 3%nat).
Proof.
  apply (embed_one_retries_until_success (Samples.svc_flaky [3; 4]) 0 2 3
           (lit " space heist ") Embeddings.default_model [3; 4] None).
  - vm_compute. discriminate.
  - discriminate.
  - lia.
  - intros i Hi. left. exists (Exn RuntimeError "429 quota exceeded").
    unfold Samples.svc_flaky. simpl.
    destruct (Nat.ltb_spec i 2); [reflexivity|lia].
  - reflexivity.
Defined.

(** ** The embedding run *)

Section EmbedBatch.
Context {F : Type} `{Float32 F}.

Lemma numbers_nums (v : list F) : EmbeddingsMain.numbers (map Genai.ENum v) = v.
Proof. induction v as [|x v IH]; simpl; [reflexivity|now rewrite IH]. Qed.

Lemma numbers_length (xs : list (Genai.elem F)) :
  EmbeddingsMain.storable xs = true ->
  length (EmbeddingsMain.numbers xs) = length xs.
Proof.
  induction xs as [|[x| |x|ys|] xs IH]; simpl; intros Hok; try discriminate;
    [reflexivity|]. now rewrite IH.
Qed.

Lemma keep_valid_subseq (rows : list Features.FeatureRow) :
  forall vecs : list (option (list (Genai.elem F))),
    length vecs = length rows ->
    subseq (map fst (EmbeddingsMain.keep_valid rows vecs)) rows.
Proof.
  induction rows as [|r rows IH]; intros [|v vecs] Hlen; simpl in *;
    try discriminate; [constructor|].
  destruct (Embeddings._is_vector_ok v); simpl; constructor; apply IH; lia.
Qed.

Lemma keep_valid_nonempty (rows : list Features.FeatureRow) :
  forall vecs : list (option (list (Genai.elem F))),
    Forall (fun p => snd p <> []) (EmbeddingsMain.keep_valid rows vecs).
Proof.
  induction rows as [|r rows IH]; intros [|v vecs]; simpl; try constructor.
  destruct (Embeddings._is_vector_ok v) eqn:Hok; [|apply IH].
  constructor; [|apply IH]. simpl.
  destruct v as [[|x xs]|]; simpl in *; discriminate.
Qed.

(** What [to_parquet] gives, by its three ways out. *)
Lemma to_parquet_spec (kept : list (Features.FeatureRow * list (Genai.elem F)))
      (failure : option exn) (refusal : exn) :
  match EmbeddingsMain.to_parquet kept failure refusal with
  | Ok out =>
      failure = None /\
      map (@Data.features F) out = map fst kept /\
      Forall2 (fun p r => length (Data.embedding r) = length (snd p)) kept out
  | Raise e => failure = Some e \/ (failure = None /\ e = refusal)
  | Stop => False
  end.
Proof.
  unfold EmbeddingsMain.to_parquet.
  destruct failure as [e|]; [now left|].
  destruct (forallb (fun r => EmbeddingsMain.storable (snd r)) kept) eqn:Hst;
    [|now right].
  split; [reflexivity|]. rewrite map_map. cbn [Data.features].
  split; [reflexivity|].
  induction kept as [|p kept IH]; cbn [map]; constructor.
  - cbn [Data.embedding]. apply numbers_length.
    cbn [forallb] in Hst. now apply andb_prop in Hst as [Hp _].
  - apply IH. cbn [forallb] in Hst. now apply andb_prop in Hst as [_ Hk].
Qed.

Lemma embed_rows_spec (svc : Genai.Service F) (rows : list Features.FeatureRow) :
  forall n,
    length (fst (EmbeddingsMain.embed_rows svc n rows)) = length rows /\
    (n <= snd (EmbeddingsMain.embed_rows svc n rows) <= n + 3 * length rows)%nat.
Proof.
  induction rows as [|r rows IH]; intros n; cbn [EmbeddingsMain.embed_rows].
  - simpl. lia.
  - destruct (embed_one_spec svc n (Some (Features.text_blob r))
                Embeddings.default_model Embeddings.default_retries) as (Hb & _).
    destruct (Embeddings.embed_one svc n (Some (Features.text_blob r))
                Embeddings.default_model Embeddings.default_retries) as [vec n1].
    specialize (IH n1).
    destruct (EmbeddingsMain.embed_rows svc n1 rows) as [vecs n2].
    simpl in *. unfold Embeddings.default_retries in Hb. lia.
Qed.

(** X4: In the run over a feature table the service is called at most three
    times per row, and the run can fail only in its last step, the write
    of the table: neither the loop nor the filter raises.  When the run
    ends well the write did not fail, the saved rows are rows of the
    table in their order, and every saved vector is non-empty.  When it
    raises, it raises what the write raised. *)
Theorem embeddings_main_keeps_valid_rows
  (svc : Genai.Service F) (rows : list Features.FeatureRow)
  (failure : option exn) (refusal : exn) :
  (snd (EmbeddingsMain.main svc (EmbeddingsMain.FeatureTable rows) failure refusal)
   <= 3 * length rows)%nat /\
  match fst (EmbeddingsMain.main svc (EmbeddingsMain.FeatureTable rows)
               failure refusal) with
  | Ok out =>
      failure = None /\
      subseq (map (@Data.features F) out) rows /\
      Forall (fun r => Data.embedding r <> []) out
  | Raise e => failure = Some e \/ (failure = None /\ e = refusal)
  | Stop => False
  end.
Proof.
  unfold EmbeddingsMain.main.
  destruct (embed_rows_spec svc rows 0) as [Hlen Hcalls].
  destruct (EmbeddingsMain.embed_rows svc 0 rows) as [vecs n]. cbn [fst snd] in *.
  split; [lia|].
  pose proof (keep_valid_subseq rows vecs Hlen) as Hsub.
  pose proof (keep_valid_nonempty rows vecs) as Hne.
  pose proof (to_parquet_spec (EmbeddingsMain.keep_valid rows vecs) failure refusal)
    as Hw.
  destruct (EmbeddingsMain.to_parquet (EmbeddingsMain.keep_valid rows vecs)
              failure refusal) as [out|e|]; [|exact Hw|exact Hw].
  destruct Hw as (Hf & Hrows & Hlens).
  split; [exact Hf|]. split; [now rewrite Hrows|].
  clear Hsub Hrows. induction Hlens as [|p r kept out Hpr Hrest IH]; constructor.
  - apply Forall_inv in Hne. intros Hnil. rewrite Hnil in Hpr.
    destruct (snd p); [contradiction|discriminate].
  - apply IH. now apply Forall_inv_tail in Hne.
Qed.

Lemma attempts_stateless (svc : Genai.Service F) (model : string) (text : pystr) :
  (forall n m, svc n model text = svc m model text) ->
  forall left n m,
    fst (Embeddings.attempts svc model text left n)
    = fst (Embeddings.attempts svc model text left m).
Proof.
  intros Hsvc. induction left as [|left IH]; intros n m; [reflexivity|].
  cbn [Embeddings.attempts].
  assert (Hbody : Embeddings.attempt_body svc n model text
                  = Embeddings.attempt_body svc m model text).
  { unfold Embeddings.attempt_body, Genai.call. now rewrite (Hsvc n m). }
  rewrite Hbody.
  destruct (try_except (Embeddings.attempt_body svc m model text) (fun _ => Ok None))
    as [[v|]| |]; try reflexivity; apply IH.
Qed.

Lemma embed_one_stateless (svc : Genai.Service F) (text : option pystr)
      (model : string) (retries : nat) :
  (forall n m t, svc n model t = svc m model t) ->
  forall n m,
    fst (Embeddings.embed_one svc n text model retries)
    = fst (Embeddings.embed_one svc m text model retries).
Proof.
  intros Hsvc n m. unfold Embeddings.embed_one.
  destruct (strip match text with Some t => t | None => [] end) as [|c t];
    [reflexivity|].
  apply attempts_stateless. intros a b. apply Hsvc.
Qed.

Lemma embed_rows_stateless (svc : Genai.Service F) (rows : list Features.FeatureRow) :
  (forall n m t, svc n Embeddings.default_model t = svc m Embeddings.default_model t) ->
  forall n,
    EmbeddingsMain.keep_valid rows (fst (EmbeddingsMain.embed_rows svc n rows))
    = flat_map (EmbeddingsMain.row_alone svc) rows.
Proof.
  intros Hsvc. induction rows as [|r rows IH]; intros n; [reflexivity|].
  cbn [EmbeddingsMain.embed_rows flat_map]. unfold EmbeddingsMain.row_alone at 1.
  rewrite (embed_one_stateless svc (Some (Features.text_blob r))
             Embeddings.default_model Embeddings.default_retries Hsvc 0 n).
  destruct (Embeddings.embed_one svc n (Some (Features.text_blob r))
              Embeddings.default_model Embeddings.default_retries) as [vec n1].
  specialize (IH n1).
  destruct (EmbeddingsMain.embed_rows svc n1 rows) as [vecs n2].
  cbn [fst snd] in *. cbn [EmbeddingsMain.keep_valid].
  destruct vec as [v|].
  - destruct (Embeddings._is_vector_ok (Some v)); cbn [app]; now rewrite IH.
  - exact IH.
Qed.

(** X5: When the service answers by the text alone, whatever it was asked
    before, the table handed to the final write is made row by row: each
    row of the feature table contributes what [embed_one] gives for its
    own text blob, the row with its vector or nothing, and no row changes
    what another one contributes.  The write then takes or refuses the
    table as a whole. *)
Theorem embeddings_main_rows_independent
  (svc : Genai.Service F) (rows : list Features.FeatureRow)
  (failure : option exn) (refusal : exn) :
  (forall n m t, svc n Embeddings.default_model t = svc m Embeddings.default_model t) ->
  fst (EmbeddingsMain.main svc (EmbeddingsMain.FeatureTable rows) failure refusal)
  = EmbeddingsMain.to_parquet (flat_map (EmbeddingsMain.row_alone svc) rows)
      failure refusal.
Proof.
  intros Hsvc. unfold EmbeddingsMain.main.
  pose proof (embed_rows_stateless svc rows Hsvc 0) as Hrows.
  destruct (EmbeddingsMain.embed_rows svc 0 rows) as [vecs n].
  cbn [fst] in *. now rewrite Hrows.
Qed.

End EmbedBatch.

Lemma embeddings_main_rows_independent_witness :
  (forall n m t, Samples.svc_by_text n Embeddings.default_model t
                 = Samples.svc_by_text m Embeddings.default_model t) /\
  fst (EmbeddingsMain.main Samples.svc_by_text
         (EmbeddingsMain.FeatureTable Samples.three_features) None Samples.too_large)
  = EmbeddingsMain.to_parquet
      (flat_map (EmbeddingsMain.row_alone Samples.svc_by_text) Samples.three_features)
      None Samples.too_large.
Proof.
  split; [intros n m t; reflexivity|].
  apply (embeddings_main_rows_independent Samples.svc_by_text Samples.three_features).
  intros n m t. reflexivity.
Defined.

(** Of the three sample rows the one whose blob starts with a capital B
    gets an empty answer and is left out; the two others are saved, after
    five calls of the service. *)
Example embeddings_main_three_rows :
  option_map (map (fun r => Features.t_title (Features.f_text (@Data.features Q r))))
    (match fst (EmbeddingsMain.main Samples.svc_by_text
                  (EmbeddingsMain.FeatureTable Samples.three_features)
                  None Samples.too_large) with
     | Ok t => Some t | _ => None end)
  = Some [lit "Alpha"; lit "Gamma"] /\
  snd (EmbeddingsMain.main Samples.svc_by_text
         (EmbeddingsMain.FeatureTable Samples.three_features)
         None Samples.too_large) = 5%nat.
Proof. split; vm_compute; reflexivity. Qed.

(** When the write fails the run raises and no row is saved, the two valid
    rows being lost with it; so it is when every row holds an [int] that
    [float] cannot hold. *)
Example embeddings_main_write_fails :
  fst (EmbeddingsMain.main Samples.svc_by_text
         (EmbeddingsMain.FeatureTable Samples.three_features)
         (Some Samples.too_large) Samples.too_large) = Raise Samples.too_large /\
  EmbeddingsMain.main Samples.svc_huge
    (EmbeddingsMain.FeatureTable Samples.three_features) None Samples.too_large
  = (Raise Samples.too_large, 3%nat).
Proof. split; vm_compute; reflexivity. Qed.

(** A reply that is an array of two rows passes [_is_vector_ok] as a reply,
    so [embed_one] returns the list of its rows after one call; the filter
    of the run, which looks at the items of that list, drops the row. *)
Example embed_one_matrix_reply :
  Embeddings.embed_one (Samples.svc_matrix [[1; 2]; [3; 4]]) 0
    (Some (lit "space heist")) Embeddings.default_model Embeddings.default_retries
  = (Some [Genai.ESeq [Genai.ENum 1; Genai.ENum 2];
           Genai.ESeq [Genai.ENum 3; Genai.ENum 4]], 1%nat) /\
  EmbeddingsMain.main (Samples.svc_matrix [[1; 2]; [3; 4]])
    (EmbeddingsMain.FeatureTable Samples.three_features) None Samples.too_large
  = (Ok [], 3%nat).
Proof. split; vm_compute; reflexivity. Qed.

(** An [int] beyond the range of [float] is a number for [embed_one] and
    cannot be converted by [embed_query]. *)
Example embed_one_huge_int :
  Embeddings.embed_one Samples.svc_huge 0 (Some (lit "space heist"))
    Embeddings.default_model Embeddings.default_retries
  = (Some [Genai.EHuge; Genai.ENum 1], 1%nat) /\
  Recommend.embed_query Samples.svc_huge 0 (lit "space heist")
    Recommend.default_model = (None, 1%nat).
Proof. split; vm_compute; reflexivity. Qed.

(** ** The text blobs of the feature table *)

Section FeatureBlob.

Lemma tidy_nil : tidy [].
Proof.
  unfold tidy. split; [discriminate|]. split; [|reflexivity].
  intros t c Ht. now destruct t.
Qed.

Lemma clean_text_tidy (x : cell) : tidy (Features.clean_text x).
Proof. exact (clean_text_shape x). Qed.

Lemma tidy_strip (s : pystr) : tidy s -> strip s = s.
Proof.
  intros (Hhead & Hlast & _). unfold strip.
  now rewrite (lstrip_id _ Hhead), (rstrip_id _ Hlast).
Qed.

Lemma tidy_clean (s : pystr) : tidy s -> Features.clean_text (CStr s) = s.
Proof.
  intros Ht. unfold Features.clean_text, re_sub_ws.
  rewrite (tidy_strip s Ht). apply squeezed_fixpoint. apply Ht.
Qed.

Lemma squeezed_app (s u : pystr) :
  forall b,
    s <> [] -> (forall t c, s = t ++ [c] -> isspace c = false) ->
    squeezed b s = true -> squeezed false u = true ->
    squeezed b (s ++ u) = true.
Proof.
  induction s as [|a s IH]; intros b Hne Hlast Hs Hu; [contradiction|].
  destruct s as [|a' s].
  - pose proof (Hlast [] a eq_refl) as Ha. simpl. now rewrite Ha.
  - assert (Hlast' : forall t c, a' :: s = t ++ [c] -> isspace c = false).
    { intros t c Ht. apply (Hlast (a :: t) c). simpl. now rewrite Ht. }
    change ((a :: a' :: s) ++ u) with (a :: ((a' :: s) ++ u)).
    cbn [squeezed] in Hs |- *.
    destruct (isspace a).
    + apply andb_prop in Hs as [Hs1 Hs2]. rewrite Hs1. cbn [andb].
      apply IH; [discriminate|exact Hlast'|exact Hs2|exact Hu].
    + apply IH; [discriminate|exact Hlast'|exact Hs|exact Hu].
Qed.

Lemma last_of_app (s u t : pystr) (c : char) :
  u <> [] -> (forall t' c', u = t' ++ [c'] -> isspace c' = false) ->
  s ++ u = t ++ [c] -> isspace c = false.
Proof.
  intros Hne Hlast Heq.
  destruct u as [|y u'] using rev_ind; [contradiction|]. clear IHu'.
  rewrite app_assoc in Heq. apply app_inj_tail in Heq as [_ <-].
  now apply (Hlast u' y).
Qed.

Lemma tidy_app (s u : pystr) : tidy s -> tidy u -> tidy (s ++ u).
Proof.
  intros Hs Hu.
  destruct s as [|a s]; [exact Hu|].
  destruct u as [|y u]; [now rewrite app_nil_r|].
  destruct Hs as (Hh & Hl & Hsq), Hu as (Hh' & Hl' & Hsq').
  split; [|split].
  - intros c t [= <- _]. now apply (Hh a s).
  - intros t c Heq. apply (last_of_app (a :: s) (y :: u) t c); [discriminate|exact Hl'|exact Heq].
  - apply squeezed_app; [discriminate|exact Hl|exact Hsq|exact Hsq'].
Qed.

Lemma tidy_one (c : char) : isspace c = false -> tidy [c].
Proof.
  intros Hc. split; [|split].
  - now intros c' t [= <- _].
  - intros t c' Heq. destruct t as [|x t]; [now injection Heq as <-|].
    injection Heq as _ Heq. now destruct t.
  - simpl. now rewrite Hc.
Qed.

Lemma tidy_cons (c : char) (s : pystr) : isspace c = false -> tidy s -> tidy (c :: s).
Proof. intros Hc Hs. apply (tidy_app [c] s); [now apply tidy_one|exact Hs]. Qed.

(** Two tidy, non-empty strings with one space between them. *)
Lemma tidy_spaced (s u : pystr) :
  tidy s -> s <> [] -> tidy u -> u <> [] -> tidy (s ++ space :: u).
Proof.
  intros (Hh & Hl & Hsq) Hs (Hh' & Hl' & Hsq') Hu.
  destruct s as [|a s]; [contradiction|].
  destruct u as [|y u]; [contradiction|].
  split; [|split].
  - intros c t [= <- _]. now apply (Hh a s).
  - intros t c Heq.
    apply (last_of_app ((a :: s) ++ [space]) (y :: u) t c);
      [discriminate|exact Hl'|now rewrite <- app_assoc].
  - apply squeezed_app; [discriminate|exact Hl|exact Hsq|].
    pose proof (Hh' y u eq_refl) as Hy.
    cbn [squeezed] in Hsq' |- *. change (isspace space) with true.
    rewrite Hy in *. cbn [negb andb]. now rewrite N.eqb_refl.
Qed.

Lemma truthy_nonempty (s : pystr) : Features.truthy s = true <-> s <> [].
Proof. destruct s; simpl; split; congruence. Qed.

Lemma join_tidy (parts : list pystr) :
  Forall (fun p => tidy p /\ p <> []) parts ->
  tidy (join (lit " ") parts) /\ (parts <> [] -> join (lit " ") parts <> []).
Proof.
  induction 1 as [|p parts [Hp Hne] Hparts [IH IHne]].
  - split; [apply tidy_nil|contradiction].
  - destruct parts as [|q parts].
    + split; [exact Hp|now intros _].
    + change (join (lit " ") (p :: q :: parts))
        with (p ++ space :: join (lit " ") (q :: parts)).
      split.
      * apply tidy_spaced; [exact Hp|exact Hne|exact IH|apply IHne; discriminate].
      * intros _. destruct p; [contradiction|discriminate].
Qed.

Lemma part_tidy (pre : pystr) (t : pystr) :
  tidy (pre ++ [58%N]) -> tidy t -> t <> [] ->
  tidy ((pre ++ [58%N; space]) ++ t ++ lit ".") /\ (pre ++ [58%N; space]) ++ t ++ lit "." <> [].
Proof.
  intros Hpre Ht Hne. split.
  - replace ((pre ++ [58%N; space]) ++ t ++ lit ".")
      with ((pre ++ [58%N]) ++ space :: (t ++ lit "."))
      by (now rewrite <- !app_assoc).
    apply tidy_spaced; [exact Hpre|now destruct pre| |now destruct t].
    apply tidy_app; [exact Ht|now apply tidy_one].
  - destruct pre; discriminate.
Qed.

Lemma lit_tidy (s : pystr) :
  forallb (fun c => negb (isspace c)) s = true -> tidy s.
Proof.
  induction s as [|c s IH]; intros Hs; [apply tidy_nil|].
  simpl in Hs. apply andb_prop in Hs as [Hc Hs].
  apply tidy_cons; [now apply negb_true_iff|now apply IH].
Qed.

(** The blob built from cleaned columns is tidy. *)
Lemma build_text_blob_tidy (t : Features.TextCols) :
  tidy (Features.t_title t) -> tidy (Features.t_overview t) ->
  tidy (Features.t_genres t) -> tidy (Features.t_cast t) ->
  tidy (Features.t_director t) ->
  tidy (Features.build_text_blob t).
Proof.
  intros Ht Ho Hg Hc Hd. unfold Features.build_text_blob.
  apply join_tidy.
  assert (Hstep : forall (b : bool) (parts : list pystr) (p : pystr),
             Forall (fun p => tidy p /\ p <> []) parts ->
             (b = true -> tidy p /\ p <> []) ->
             Forall (fun p => tidy p /\ p <> [])
                    (if b then parts ++ [p] else parts)).
  { intros [|] parts p Hparts Hp; [|exact Hparts].
    apply Forall_app. split; [exact Hparts|]. constructor; [now apply Hp|constructor]. }
  apply Hstep; [apply Hstep; [apply Hstep; [apply Hstep; [apply Hstep; [constructor|]|]|]|]|];
    intros Htrue; apply truthy_nonempty in Htrue.
  - apply (part_tidy (lit "Title") _); [apply lit_tidy; reflexivity|exact Ht|exact Htrue].
  - split; [exact Ho|exact Htrue].
  - apply (part_tidy (lit "Genres") _); [apply lit_tidy; reflexivity|exact Hg|exact Htrue].
  - apply (part_tidy (lit "Top Cast") _); [|exact Hc|exact Htrue].
    change (lit "Top Cast" ++ [58%N]) with (lit "Top" ++ space :: lit "Cast:").
    apply tidy_spaced; try discriminate; apply lit_tidy; reflexivity.
  - change (lit "Directed by " ++ Features.t_director t ++ lit ".")
      with (lit "Directed" ++ space :: (lit "by" ++ space :: (Features.t_director t ++ lit "."))).
    assert (Hend : tidy (Features.t_director t ++ lit "."))
      by (apply tidy_app; [exact Hd|now apply tidy_one]).
    split; [|discriminate].
    apply tidy_spaced; [apply lit_tidy; reflexivity|discriminate| |discriminate].
    apply tidy_spaced; [apply lit_tidy; reflexivity|discriminate|exact Hend|].
    now destruct (Features.t_director t).
Qed.

Lemma derive_blob_tidy (m : Features.RawMovie) :
  tidy (Features.text_blob (Features.derive m)).
Proof.
  unfold Features.derive. cbn [Features.text_blob].
  apply build_text_blob_tidy; apply clean_text_tidy.
Qed.

(** On a table of movies without rows the run raises [ValueError] where it
    sets the column [text_blob], and writes no feature table. *)
Lemma features_main_needs_a_row :
  exists e, Features.main (Some []) = Raise e /\ cls e = ValueError.
Proof. eexists. split; reflexivity. Qed.

(** X6: On a table of movies with at least one row the run ends well, and every
    text blob of the feature table is already clean: it is longer than 30
    characters, and neither [clean_text] nor [strip] changes it. *)
Theorem feature_blobs_are_clean (db : list Features.RawMovie) :
  db <> [] ->
  exists out,
    Features.main (Some db) = Ok out /\
    Forall (fun r =>
              (30 < length (Features.text_blob r))%nat /\
              Features.clean_text (CStr (Features.text_blob r)) = Features.text_blob r /\
              strip (Features.text_blob r) = Features.text_blob r) out.
Proof.
  intros Hdb. exists (filter Features.informative (map Features.derive db)).
  split; [destruct db; [contradiction|reflexivity]|].
  apply Forall_forall. intros r Hr.
  apply filter_In in Hr as [Hin Hlen].
  apply in_map_iff in Hin as (m & <- & _).
  split; [now apply Nat.ltb_lt|].
  split; [apply tidy_clean|apply tidy_strip]; apply derive_blob_tidy.
Qed.

End FeatureBlob.

Lemma feature_blobs_are_clean_witness :
  exists out,
    Features.main (Some [Examples.movie_x; Examples.movie_inception]) = Ok out /\
    Forall (fun r =>
              (30 < length (Features.text_blob r))%nat /\
              Features.clean_text (CStr (Features.text_blob r)) = Features.text_blob r /\
              strip (Features.text_blob r) = Features.text_blob r) out.
Proof.
  apply (feature_blobs_are_clean [Examples.movie_x; Examples.movie_inception]).
  discriminate.
Defined.

Section FeatureEmbedding.
Context {F : Type} `{Float32 F}.

Lemma attempts_first_call (svc : Genai.Service F) (model : string) (text : pystr)
      (left n : nat) :
  (n < snd (Embeddings.attempts svc model text (S left) n))%nat.
Proof.
  cbn [Embeddings.attempts].
  pose proof (attempts_spec svc model text left (S n)) as (Hb & _).
  destruct (try_except _ _) as [[v|]| |]; simpl; lia.
Qed.

(** X7: A row of the feature table is embedded with its blob as it stands in
    the table: at least one call is made, and when the service answers
    the first call for this very blob with a non-empty list of numbers,
    that list is the row's vector after one call. *)
Theorem feature_rows_are_sent_unchanged
  (db : list Features.RawMovie) (out : list Features.FeatureRow)
  (r : Features.FeatureRow) (svc : Genai.Service F) (n : nat) :
  Features.main (Some db) = Ok out ->
  In r out ->
  (n < snd (Embeddings.embed_one svc n (Some (Features.text_blob r))
              Embeddings.default_model Embeddings.default_retries))%nat /\
  (forall v b, v <> [] ->
     svc n Embeddings.default_model (Features.text_blob r)
     = Genai.Returns (Genai.RespDict (Some (Genai.PList (map Genai.ENum v))) b) ->
     Embeddings.embed_one svc n (Some (Features.text_blob r))
       Embeddings.default_model Embeddings.default_retries
     = (Some (map Genai.ENum v), S n)).
Proof.
  intros Hmain Hr. apply features_main_ok in Hmain as [_ ->].
  apply filter_In in Hr as [Hin Hlen].
  apply in_map_iff in Hin as (m & <- & _).
  apply Nat.ltb_lt in Hlen.
  pose proof (tidy_strip _ (derive_blob_tidy m)) as Hstrip.
  unfold Embeddings.embed_one. rewrite Hstrip.
  destruct (Features.text_blob (Features.derive m)) as [|c t] eqn:Hblob;
    [simpl in Hlen; lia|].
  split.
  - apply attempts_first_call.
  - intros v b Hv Hsvc.
    rewrite (attempts_until_success svc Embeddings.default_model (c :: t) v b Hv
               0 Embeddings.default_retries n).
    + now rewrite Nat.add_0_r.
    + unfold Embeddings.default_retries. lia.
    + intros i Hi. lia.
    + now rewrite Nat.add_0_r.
Qed.

End FeatureEmbedding.

Lemma feature_rows_are_sent_unchanged_witness :
  Embeddings.embed_one (Examples.svc_dict [3; 4]) 0
    (Some (Features.text_blob (Features.derive Examples.movie_inception)))
    Embeddings.default_model Embeddings.default_retries
  = (Some [Genai.ENum 3; Genai.ENum 4], 1%nat).
Proof.
  destruct (feature_rows_are_sent_unchanged
              [Examples.movie_x; Examples.movie_inception]
              [Features.derive Examples.movie_inception]
              (Features.derive Examples.movie_inception)
              (Examples.svc_dict [3; 4]) 0) as [_ Hsent].
  - vm_compute. reflexivity.
  - left. reflexivity.
  - apply (Hsent [3; 4] None); [discriminate|reflexivity].
Defined.

(** ** Movies known by their title only *)

(** X8: A movie without overview, genres, cast and director, which is what
    the fetcher records when the enrichment of a movie fails, is in the
    feature table exactly when its cleaned title is longer than 22
    characters: its blob is the title between [Title: ] and a full
    stop. *)
Theorem title_only_movie_needs_long_title (m : Features.RawMovie) :
  Features.clean_text (Features.overview m) = [] ->
  Features.clean_text (Features.genres m) = [] ->
  Features.clean_text (Features.cast m) = [] ->
  Features.clean_text (Features.director m) = [] ->
  (Features.informative (Features.derive m) = true
   <-> (22 < length (Features.clean_text (Features.title m)))%nat) /\
  (Features.clean_text (Features.title m) <> [] ->
   Features.text_blob (Features.derive m)
   = lit "Title: " ++ Features.clean_text (Features.title m) ++ lit ".").
Proof.
  intros Ho Hg Hc Hd.
  unfold Features.informative, Features.derive, Features.build_text_blob,
    Features.clean_cols.
  cbn [Features.text_blob Features.t_title Features.t_overview
       Features.t_genres Features.t_cast Features.t_director].
  rewrite Ho, Hg, Hc, Hd. cbn [Features.truthy app].
  destruct (Features.clean_text (Features.title m)) as [|c t].
  - split; [|contradiction]. simpl. split; [discriminate|lia].
  - cbn [Features.truthy join]. split; [|reflexivity].
    rewrite Nat.ltb_lt, !length_app. simpl. lia.
Qed.

Lemma title_only_movie_needs_long_title_witness :
  Features.informative (Features.derive Examples.movie_x) = false.
Proof.
  destruct (title_only_movie_needs_long_title Examples.movie_x
              eq_refl eq_refl eq_refl eq_refl) as [[Hlong _] _].
  destruct (Features.informative (Features.derive Examples.movie_x)); [|reflexivity].
  specialize (Hlong eq_refl). vm_compute in Hlong. lia.
Defined.

(** ** The files of a build *)

Section BuildFiles.
Context {F : Type} `{Float32 F}.

(** X9: A build writes at [index_path] and at the sidecar path and nowhere
    else, whether it succeeds or fails. *)
Theorem build_touches_only_its_two_files
  (st : Data.Store F) (embeddings_path index_path p : string) :
  p <> index_path ->
  p <> VectorIndex.map_path_of index_path ->
  snd (VectorIndex.build_faiss_index st embeddings_path index_path) p = st p.
Proof.
  intros Hi Hm. unfold VectorIndex.build_faiss_index.
  destruct (st embeddings_path) as [f|]; [|reflexivity].
  destruct (VectorIndex.read_embeddings f) as [df| |]; cbn [bind]; try reflexivity.
  destruct (Lib.np_vstack _) as [X| |]; cbn [bind snd]; try reflexivity.
  now rewrite !write_other.
Qed.

(** X10: The same build run a second time ends the same way and leaves every
    file as the first run left it, provided the embeddings file is not
    one of the two files the build writes. *)
Theorem build_twice_is_build_once
  (st : Data.Store F) (embeddings_path index_path : string) :
  embeddings_path <> index_path ->
  embeddings_path <> VectorIndex.map_path_of index_path ->
  let once := VectorIndex.build_faiss_index st embeddings_path index_path in
  let twice := VectorIndex.build_faiss_index (snd once) embeddings_path index_path in
  fst twice = fst once /\ forall p, snd twice p = snd once p.
Proof.
  intros Hi Hm. cbv zeta. unfold VectorIndex.build_faiss_index.
  destruct (st embeddings_path) as [f|] eqn:Hst; cbn [snd]; [|now rewrite Hst].
  destruct (VectorIndex.read_embeddings f) as [df| |] eqn:Hdf; cbn [bind snd].
  - destruct (Lib.np_vstack (map (@Data.embedding F) df)) as [X| |] eqn:HX;
      cbn [bind snd].
    + rewrite !write_other, Hst, Hdf by assumption. cbn [bind]. rewrite HX. cbn [bind fst snd].
      split; [reflexivity|]. intros p. unfold Data.write.
      destruct (String.eqb p (VectorIndex.map_path_of index_path)); [reflexivity|].
      destruct (String.eqb p index_path); reflexivity.
    + rewrite Hst, Hdf. cbn [bind]. rewrite HX. now cbn [bind].
    + rewrite Hst, Hdf. cbn [bind]. rewrite HX. now cbn [bind].
  - rewrite Hst, Hdf. now cbn [bind].
  - rewrite Hst, Hdf. now cbn [bind].
Qed.

Lemma np_vstack_same_length (rows X : list (Lib.vec F)) :
  Lib.np_vstack rows = Ok X ->
  Forall (fun r => length r = Lib.shape1 rows) rows.
Proof.
  unfold Lib.np_vstack. destruct rows as [|r rest]; [discriminate|].
  destruct (forallb (fun r' => length r' =? length r)%nat rest) eqn:Hall;
    [|discriminate].
  intros _. constructor; [reflexivity|].
  rewrite forallb_forall in Hall. apply Forall_forall. intros x Hx.
  now apply Nat.eqb_eq, Hall.
Qed.

(** X11: After a successful build the index is not empty, and its dimension is
    the length of every vector of the embeddings table and of every
    vector it stores. *)
Theorem build_index_has_one_dimension
  (st st' : Data.Store F) (embeddings_path index_path : string) :
  VectorIndex.build_faiss_index st embeddings_path index_path = (Ok tt, st') ->
  VectorIndex.map_path_of index_path <> index_path ->
  exists (df : list (Data.EmbRow F)) (ix : Lib.IndexFlatIP F),
    st embeddings_path = Some (Data.Parquet (Data.TEmbeddings df)) /\
    st' index_path = Some (Data.FaissIndex ix) /\
    (0 < Lib.ntotal ix)%nat /\
    Forall (fun r => length (Data.embedding r) = Lib.d ix) df /\
    Forall (fun v => length v = Lib.d ix) (Lib.xb ix).
Proof.
  unfold VectorIndex.build_faiss_index.
  destruct (st embeddings_path) as [f|] eqn:Hst; [|discriminate].
  destruct (VectorIndex.read_embeddings f) as [df| |] eqn:Hdf; cbn [bind];
    try discriminate.
  destruct (Lib.np_vstack _) as [X| |] eqn:HX; cbn [bind]; try discriminate.
  intros Heq Hpath. injection Heq as <-.
  pose proof (np_vstack_same_length _ _ HX) as Hsame.
  apply np_vstack_ok in HX as [-> Hne].
  assert (f = Data.Parquet (Data.TEmbeddings df)) as ->.
  { destruct f as [[df'|rows]|ix|]; simpl in Hdf; try discriminate.
    now injection Hdf as ->. }
  assert (Hdim : Lib.shape1 (Lib.normalize_L2 (map (@Data.embedding F) df))
                 = Lib.shape1 (map (@Data.embedding F) df)).
  { destruct df as [|r df]; [reflexivity|]. simpl. apply renorm_length. }
  exists df. eexists.
  split; [reflexivity|].
  split; [rewrite write_other by congruence; apply write_same|].
  unfold Lib.ntotal. cbn [Lib.add Lib.new_index Lib.d Lib.xb app]. rewrite Hdim.
  split; [|split].
  - unfold Lib.normalize_L2. rewrite !length_map.
    destruct df; [contradiction|simpl; lia].
  - rewrite Forall_map in Hsame. exact Hsame.
  - unfold Lib.normalize_L2. rewrite Forall_map.
    rewrite Forall_map in Hsame.
    rewrite Forall_map.
    eapply Forall_impl; [|exact Hsame].
    intros r Hr. cbv beta in *. now rewrite renorm_length.
Qed.

End BuildFiles.

(** [replace] leaves a string alone exactly when the old text does not
    occur in it; the first characters of old and new text differ. *)
Lemma str_replace_unchanged_iff (a b : ascii) (old' new' s : string) :
  a <> b ->
  Lib.str_replace s (String a old') (String b new') = s
  <-> occurs (String a old') s = false.
Proof.
  intros Hab. unfold Lib.str_replace.
  induction s as [|c s IH].
  - simpl. split; reflexivity.
  - cbn [Lib.replace_from occurs].
    destruct (String.prefix (String a old') (String c s)) eqn:Hp.
    + cbn [orb String.append]. split; [|discriminate].
      intros Heq. injection Heq as Hbc _.
      simpl in Hp. destruct (ascii_dec a c); [|discriminate]. congruence.
    + cbn [orb]. rewrite <- IH. split; [now intros [= ->]|now intros ->].
Qed.

Section BuildPaths.
Context {F : Type} `{Float32 F}.

(** X12: The index file survives a successful build exactly when its path
    contains [.bin]: otherwise the sidecar path is the index path itself
    and the sidecar is written over the index. *)
Theorem build_keeps_index_iff_bin
  (st st' : Data.Store F) (embeddings_path index_path : string) :
  VectorIndex.build_faiss_index st embeddings_path index_path = (Ok tt, st') ->
  (VectorIndex.map_path_of index_path = index_path
   <-> occurs ".bin" index_path = false) /\
  (occurs ".bin" index_path = true ->
   exists ix, st' index_path = Some (Data.FaissIndex ix)) /\
  (occurs ".bin" index_path = false ->
   exists mapping, st' index_path = Some (Data.Parquet (Data.TMapping mapping)) /\
     Recommend.read_index (Data.Parquet (@Data.TMapping F mapping))
     = Raise (Exn RuntimeError "could not read index")).
Proof.
  assert (Hiff : VectorIndex.map_path_of index_path = index_path
                 <-> occurs ".bin" index_path = false).
  { unfold VectorIndex.map_path_of. apply str_replace_unchanged_iff. discriminate. }
  unfold VectorIndex.build_faiss_index.
  destruct (st embeddings_path) as [f|]; [|discriminate].
  destruct (VectorIndex.read_embeddings f) as [df| |]; cbn [bind]; try discriminate.
  destruct (Lib.np_vstack _) as [X| |]; cbn [bind]; try discriminate.
  intros Heq. injection Heq as <-.
  split; [exact Hiff|]. split.
  - intros Hocc. eexists. rewrite write_other; [apply write_same|].
    intros Heq. symmetry in Heq. apply Hiff in Heq. congruence.
  - intros Hocc. apply Hiff in Hocc. eexists. split; [|reflexivity].
    rewrite Hocc. apply write_same.
Qed.

End BuildPaths.

Lemma build_touches_only_its_two_files_witness :
  snd (VectorIndex.build_faiss_index (Examples.with_embeddings Examples.emb_table)
         VectorIndex.default_embeddings_path VectorIndex.default_index_path)
      VectorIndex.default_embeddings_path
  = Some (Data.Parquet (Data.TEmbeddings Examples.emb_table)).
Proof.
  rewrite (build_touches_only_its_two_files
             (Examples.with_embeddings Examples.emb_table)
             VectorIndex.default_embeddings_path VectorIndex.default_index_path
             VectorIndex.default_embeddings_path).
  - reflexivity.
  - vm_compute. discriminate.
  - vm_compute. discriminate.
Defined.

Lemma build_twice_is_build_once_witness :
  fst (VectorIndex.build_faiss_index (Examples.built Examples.emb_table)
         VectorIndex.default_embeddings_path VectorIndex.default_index_path)
  = Ok tt /\
  forall p,
    snd (VectorIndex.build_faiss_index (Examples.built Examples.emb_table)
           VectorIndex.default_embeddings_path VectorIndex.default_index_path) p
    = Examples.built Examples.emb_table p.
Proof.
  apply (build_twice_is_build_once (Examples.with_embeddings Examples.emb_table)
           VectorIndex.default_embeddings_path VectorIndex.default_index_path).
  - vm_compute. discriminate.
  - vm_compute. discriminate.
Defined.

Lemma build_index_has_one_dimension_witness :
  exists ix : Lib.IndexFlatIP Q,
    Examples.built Examples.emb_table VectorIndex.default_index_path
    = Some (Data.FaissIndex ix) /\
    Lib.d ix = 2%nat /\
    Forall (fun v => length v = 2%nat) (Lib.xb ix).
Proof.
  destruct (build_index_has_one_dimension
              (Examples.with_embeddings Examples.emb_table)
              (Examples.built Examples.emb_table)
              VectorIndex.default_embeddings_path VectorIndex.default_index_path)
    as (df & ix & Hdf & Hix & _ & Hrows & Hxb).
  - vm_compute. reflexivity.
  - vm_compute. discriminate.
  - exists ix.
    assert (Hd : Lib.d ix = 2%nat).
    { vm_compute in Hdf. injection Hdf as <-.
      inversion Hrows as [|r l Hr _]. simpl in Hr. now rewrite <- Hr. }
    split; [exact Hix|]. split; [exact Hd|]. now rewrite <- Hd.
Defined.

Lemma build_keeps_index_iff_bin_witness :
  exists mapping,
    snd (VectorIndex.build_faiss_index (Examples.with_embeddings Examples.emb_table)
           VectorIndex.default_embeddings_path "cinebrain/data/faiss.index"%string)
        "cinebrain/data/faiss.index"%string
    = Some (Data.Parquet (Data.TMapping mapping)).
Proof.
  destruct (build_keeps_index_iff_bin
              (Examples.with_embeddings Examples.emb_table)
              (snd (VectorIndex.build_faiss_index
                      (Examples.with_embeddings Examples.emb_table)
                      VectorIndex.default_embeddings_path "cinebrain/data/faiss.index"%string))
              VectorIndex.default_embeddings_path "cinebrain/data/faiss.index"%string)
    as (_ & _ & Hlost).
  - vm_compute. reflexivity.
  - destruct (Hlost eq_refl) as (mapping & Hm & _). now exists mapping.
Defined.

(** ** The two entry points *)

Section EntryPoints.
Context {F : Type} `{Float32 F}.

(** The row of [recommend_by_text] for a row of the page's [recommend]:
    the columns [title], [year], [genres], [director] and [similarity]. *)
Lemma map_pick_rows (rs : list Data.MapRow) (D : list F) :
  map (fun r : App.RecRow F => Recommend.pick (App.row r, App.similarity r))
      (map (fun p => {| App.row := fst p; App.similarity := snd p |}) (combine rs D))
  = map (@Recommend.pick F) (combine rs D).
Proof.
  rewrite map_map. apply map_ext. intros [m s]. reflexivity.
Qed.

(** X13: With both index files in place, [recommend_by_text] ends as the
    page's [recommend] does, and its frame is that of [recommend] cut
    down to five columns, row by row in the same order; only a query
    that cannot be embedded gives [None] in place of the empty frame.
    Without the files [recommend_by_text] raises where the page stops. *)
Theorem recommend_entry_points_agree
  (st : Data.Store F) (svc : Genai.Service F) (query : pystr) (k : Z) :
  (st Recommend.INDEX_PATH <> None -> st Recommend.MAP_PATH <> None ->
   Recommend.recommend_by_text st svc query k
   = (rows <- App.recommend st svc query k ;;
      Ok (match fst (Recommend.embed_query svc 0 query Recommend.default_model) with
          | Some _ =>
              Some (map (fun r => Recommend.pick (App.row r, App.similarity r)) rows)
          | None => None
          end))) /\
  (st Recommend.INDEX_PATH = None \/ st Recommend.MAP_PATH = None ->
   Recommend.recommend_by_text st svc query k
   = Raise (Exn FileNotFoundError "Run vector_index.py first.") /\
   App.recommend st svc query k = Stop).
Proof.
  unfold Recommend.recommend_by_text, App.recommend, Recommend.load_index,
    App.load_index_and_mapping.
  change App.INDEX_PATH with Recommend.INDEX_PATH.
  change App.MAP_PATH with Recommend.MAP_PATH.
  change (App.embed_query svc 0 query App.default_model)
    with (Recommend.embed_query svc 0 query Recommend.default_model).
  split.
  - intros Hi Hm.
    destruct (st Recommend.INDEX_PATH) as [fi|]; [|contradiction].
    destruct (st Recommend.MAP_PATH) as [fm|]; [|contradiction].
    destruct (Recommend.read_index fi) as [ix| |]; cbn [bind]; try reflexivity.
    destruct (Recommend.read_mapping fm) as [mapping| |]; cbn [bind]; try reflexivity.
    destruct (fst (Recommend.embed_query svc 0 query Recommend.default_model))
      as [q|]; [|reflexivity].
    destruct (Lib.search ix (Lib.renorm q) k) as [[D I]| |]; cbn [bind];
      try reflexivity.
    destruct (Lib.iloc mapping I) as [rs| |]; cbn [bind]; try reflexivity.
    now rewrite map_pick_rows.
  - intros [Hi|Hm].
    + now rewrite Hi.
    + rewrite Hm. destruct (st Recommend.INDEX_PATH); now split.
Qed.

Lemma search_lengths (ix : Lib.IndexFlatIP F) (q : Lib.vec F) (k : Z)
      (D : list F) (I : list Z) :
  Lib.search ix q k = Ok (D, I) ->
  length D = Z.to_nat k /\ length I = Z.to_nat k /\ (0 < k)%Z /\ length q = Lib.d ix.
Proof.
  unfold Lib.search.
  destruct (length q =? Lib.d ix)%nat eqn:Hd; [|discriminate].
  destruct (0 <? k)%Z eqn:Hk; [|discriminate].
  cbn [negb]. intros [= <- <-].
  pose proof (knn_length ix q (Z.to_nat k)) as Hlen.
  rewrite !length_map. unfold Lib.hit in *.
  repeat split; try exact Hlen; [now apply Z.ltb_lt|now apply Nat.eqb_eq].
Qed.

(** What the page's [recommend] returns is the empty frame, only for a
    query that could not be embedded, or a frame of exactly [k] rows,
    each one a row of the sidecar. *)
Lemma recommend_rows (st : Data.Store F) (svc : Genai.Service F) (query : pystr)
      (k : Z) (recs : list (App.RecRow F)) :
  App.recommend st svc query k = Ok recs ->
  (recs = [] /\ fst (App.embed_query svc 0 query App.default_model) = None) \/
  ((0 < k)%Z /\ length recs = Z.to_nat k /\
   exists ix mapping,
     App.load_index_and_mapping st = Ok (ix, mapping) /\
     Forall (fun r => In (App.row r) mapping) recs).
Proof.
  unfold App.recommend.
  destruct (App.load_index_and_mapping st) as [[ix mapping]| |]; cbn [bind];
    try discriminate.
  destruct (fst (App.embed_query svc 0 query App.default_model)) as [q|];
    [|intros [= <-]; now left].
  destruct (Lib.search ix (Lib.renorm q) k) as [[D I]| |] eqn:Hs; cbn [bind];
    try discriminate.
  destruct (Lib.iloc mapping I) as [rs| |] eqn:Hrs; cbn [bind]; try discriminate.
  intros [= <-]. right.
  destruct (search_lengths _ _ _ _ _ Hs) as (HD & HI & Hk & _).
  destruct (iloc_ok mapping I rs Hrs) as (Hlen & Hin & _).
  split; [exact Hk|]. split.
  - rewrite length_map, length_combine. lia.
  - exists ix, mapping. split; [reflexivity|].
    apply Forall_forall. intros r Hr.
    apply in_map_iff in Hr as ([m s] & <- & Hms).
    apply in_combine_l in Hms. rewrite Forall_forall in Hin. now apply Hin.
Qed.

(** X14: A query vector whose length is not the dimension of the index makes
    both entry points fail on the assertion of the search: neither checks
    the dimension itself. *)
Theorem recommend_rejects_other_dimension
  (st : Data.Store F) (svc : Genai.Service F) (query : pystr) (k : Z)
  (ix : Lib.IndexFlatIP F) (mapping : list Data.MapRow) (q : Lib.vec F) :
  Recommend.load_index st = Ok (ix, mapping) ->
  fst (Recommend.embed_query svc 0 query Recommend.default_model) = Some q ->
  length q <> Lib.d ix ->
  Recommend.recommend_by_text st svc query k = Raise (Exn AssertionError "d == self.d") /\
  App.recommend st svc query k = Raise (Exn AssertionError "d == self.d").
Proof.
  intros Hl Hq Hd.
  assert (Hs : Lib.search ix (Lib.renorm q) k = Raise (Exn AssertionError "d == self.d")).
  { unfold Lib.search. rewrite renorm_length.
    apply Nat.eqb_neq in Hd. now rewrite Hd. }
  split.
  - rewrite (recommend_by_text_steps st svc query k ix mapping q Hl Hq).
    now rewrite Hs.
  - unfold App.recommend.
    assert (Hl' : App.load_index_and_mapping st = Ok (ix, mapping)).
    { revert Hl. unfold Recommend.load_index, App.load_index_and_mapping.
      change App.INDEX_PATH with Recommend.INDEX_PATH.
      change App.MAP_PATH with Recommend.MAP_PATH.
      destruct (st Recommend.INDEX_PATH); [|discriminate].
      destruct (st Recommend.MAP_PATH); [trivial|discriminate]. }
    rewrite Hl'. cbn [bind].
    change (App.embed_query svc 0 query App.default_model)
      with (Recommend.embed_query svc 0 query Recommend.default_model).
    rewrite Hq. now rewrite Hs.
Qed.

End EntryPoints.

Lemma recommend_entry_points_agree_witness :
  Recommend.recommend_by_text (Examples.built Examples.emb_table)
    (Examples.svc_dict [1; 0]) (lit "alpha") 3
  = (rows <- App.recommend (Examples.built Examples.emb_table)
               (Examples.svc_dict [1; 0]) (lit "alpha") 3 ;;
     Ok (Some (map (fun r => Recommend.pick (App.row r, App.similarity r)) rows))).
Proof.
  destruct (recommend_entry_points_agree (Examples.built Examples.emb_table)
              (Examples.svc_dict [1; 0]) (lit "alpha") 3) as [Hagree _].
  apply Hagree; vm_compute; discriminate.
Defined.

Lemma recommend_rejects_other_dimension_witness :
  App.recommend (Examples.built Examples.emb_table)
    (Examples.svc_dict [1; 0; 0]) (lit "alpha") 3
  = Raise (Exn AssertionError "d == self.d").
Proof.
  destruct (recommend_rejects_other_dimension (Examples.built Examples.emb_table)
              (Examples.svc_dict [1; 0; 0]) (lit "alpha") 3
              {| Lib.d := 2; Lib.xb := [[1; 0]; [3 # 5; 4 # 5]] |}
              (map (fun r => Data.metadata (Data.features r)) Examples.emb_table)
              [1; 0; 0]) as [_ Happ].
  - vm_compute. reflexivity.
  - reflexivity.
  - simpl. discriminate.
  - exact Happ.
Defined.

(** ** What the page shows *)

Lemma strip_shape (s : pystr) :
  (forall c t, strip s = c :: t -> isspace c = false) /\
  (forall t c, strip s = t ++ [c] -> isspace c = false).
Proof.
  unfold strip. split.
  - intros c t Hs. destruct (rstrip_head _ _ _ Hs) as [t' Ht'].
    now apply lstrip_head in Ht'.
  - intros t c Hs. now apply rstrip_last in Hs.
Qed.

Lemma strip_idempotent (s : pystr) : strip (strip s) = strip s.
Proof.
  destruct (strip_shape s) as [Hh Hl].
  unfold strip at 1. now rewrite (lstrip_id _ Hh), (rstrip_id _ Hl).
Qed.

Lemma safe_poster_url_is_http_parts (poster_path : cell) (u : pystr) :
  App.safe_poster_url poster_path = Some u ->
  App.startswith u (lit "http") = true /\
  strip u = u /\
  exists s, poster_path = CStr s /\
    (u = strip s \/
     App.startswith (strip s) (lit "/") = true /\
     u = lit "https://image.tmdb.org/t/p/w500" ++ strip s).
Proof.
  destruct poster_path as [| | | | |s]; try discriminate.
  unfold App.safe_poster_url.
  destruct (strip_shape s) as [Hh Hl].
  destruct (strip s) as [|c p] eqn:Hs; [discriminate|]. cbn [Features.truthy].
  destruct (App.startswith (c :: p) (lit "http")) eqn:Hhttp.
  - intros [= <-]. split; [exact Hhttp|]. split.
    + rewrite <- Hs. apply strip_idempotent.
    + exists s. split; [reflexivity|]. left. now rewrite Hs.
  - destruct (App.startswith (c :: p) (lit "/")) eqn:Hslash; [|discriminate].
    intros [= <-]. split; [reflexivity|]. split.
    + unfold strip. rewrite lstrip_id.
      * apply rstrip_id. intros t x Heq.
        apply (last_of_app (lit "https://image.tmdb.org/t/p/w500") (c :: p) t x);
          [discriminate|exact Hl|exact Heq].
      * intros x t [= <- _]. reflexivity.
    + exists s. split; [reflexivity|]. right. rewrite Hs. now split.
Qed.


(** X15: A poster URL, when there is one, starts with [http], has no
    whitespace around it, and is the stripped path itself or the stripped
    path, starting with a slash, behind the address of the image server. *)
Theorem safe_poster_url_is_http (poster_path : cell) (u : pystr) :
  App.safe_poster_url poster_path = Some u ->
  App.startswith u (lit "http") = true /\
  strip u = u /\
  exists s, poster_path = CStr s /\
    (u = strip s \/
     App.startswith (strip s) (lit "/") = true /\
     u = lit "https://image.tmdb.org/t/p/w500" ++ strip s).
Proof. apply safe_poster_url_is_http_parts. Qed.

Lemma safe_poster_url_is_http_witness :
  App.startswith (lit "https://image.tmdb.org/t/p/w500/inception.jpg") (lit "http") = true /\
  strip (lit "https://image.tmdb.org/t/p/w500/inception.jpg")
  = lit "https://image.tmdb.org/t/p/w500/inception.jpg".
Proof.
  destruct (safe_poster_url_is_http (CStr (lit " /inception.jpg "))
              (lit "https://image.tmdb.org/t/p/w500/inception.jpg")) as (H1 & H2 & _).
  - vm_compute. reflexivity.
  - split; [exact H1|exact H2].
Defined.

(** X16: [fmt_runtime] raises for exactly two kinds of runtime: an integer too
    large for [float], and an infinite float; both are [OverflowError]s.
    Every other value is formatted. *)
Theorem fmt_runtime_raises_exactly (minutes : cell) :
  ((exists z, minutes = CInt z /\ (App.float_limit <= Z.abs z)%Z) ->
   App.fmt_runtime minutes
   = Raise (Exn OverflowError "int too large to convert to float")) /\
  ((exists negative, minutes = CInf negative) ->
   App.fmt_runtime minutes
   = Raise (Exn OverflowError "cannot convert float infinity to integer")) /\
  ((forall z, minutes = CInt z -> (Z.abs z < App.float_limit)%Z) ->
   (forall negative, minutes <> CInf negative) ->
   exists txt, App.fmt_runtime minutes = Ok txt /\ txt <> []).
Proof.
  split; [|split].
  - intros (z & -> & Hz). unfold App.fmt_runtime.
    cbn [App.is_int_or_float negb App.isnan_float].
    apply Z.ltb_ge in Hz. now rewrite Hz.
  - intros (negative & ->). reflexivity.
  - intros Hint Hinf.
    assert (Hfmt : forall z, exists txt,
               (if negb (z / 60 =? 0)%Z && negb (z mod 60 =? 0)%Z
                then Ok (str_of_int (z / 60) ++ lit "h " ++ str_of_int (z mod 60) ++ lit "m")
                else if negb (z / 60 =? 0)%Z
                     then Ok (str_of_int (z / 60) ++ lit "h")
                     else Ok (str_of_int (z mod 60) ++ lit "m"))
               = Ok txt /\ txt <> []).
    { intros z.
      assert (Hne : forall a b : pystr, b <> [] -> a ++ b <> []).
      { intros a b Hb Hab. apply app_eq_nil in Hab as [_ Hab]. contradiction. }
      destruct (negb (z / 60 =? 0)%Z && negb (z mod 60 =? 0)%Z);
        [|destruct (negb (z / 60 =? 0)%Z)];
        eexists; (split; [reflexivity|]).
      - apply Hne, Hne, Hne. discriminate.
      - apply Hne. discriminate.
      - apply Hne. discriminate. }
    destruct minutes as [| |z|q|negative|s].
    + eexists. split; [reflexivity|discriminate].
    + eexists. split; [reflexivity|discriminate].
    + unfold App.fmt_runtime. cbn [App.is_int_or_float negb App.isnan_float].
      specialize (Hint z eq_refl). apply Z.ltb_lt in Hint. rewrite Hint.
      cbn [bind App.py_int]. apply Hfmt.
    + unfold App.fmt_runtime. cbn [App.is_int_or_float negb App.isnan_float bind App.py_int].
      apply Hfmt.
    + now destruct (Hinf negative).
    + eexists. split; [reflexivity|discriminate].
Qed.

Lemma fmt_runtime_raises_exactly_witness :
  App.fmt_runtime (CInf false)
  = Raise (Exn OverflowError "cannot convert float infinity to integer") /\
  exists txt, App.fmt_runtime (CReal (297 # 2)) = Ok txt /\ txt <> [].
Proof.
  split.
  - apply (fmt_runtime_raises_exactly (CInf false)). now exists false.
  - apply (fmt_runtime_raises_exactly (CReal (297 # 2))); discriminate.
Defined.

Section Shown.
Context {F : Type} `{Float32 F}.
Variable int_of_str : pystr -> Outcome Z.
Variable format_1f : cell -> Outcome pystr.

Lemma render_cards_shown (gen : App.Generator) (query : pystr)
      (recs : list (App.RecRow F)) :
  forall n cards,
    App.render_cards int_of_str format_1f gen n query recs = Ok cards ->
    map (@App.shown F) cards = recs.
Proof.
  induction recs as [|r recs IH]; intros n cards; cbn [App.render_cards].
  - now intros [= <-].
  - destruct (App.render_card int_of_str format_1f gen n query r) as [c| |] eqn:Hc;
      cbn [bind]; try discriminate.
    destruct (App.render_cards int_of_str format_1f gen (S n) query recs)
      as [cs| |] eqn:Hcs; cbn [bind]; try discriminate.
    intros [= <-]. cbn [map]. f_equal; [|now apply IH with (S n)].
    revert Hc. unfold App.render_card.
    destruct (App.year_text _ _); cbn [bind]; try discriminate.
    destruct (App.rating_text _ _); cbn [bind]; try discriminate.
    destruct (App.fmt_runtime _); cbn [bind]; try discriminate.
    destruct (App.explain_recommendation _ _ _ _ _); cbn [bind]; try discriminate.
    now intros [= <-].
Qed.

(** X17: A card shows an image address that starts with [http] and has no
    whitespace around it.  Its explanation, when it has one, is the
    stripped text the generative service gave for this very query, title
    and overview, and is not empty: a reply of whitespace only gives a
    card without explanation. *)
Theorem card_poster_and_explanation
  (gen : App.Generator) (n : nat) (query : pystr) (r : App.RecRow F)
  (c : App.Card F) :
  App.render_card int_of_str format_1f gen n query r = Ok c ->
  App.startswith (App.poster c) (lit "http") = true /\
  strip (App.poster c) = App.poster c /\
  (forall e, App.explanation c = Some e ->
     e <> [] /\ strip e = e /\
     exists t,
       gen n (App.prompt_of query (Data.m_title (App.row r))
                (Some (Data.m_overview (App.row r))))
       = App.GenReturns (Some (App.TextIs t)) /\
       e = strip t) /\
  (forall t,
     gen n (App.prompt_of query (Data.m_title (App.row r))
              (Some (Data.m_overview (App.row r))))
     = App.GenReturns (Some (App.TextIs t)) ->
     forallb isspace t = true -> App.explanation c = None).
Proof.
  unfold App.render_card.
  destruct (App.year_text _ _); cbn [bind]; try discriminate.
  destruct (App.rating_text _ _); cbn [bind]; try discriminate.
  destruct (App.fmt_runtime _); cbn [bind]; try discriminate.
  unfold App.explain_recommendation, App.explain_body.
  set (reply := gen n _).
  assert (Hposter :
            App.startswith
              match App.safe_poster_url (Data.m_poster_path (App.row r)) with
              | Some u => u | None => App.no_poster end (lit "http") = true /\
            strip match App.safe_poster_url (Data.m_poster_path (App.row r)) with
                  | Some u => u | None => App.no_poster end
            = match App.safe_poster_url (Data.m_poster_path (App.row r)) with
              | Some u => u | None => App.no_poster end).
  { destruct (App.safe_poster_url (Data.m_poster_path (App.row r))) as [u|] eqn:Hu.
    - destruct (safe_poster_url_is_http_parts _ _ Hu) as (H1 & H2 & _). now split.
    - split; vm_compute; reflexivity. }
  destruct Hposter as [Hp1 Hp2].
  destruct reply as [[[t|x]|]|x] eqn:Hreply; cbn [try_except bind].
  - destruct (Features.truthy t) eqn:Ht; cbn [bind].
    + intros [= <-]. cbn [App.poster App.explanation].
      split; [exact Hp1|]. split; [exact Hp2|]. split.
      * intros e He. destruct (strip t) as [|ch e'] eqn:Hs; [discriminate|].
        injection He as <-. split; [discriminate|]. split.
        -- rewrite <- Hs. apply strip_idempotent.
        -- exists t. split; [reflexivity|now rewrite Hs].
      * intros t' [= <-] Hblank. now rewrite (strip_blank t Hblank).
    + intros [= <-]. cbn [App.poster App.explanation].
      split; [exact Hp1|]. split; [exact Hp2|]. split; [discriminate|reflexivity].
  - intros [= <-]. cbn [App.poster App.explanation].
    split; [exact Hp1|]. split; [exact Hp2|]. split; [discriminate|reflexivity].
  - intros [= <-]. cbn [App.poster App.explanation].
    split; [exact Hp1|]. split; [exact Hp2|]. split; [discriminate|reflexivity].
  - intros [= <-]. cbn [App.poster App.explanation].
    split; [exact Hp1|]. split; [exact Hp2|]. split; [discriminate|reflexivity].
Qed.

(** X18: When the page shows recommendations it shows six cards, whatever the
    size of the index: one card for each row that [recommend] returned
    for the query and [k = 6], in the same order. *)
Theorem page_shows_six_cards
  (st : Data.Store F) (svc : Genai.Service F) (gen : App.Generator)
  (clicked : bool) (query : pystr) (cards : list (App.Card F)) :
  App.page int_of_str format_1f st svc gen clicked query
  = Ok (App.Recommendations cards) ->
  length cards = 6%nat /\
  strip query <> [] /\
  exists recs,
    App.recommend st svc query 6 = Ok recs /\
    map (@App.shown F) cards = recs.
Proof.
  unfold App.page.
  destruct (clicked || Features.truthy query); [|discriminate].
  destruct (strip query) as [|a q'] eqn:Hq; [discriminate|]. cbn [Features.truthy].
  destruct (App.recommend st svc query 6) as [recs| |] eqn:Hrecs; cbn [bind];
    try discriminate.
  destruct recs as [|r recs]; [discriminate|].
  destruct (App.render_cards int_of_str format_1f gen 0 query (r :: recs))
    as [cs| |] eqn:Hcs; cbn [bind]; try discriminate.
  intros [= <-].
  pose proof (render_cards_shown gen query (r :: recs) 0 cs Hcs) as Hshown.
  split; [|split; [discriminate|now exists (r :: recs)]].
  destruct (recommend_rows st svc query 6 (r :: recs) Hrecs)
    as [[Hnil _]|(_ & Hlen & _)]; [discriminate|].
  rewrite <- (length_map (@App.shown F)), Hshown, Hlen. reflexivity.
Qed.

End Shown.

Lemma card_poster_and_explanation_witness :
  exists c,
    App.render_card Examples.int_of_digits Examples.no_format
      (Samples.gen_says (lit "  A heist inside a dream. ")) 0 (lit "dreams")
      Samples.rec_alpha = Ok c /\
    App.startswith (App.poster c) (lit "http") = true /\
    (forall e, App.explanation c = Some e -> e <> [] /\ strip e = e).
Proof.
  destruct (App.render_card Examples.int_of_digits Examples.no_format
              (Samples.gen_says (lit "  A heist inside a dream. ")) 0 (lit "dreams")
              Samples.rec_alpha) as [c| |] eqn:Hc;
    try (vm_compute in Hc; discriminate).
  exists c. split; [reflexivity|].
  destruct (card_poster_and_explanation Examples.int_of_digits Examples.no_format
              _ _ _ _ c Hc) as (Hposter & _ & Hexpl & _).
  split; [exact Hposter|].
  intros e He. destruct (Hexpl e He) as (Hne & Hstrip & _). now split.
Defined.

(** The card of the sample row carries the stripped reply. *)
Example card_of_rec_alpha :
  option_map (@App.explanation Q)
    (match App.render_card Examples.int_of_digits Examples.no_format
             (Samples.gen_says (lit "  A heist inside a dream. ")) 0 (lit "dreams")
             Samples.rec_alpha with
     | Ok c => Some c | _ => None end)
  = Some (Some (lit "A heist inside a dream.")).
Proof. vm_compute. reflexivity. Qed.

Lemma page_shows_six_cards_witness :
  exists cards,
    App.page Examples.int_of_digits Examples.no_format
      (Examples.built Examples.emb_table) (Examples.svc_dict [1; 0])
      Examples.gen_down true (lit "alpha")
    = Ok (App.Recommendations cards) /\
    length cards = 6%nat.
Proof.
  destruct (App.page Examples.int_of_digits Examples.no_format
              (Examples.built Examples.emb_table) (Examples.svc_dict [1; 0])
              Examples.gen_down true (lit "alpha")) as [[| |cards]| |] eqn:Hpage;
    try (vm_compute in Hpage; discriminate).
  exists cards. split; [reflexivity|].
  apply (page_shows_six_cards Examples.int_of_digits Examples.no_format
           _ _ _ _ _ cards Hpage).
Defined.

(** ** Fetching from the movie service *)

Section TmdbGet.
Import Json Requests.
Variable TMDB_KEY : string.
Variable http : Http.

Lemma get_body_cases (n : nat) (req : request) :
  (exists j, http n req = HttpResponse 200 (Some j) /\
             try_except (FetchTmdb.get_body http n req) (fun _ => Ok None) = Ok (Some j)) \/
  (FetchTmdb.request_fails http n req /\
   try_except (FetchTmdb.get_body http n req) (fun _ => Ok None) = Ok None).
Proof.
  unfold FetchTmdb.get_body, FetchTmdb.request_fails.
  destruct (http n req) as [e|status [j|]] eqn:Hreply.
  - right. split; [discriminate|reflexivity].
  - destruct (Z.eqb_spec status 200) as [->|Hne].
    + left. exists j. split; reflexivity.
    + right. split; [|reflexivity]. intros j' [= Hs _]. contradiction.
  - right. split; [discriminate|]. now destruct (status =? 200)%Z.
Qed.

Lemma get_attempts_spec (req : request) :
  forall left n,
    exists i, (i <= left)%nat /\
      (forall i', (i' < i)%nat -> FetchTmdb.request_fails http (n + i') req) /\
      ((i < left)%nat /\
       (exists j, http (n + i)%nat req = HttpResponse 200 (Some j) /\
                  FetchTmdb.get_attempts http req left n = (Some j, S (n + i)))
       \/ i = left /\ FetchTmdb.get_attempts http req left n = (None, (n + left)%nat)).
Proof.
  induction left as [|left IH]; intros n.
  - exists 0%nat. split; [lia|]. split; [intros i' Hi'; lia|].
    right. split; [reflexivity|]. simpl. f_equal. lia.
  - cbn [FetchTmdb.get_attempts].
    destruct (get_body_cases n req) as [(j & Hj & ->)|(Hfail & ->)].
    + exists 0%nat. split; [lia|]. split; [intros i' Hi'; lia|].
      left. split; [lia|]. exists j. rewrite Nat.add_0_r. now split.
    + destruct (IH (S n)) as (i & Hi & Hfails & Hend).
      exists (S i). split; [lia|]. split.
      * intros [|i'] Hi'; [now rewrite Nat.add_0_r|].
        replace (n + S i')%nat with (S n + i')%nat by lia. apply Hfails. lia.
      * replace (n + S i)%nat with (S n + i)%nat by lia.
        destruct Hend as [(Hlt & j & Hj & Hget)|(-> & Hget)].
        -- left. split; [lia|]. exists j. now split.
        -- right. split; [reflexivity|]. rewrite Hget. f_equal. lia.
Qed.

Lemma tmdb_get_spec (endpoint : string) (params : option (list (string * pval)))
      (n : nat) :
  exists i, (i <= 3)%nat /\
    (forall i', (i' < i)%nat ->
       FetchTmdb.request_fails http (n + i') (FetchTmdb.request_of TMDB_KEY endpoint params)) /\
    ((i < 3)%nat /\
     (exists j,
        http (n + i)%nat (FetchTmdb.request_of TMDB_KEY endpoint params)
        = HttpResponse 200 (Some j) /\
        FetchTmdb.tmdb_get TMDB_KEY http endpoint params n = (Ok j, S (n + i)))
     \/ i = 3%nat /\
        FetchTmdb.tmdb_get TMDB_KEY http endpoint params n
        = (raise RuntimeError ("Failed to fetch data from " ++ endpoint), (n + 3)%nat)).
Proof.
  unfold FetchTmdb.tmdb_get.
  destruct (get_attempts_spec (FetchTmdb.request_of TMDB_KEY endpoint params) 3 n)
    as (i & Hi & Hfails & Hend).
  exists i. split; [exact Hi|]. split; [exact Hfails|].
  destruct Hend as [(Hlt & j & Hj & ->)|(-> & ->)].
  - left. split; [exact Hlt|]. exists j. now split.
  - right. now split.
Qed.

(** X19: [tmdb_get] sends the same request up to three times and returns the
    body of the first reply with status 200 and a JSON body; the requests
    before that one all failed.  When three requests have failed it
    raises [RuntimeError] naming the endpoint. *)
Theorem tmdb_get_first_success
  (endpoint : string) (params : option (list (string * pval))) (n : nat) :
  exists i, (i <= 3)%nat /\
    (forall i', (i' < i)%nat ->
       FetchTmdb.request_fails http (n + i') (FetchTmdb.request_of TMDB_KEY endpoint params)) /\
    ((i < 3)%nat /\
     (exists j,
        http (n + i)%nat (FetchTmdb.request_of TMDB_KEY endpoint params)
        = HttpResponse 200 (Some j) /\
        FetchTmdb.tmdb_get TMDB_KEY http endpoint params n = (Ok j, S (n + i)))
     \/ i = 3%nat /\
        FetchTmdb.tmdb_get TMDB_KEY http endpoint params n
        = (raise RuntimeError ("Failed to fetch data from " ++ endpoint), (n + 3)%nat)).
Proof. apply tmdb_get_spec. Qed.

(** What [tmdb_get] costs and how it can end. *)
Lemma tmdb_get_calls (endpoint : string) (params : option (list (string * pval)))
      (n : nat) :
  (n < snd (FetchTmdb.tmdb_get TMDB_KEY http endpoint params n) <= n + 3)%nat /\
  fst (FetchTmdb.tmdb_get TMDB_KEY http endpoint params n) <> Stop /\
  (forall e, fst (FetchTmdb.tmdb_get TMDB_KEY http endpoint params n) = Raise e ->
     e = Exn RuntimeError ("Failed to fetch data from " ++ endpoint) /\
     snd (FetchTmdb.tmdb_get TMDB_KEY http endpoint params n) = (n + 3)%nat).
Proof.
  destruct (tmdb_get_spec endpoint params n)
    as (i & Hi & _ & [(Hlt & j & _ & ->)|(-> & ->)]); cbn [fst snd].
  - split; [lia|]. split; discriminate.
  - split; [lia|]. split; [discriminate|]. intros e [= <-]. now split.
Qed.

Lemma tmdb_get_fails (endpoint : string) (params : option (list (string * pval)))
      (n : nat) :
  (forall i, (i < 3)%nat ->
     FetchTmdb.request_fails http (n + i) (FetchTmdb.request_of TMDB_KEY endpoint params)) ->
  FetchTmdb.tmdb_get TMDB_KEY http endpoint params n
  = (raise RuntimeError ("Failed to fetch data from " ++ endpoint), (n + 3)%nat).
Proof.
  intros Hfail.
  destruct (tmdb_get_spec endpoint params n)
    as (i & Hi & _ & [(Hlt & j & Hj & _)|(_ & Hget)]); [|exact Hget].
  now destruct (Hfail i Hlt j).
Qed.

Lemma tmdb_get_succeeds (endpoint : string) (params : option (list (string * pval)))
      (n : nat) (j : json) :
  http n (FetchTmdb.request_of TMDB_KEY endpoint params) = HttpResponse 200 (Some j) ->
  FetchTmdb.tmdb_get TMDB_KEY http endpoint params n = (Ok j, S n).
Proof.
  intros Hj. unfold FetchTmdb.tmdb_get. cbn [FetchTmdb.get_attempts].
  unfold FetchTmdb.get_body. rewrite Hj. reflexivity.
Qed.

End TmdbGet.

(** ** Reading the replies *)

Section JsonShapes.
Import Json.

Lemma vse_bind {A B} (m : Outcome A) (k : A -> Outcome B) :
  value_or_shape_error m -> (forall a, value_or_shape_error (k a)) ->
  value_or_shape_error (bind m k).
Proof. destruct m; simpl; auto. Qed.

Lemma get_vse (j : json) (key : string) (default : json) :
  value_or_shape_error (get j key default).
Proof. destruct j; simpl; auto; now left. Qed.

Lemma getitem_vse (j : json) (key : string) : value_or_shape_error (getitem j key).
Proof.
  destruct j; simpl; try (now right; right).
  destruct (lookup (lit key) items); simpl; [exact I|]. right. now left.
Qed.

Lemma slice_to_vse (k : nat) (j : json) : value_or_shape_error (slice_to k j).
Proof. destruct j; simpl; auto; now right; right. Qed.

Lemma iter_vse (j : json) : value_or_shape_error (iter j).
Proof. destruct j; simpl; auto; now right; right. Qed.

Lemma hashable_vse (j : json) : value_or_shape_error (hashable j).
Proof. destruct j; simpl; auto; now right; right. Qed.

Lemma map_outcome_vse {A B} (f : A -> Outcome B) (xs : list A) :
  (forall x, value_or_shape_error (f x)) -> value_or_shape_error (map_outcome f xs).
Proof.
  intros Hf. induction xs as [|x xs IH]; simpl; [exact I|].
  apply vse_bind; [apply Hf|]. intros y. apply vse_bind; [exact IH|]. now intros ys.
Qed.

Lemma filter_outcome_vse {A} (f : A -> Outcome bool) (xs : list A) :
  (forall x, value_or_shape_error (f x)) -> value_or_shape_error (filter_outcome f xs).
Proof.
  intros Hf. induction xs as [|x xs IH]; simpl; [exact I|].
  apply vse_bind; [apply Hf|]. intros y. apply vse_bind; [exact IH|]. now intros ys.
Qed.

Lemma strs_from_vse (xs : list json) : forall i, value_or_shape_error (strs_from i xs).
Proof.
  induction xs as [|x xs IH]; intros i; simpl; [exact I|].
  destruct x; simpl; try (now right; right).
  apply vse_bind; [apply IH|]. now intros ys.
Qed.

Lemma join_json_vse (sep : string) (xs : list json) :
  value_or_shape_error (join_json sep xs).
Proof. unfold join_json. apply vse_bind; [apply strs_from_vse|]. now intros ss. Qed.

Lemma get_of_dict (items : list (pystr * json)) (key : string) (default : json) :
  exists v, get (JDict items) key default = Ok v.
Proof. simpl. now eexists. Qed.

Lemma getitem_dict (j v : json) (key : string) :
  getitem j key = Ok v -> exists items, j = JDict items.
Proof. destruct j; simpl; try discriminate. intros _. now eexists. Qed.

End JsonShapes.

(** ** The fetcher *)

Section Fetcher.
Import Json Requests.
Variable TMDB_KEY : string.
Variable http : Http.
Variable str_of : json -> string.

Lemma fetch_pages_calls (list_type : string) (pages : list Z) :
  forall n,
    (n <= snd (FetchTmdb.fetch_pages TMDB_KEY http list_type pages n)
     <= n + 3 * length pages)%nat.
Proof.
  induction pages as [|page pages IH]; intros n; cbn [FetchTmdb.fetch_pages].
  - simpl. lia.
  - unfold bindM, lift, ret.
    pose proof (tmdb_get_calls TMDB_KEY http ("/movie/" ++ list_type)
                  (Some [("page"%string, PInt page)]) n) as (Hcalls & _).
    destruct (FetchTmdb.tmdb_get _ _ _ _ n) as [[data|e|] n1]; cbn [fst snd] in *;
      cbn [length]; try lia.
    destruct (get data "results" (JList [])) as [results|e|]; cbn [snd]; try lia.
    destruct (iter results) as [items|e|]; cbn [snd]; try lia.
    specialize (IH n1).
    destruct (FetchTmdb.fetch_pages TMDB_KEY http list_type pages n1) as [[rest|e|] n2];
      cbn [fst snd] in *; lia.
Qed.

Lemma fetch_pages_good (list_type : string) (data : Z -> json)
      (results : Z -> list json) (pages : list Z) :
  (forall page i, In page pages ->
     http i (FetchTmdb.request_of TMDB_KEY ("/movie/" ++ list_type)
               (Some [("page"%string, PInt page)]))
     = HttpResponse 200 (Some (data page))) ->
  (forall page, In page pages ->
     get (data page) "results" (JList []) = Ok (JList (results page))) ->
  forall n,
    FetchTmdb.fetch_pages TMDB_KEY http list_type pages n
    = (Ok (concat (map results pages)), (n + length pages)%nat).
Proof.
  induction pages as [|page pages IH]; intros Hhttp Hdata n; cbn [FetchTmdb.fetch_pages].
  - simpl. unfold ret. f_equal. lia.
  - unfold bindM at 1.
    rewrite (tmdb_get_succeeds TMDB_KEY http _ _ n (data page))
      by (apply Hhttp; now left).
    unfold bindM at 1, lift at 1. rewrite (Hdata page) by now left.
    unfold bindM at 1, lift at 1. cbn [iter].
    unfold bindM at 1.
    rewrite IH; [|intros p i Hp; apply Hhttp; now right
                 |intros p Hp; apply Hdata; now right].
    unfold ret. cbn [map concat length]. f_equal. lia.
Qed.

Lemma page_numbers_length (pages : Z) :
  length (FetchTmdb.page_numbers pages) = Z.to_nat pages.
Proof. unfold FetchTmdb.page_numbers. now rewrite length_map, length_seq. Qed.

(** X20: [fetch_movies] makes at most three requests for each page.  When
    every page is answered at once with a dict whose [results] are a
    list, the movies are these lists one after the other, page 1 first,
    for one request each. *)
Theorem fetch_movies_joins_the_pages
  (pages : Z) (list_type : string) (data : Z -> json) (results : Z -> list json)
  (n : nat) :
  (n <= snd (FetchTmdb.fetch_movies TMDB_KEY http pages list_type n)
   <= n + 3 * Z.to_nat pages)%nat /\
  ((forall page i, (1 <= page <= pages)%Z ->
      http i (FetchTmdb.request_of TMDB_KEY ("/movie/" ++ list_type)
                (Some [("page"%string, PInt page)]))
      = HttpResponse 200 (Some (data page))) ->
   (forall page, (1 <= page <= pages)%Z ->
      get (data page) "results" (JList []) = Ok (JList (results page))) ->
   FetchTmdb.fetch_movies TMDB_KEY http pages list_type n
   = (Ok (concat (map results (FetchTmdb.page_numbers pages))), (n + Z.to_nat pages)%nat)).
Proof.
  unfold FetchTmdb.fetch_movies. split.
  - rewrite <- page_numbers_length. apply fetch_pages_calls.
  - intros Hhttp Hdata.
    assert (Hin : forall page, In page (FetchTmdb.page_numbers pages) -> (1 <= page <= pages)%Z).
    { intros page Hp. unfold FetchTmdb.page_numbers in Hp.
      apply in_map_iff in Hp as (i & <- & Hi). apply in_seq in Hi. lia. }
    rewrite <- page_numbers_length.
    apply (fetch_pages_good list_type data results).
    + intros page i Hp. apply Hhttp. now apply Hin.
    + intros page Hp. apply Hdata. now apply Hin.
Qed.

Ltac step_bind :=
  match goal with
  | |- context [bind ?m _] =>
      let Hm := fresh "Hm" in
      destruct m eqn:Hm; cbn [bind]; try discriminate
  end.

Lemma directs_or_writes_vse (c : json) : value_or_shape_error (FetchTmdb.directs_or_writes c).
Proof.
  unfold FetchTmdb.directs_or_writes. apply vse_bind; [apply get_vse|]. now intros job.
Qed.

Lemma director_of_vse (crew : list json) : value_or_shape_error (FetchTmdb.director_of crew).
Proof.
  induction crew as [|c crew IH]; simpl; [exact I|].
  apply vse_bind; [apply get_vse|]. intros job.
  destruct (is_str "Director" job); [apply getitem_vse|exact IH].
Qed.

Lemma enrichment_vse (detail credits : json) :
  value_or_shape_error (FetchTmdb.enrichment detail credits).
Proof.
  unfold FetchTmdb.enrichment.
  repeat (apply vse_bind;
          [first [apply get_vse|apply slice_to_vse|apply iter_vse
                 |apply map_outcome_vse; intros; apply getitem_vse
                 |apply filter_outcome_vse; apply directs_or_writes_vse
                 |apply director_of_vse|apply join_json_vse]
          |intros ?]).
  exact I.
Qed.

Lemma enrichment_shape (detail credits j : json) :
  FetchTmdb.enrichment detail credits = Ok j ->
  exists runtime genres cast director vote_average overview,
    j = JDict [(lit "runtime", runtime); (lit "genres", JStr genres);
               (lit "cast", JStr cast); (lit "director", director);
               (lit "vote_average", vote_average); (lit "overview", overview)].
Proof.
  unfold FetchTmdb.enrichment. repeat step_bind.
  intros [= <-]. now repeat eexists.
Qed.

Lemma enrich_movie_spec (movie_id : json) (n : nat) :
  (n < snd (FetchTmdb.enrich_movie TMDB_KEY http str_of movie_id n) <= n + 6)%nat /\
  value_or_shape_error (fst (FetchTmdb.enrich_movie TMDB_KEY http str_of movie_id n)) /\
  (forall j, fst (FetchTmdb.enrich_movie TMDB_KEY http str_of movie_id n) = Ok j ->
     j = JDict [] \/
     exists runtime genres cast director vote_average overview,
       j = JDict [(lit "runtime", runtime); (lit "genres", JStr genres);
                  (lit "cast", JStr cast); (lit "director", director);
                  (lit "vote_average", vote_average); (lit "overview", overview)]) /\
  ((forall i, (i < 3)%nat ->
      FetchTmdb.request_fails http (n + i)
        (FetchTmdb.request_of TMDB_KEY ("/movie/" ++ str_of movie_id) None)) ->
   FetchTmdb.enrich_movie TMDB_KEY http str_of movie_id n = (Ok (JDict []), (n + 3)%nat)).
Proof.
  unfold FetchTmdb.enrich_movie, try_exceptM, bindM, ret.
  pose proof (tmdb_get_calls TMDB_KEY http ("/movie/" ++ str_of movie_id) None n)
    as (Hc1 & Hs1 & _).
  assert (Hdown : (forall i, (i < 3)%nat ->
                     FetchTmdb.request_fails http (n + i)
                       (FetchTmdb.request_of TMDB_KEY ("/movie/" ++ str_of movie_id) None)) ->
                  FetchTmdb.tmdb_get TMDB_KEY http ("/movie/" ++ str_of movie_id) None n
                  = (raise RuntimeError
                       ("Failed to fetch data from " ++ ("/movie/" ++ str_of movie_id)),
                     (n + 3)%nat))
    by apply tmdb_get_fails.
  destruct (FetchTmdb.tmdb_get TMDB_KEY http ("/movie/" ++ str_of movie_id) None n)
    as [[detail|e|] n1]; cbn [fst snd] in *.
  - pose proof (tmdb_get_calls TMDB_KEY http ("/movie/" ++ str_of movie_id ++ "/credits")
                  None n1) as (Hc2 & Hs2 & _).
    destruct (FetchTmdb.tmdb_get TMDB_KEY http ("/movie/" ++ str_of movie_id ++ "/credits")
                None n1) as [[credits|e|] n2]; cbn [fst snd] in *.
    + split; [lia|]. split; [apply enrichment_vse|]. split.
      * intros j Hj. right. now apply enrichment_shape with detail credits.
      * intros Hfail. specialize (Hdown Hfail). discriminate.
    + split; [lia|]. split; [exact I|]. split.
      * intros j [= <-]. now left.
      * intros Hfail. specialize (Hdown Hfail). discriminate.
    + contradiction.
  - split; [lia|]. split; [exact I|]. split.
    + intros j [= <-]. now left.
    + intros Hfail. specialize (Hdown Hfail). now injection Hdown as _ <-.
  - contradiction.
Qed.

(** X21: [enrich_movie] makes between one and six requests.  It returns the
    empty dict, which it does whenever the requests for the details have
    failed, or a dict of exactly the six fields in which [genres] and
    [cast] are strings.  It never raises for a failed request: the only
    errors it lets through are the [AttributeError], [KeyError] and
    [TypeError] of a reply of an unexpected shape. *)
Theorem enrich_movie_outcomes (movie_id : json) (n : nat) :
  (n < snd (FetchTmdb.enrich_movie TMDB_KEY http str_of movie_id n) <= n + 6)%nat /\
  value_or_shape_error (fst (FetchTmdb.enrich_movie TMDB_KEY http str_of movie_id n)) /\
  (forall j, fst (FetchTmdb.enrich_movie TMDB_KEY http str_of movie_id n) = Ok j ->
     j = JDict [] \/
     exists runtime genres cast director vote_average overview,
       j = JDict [(lit "runtime", runtime); (lit "genres", JStr genres);
                  (lit "cast", JStr cast); (lit "director", director);
                  (lit "vote_average", vote_average); (lit "overview", overview)]) /\
  ((forall i, (i < 3)%nat ->
      FetchTmdb.request_fails http (n + i)
        (FetchTmdb.request_of TMDB_KEY ("/movie/" ++ str_of movie_id) None)) ->
   FetchTmdb.enrich_movie TMDB_KEY http str_of movie_id n = (Ok (JDict []), (n + 3)%nat)).
Proof. apply enrich_movie_spec. Qed.

Lemma record_of_spec (m : json) (n : nat) :
  (n <= snd (FetchTmdb.record_of TMDB_KEY http str_of m n) <= n + 6)%nat /\
  fst (FetchTmdb.record_of TMDB_KEY http str_of m n) <> Stop /\
  (forall record, fst (FetchTmdb.record_of TMDB_KEY http str_of m n) = Ok record ->
     FetchTmdb.record_for m record) /\
  (forall movie_id,
     getitem m "id" = Ok movie_id ->
     (forall i, (i < 3)%nat ->
        FetchTmdb.request_fails http (n + i)
          (FetchTmdb.request_of TMDB_KEY ("/movie/" ++ str_of movie_id) None)) ->
     exists title release_date popularity poster_path,
       get m "title" JNull = Ok title /\
       get m "release_date" JNull = Ok release_date /\
       get m "popularity" JNull = Ok popularity /\
       get m "poster_path" JNull = Ok poster_path /\
       FetchTmdb.record_of TMDB_KEY http str_of m n
       = (Ok (JDict [(lit "id", movie_id);
                     (lit "title", title);
                     (lit "release_date", release_date);
                     (lit "popularity", popularity);
                     (lit "poster_path", FetchTmdb.or_none poster_path);
                     (lit "vote_average", JNull);
                     (lit "runtime", JNull);
                     (lit "overview", JNull);
                     (lit "genres", JNull);
                     (lit "cast", JNull);
                     (lit "director", JNull)]),
          (n + 3)%nat)).
Proof.
  unfold FetchTmdb.record_of, bindM, lift.
  destruct (getitem m "id") as [movie_id|e|] eqn:Hid; cbn [fst snd].
  - destruct (getitem_dict m movie_id "id" Hid) as [items ->].
    destruct (enrich_movie_spec movie_id n) as (Hcalls & Hvse & Hshape & Hdown).
    destruct (FetchTmdb.enrich_movie TMDB_KEY http str_of movie_id n) as [[extra|e|] n1]
      eqn:Henrich; cbn [fst snd] in *; [|split; [lia|]; split; [discriminate|];
                                         split; [discriminate|]|contradiction].
    + assert (Hrecord : forall extra',
                 (extra' = JDict [] \/
                  exists runtime genres cast director vote_average overview,
                    extra' = JDict [(lit "runtime", runtime); (lit "genres", JStr genres);
                                    (lit "cast", JStr cast); (lit "director", director);
                                    (lit "vote_average", vote_average);
                                    (lit "overview", overview)]) ->
                 forall record,
                   (id <- Ok movie_id ;;
                    title <- get (JDict items) "title" JNull ;;
                    release_date <- get (JDict items) "release_date" JNull ;;
                    popularity <- get (JDict items) "popularity" JNull ;;
                    poster_path <- get (JDict items) "poster_path" JNull ;;
                    vote_average <- get extra' "vote_average" JNull ;;
                    runtime <- get extra' "runtime" JNull ;;
                    overview <- get extra' "overview" JNull ;;
                    genres <- get extra' "genres" JNull ;;
                    cast <- get extra' "cast" JNull ;;
                    director <- get extra' "director" JNull ;;
                    Ok (JDict [(lit "id", id);
                               (lit "title", title);
                               (lit "release_date", release_date);
                               (lit "popularity", popularity);
                               (lit "poster_path", FetchTmdb.or_none poster_path);
                               (lit "vote_average", vote_average);
                               (lit "runtime", runtime);
                               (lit "overview", overview);
                               (lit "genres", genres);
                               (lit "cast", cast);
                               (lit "director", director)])) = Ok record ->
                   FetchTmdb.record_for (JDict items) record).
      { intros extra' Hextra record. cbn [bind get].
        destruct Hextra as [->|(rt & g & c & d & va & ov & ->)]; cbn [bind get];
          intros [= <-]; eexists; (split; [reflexivity|]);
          (split; [reflexivity|]); rewrite Hid; repeat split; reflexivity. }
      split; [lia|]. split.
      * cbn [bind get].
        destruct (Hshape extra eq_refl) as [->|(rt & g & c & d & va & ov & ->)];
          cbn [bind get]; discriminate.
      * split; [intros record; apply Hrecord; now apply Hshape|].
        intros movie_id' [= <-] Hfail.
        specialize (Hdown Hfail). injection Hdown as -> <-.
        cbn [bind get]. now repeat eexists.
    + intros movie_id' [= <-] Hfail.
      specialize (Hdown Hfail). discriminate.
  - split; [lia|]. split; [discriminate|]. split; discriminate.
  - split; [lia|]. split; [|split; discriminate].
    destruct m; simpl in Hid; try discriminate.
    destruct (lookup (lit "id") items); discriminate.
Qed.

Lemma records_of_spec (movies : list json) :
  forall n records n',
    FetchTmdb.records_of TMDB_KEY http str_of movies n = (Ok records, n') ->
    (n <= n' <= n + 6 * length movies)%nat /\
    exists kept, subseq kept movies /\ Forall2 FetchTmdb.record_for kept records.
Proof.
  induction movies as [|m movies IH]; intros n records n'; cbn [FetchTmdb.records_of].
  - unfold ret. intros [= <- <-]. split; [simpl; lia|].
    exists []. split; constructor.
  - unfold bindM, try_exceptM, ret, lift.
    destruct (record_of_spec m n) as (Hcalls & Hstop & Hrecord & _).
    destruct (FetchTmdb.record_of TMDB_KEY http str_of m n) as [[record|e|] n1];
      cbn [fst snd] in *; [| |contradiction].
    + destruct (FetchTmdb.records_of TMDB_KEY http str_of movies n1) as [[rest|e|] n2]
        eqn:Hrest; try discriminate.
      intros [= <- <-].
      destruct (IH n1 rest n2 Hrest) as (Hn & kept & Hsub & Hall).
      split; [cbn [length]; lia|].
      exists (m :: kept). split; [now constructor|].
      constructor; [now apply Hrecord|exact Hall].
    + destruct (get m "title" JNull) as [title|e'|]; try discriminate.
      destruct (FetchTmdb.records_of TMDB_KEY http str_of movies n1) as [[rest|e'|] n2]
        eqn:Hrest; try discriminate.
      intros [= <- <-].
      destruct (IH n1 rest n2 Hrest) as (Hn & kept & Hsub & Hall).
      split; [cbn [length]; lia|].
      exists kept. split; [now constructor|exact Hall].
Qed.

(** X22: The records of a run that ends well: each record belongs to one
    of the fetched movies, and the records are in the order in which
    their movies were fetched; each record has the eleven fields, with
    the [id], [title], [release_date] and [popularity] of its movie.  The
    run makes at most three requests for the genre list, three for each
    page and six for each movie. *)
Theorem main_records_follow_the_movies
  (pages : Z) (list_type : string) (n n' : nat) (records : list json) :
  FetchTmdb.main TMDB_KEY http str_of pages list_type n = (Ok records, n') ->
  exists movies kept n1 n2,
    (n < n1 <= n + 3)%nat /\
    FetchTmdb.fetch_movies TMDB_KEY http pages list_type n1 = (Ok movies, n2) /\
    FetchTmdb.records_of TMDB_KEY http str_of movies n2 = (Ok records, n') /\
    subseq kept movies /\
    Forall2 FetchTmdb.record_for kept records /\
    (n' <= n + 3 + 3 * Z.to_nat pages + 6 * length movies)%nat.
Proof.
  unfold FetchTmdb.main, FetchTmdb.fetch_genres. unfold bindM at 1 2.
  pose proof (tmdb_get_calls TMDB_KEY http "/genre/movie/list" None n) as (Hc & _).
  destruct (FetchTmdb.tmdb_get TMDB_KEY http "/genre/movie/list" None n)
    as [[data|e|] n1]; cbn [fst snd] in *; try discriminate.
  unfold lift.
  destruct (genres <- get data "genres" (JList []) ;;
            gs <- iter genres ;; map_outcome FetchTmdb.genre_item gs)
    as [genres_map|e|]; try discriminate.
  unfold bindM.
  pose proof (fetch_pages_calls list_type (FetchTmdb.page_numbers pages) n1) as Hpages.
  rewrite page_numbers_length in Hpages.
  fold (FetchTmdb.fetch_movies TMDB_KEY http pages list_type n1) in Hpages.
  destruct (FetchTmdb.fetch_movies TMDB_KEY http pages list_type n1) as [[movies|e|] n2]
    eqn:Hmovies; cbn [fst snd] in *; try discriminate.
  intros Hrecords.
  destruct (records_of_spec movies n2 records n' Hrecords) as (Hn & kept & Hsub & Hall).
  exists movies, kept, n1, n2.
  repeat (split; [first [lia|assumption]|]). lia.
Qed.

(** X23: A movie whose detail requests all fail is recorded all the same: the
    record has the fields of the list entry, and [None] for the six
    fields of the enrichment, after three requests. *)
Theorem failed_enrichment_keeps_the_movie (m movie_id : json) (n : nat) :
  getitem m "id" = Ok movie_id ->
  (forall i, (i < 3)%nat ->
     FetchTmdb.request_fails http (n + i)
       (FetchTmdb.request_of TMDB_KEY ("/movie/" ++ str_of movie_id) None)) ->
  exists title release_date popularity poster_path,
    get m "title" JNull = Ok title /\
    get m "release_date" JNull = Ok release_date /\
    get m "popularity" JNull = Ok popularity /\
    get m "poster_path" JNull = Ok poster_path /\
    FetchTmdb.record_of TMDB_KEY http str_of m n
    = (Ok (JDict [(lit "id", movie_id);
                  (lit "title", title);
                  (lit "release_date", release_date);
                  (lit "popularity", popularity);
                  (lit "poster_path", FetchTmdb.or_none poster_path);
                  (lit "vote_average", JNull);
                  (lit "runtime", JNull);
                  (lit "overview", JNull);
                  (lit "genres", JNull);
                  (lit "cast", JNull);
                  (lit "director", JNull)]),
       (n + 3)%nat).
Proof. intros Hid Hfail. now apply record_of_spec. Qed.

(** X24: The run needs the genre list although it makes no use of it: when
    the three requests for the list fail, [main] raises [RuntimeError]
    after these three requests, before any movie is asked for. *)
Theorem main_needs_the_genre_list (pages : Z) (list_type : string) (n : nat) :
  (forall i, (i < 3)%nat ->
     FetchTmdb.request_fails http (n + i)
       (FetchTmdb.request_of TMDB_KEY "/genre/movie/list" None)) ->
  FetchTmdb.main TMDB_KEY http str_of pages list_type n
  = (raise RuntimeError "Failed to fetch data from /genre/movie/list", (n + 3)%nat).
Proof.
  intros Hfail. unfold FetchTmdb.main, FetchTmdb.fetch_genres. unfold bindM.
  now rewrite (tmdb_get_fails TMDB_KEY http "/genre/movie/list" None n Hfail).
Qed.

(** X25: The handler of the loop of [main] is not safe for an entry that is
    not a dict: the entry makes [m["id"]] raise, the handler then calls
    [m.get] for its message, and the [AttributeError] of that call ends
    the whole loop.  So when any of the fetched movies is not a dict, no
    record at all is returned. *)
Theorem non_dict_movie_ends_the_loop (movies : list json) (m : json) (n : nat) :
  In m movies ->
  (forall items, m <> JDict items) ->
  exists msg,
    fst (FetchTmdb.records_of TMDB_KEY http str_of movies n)
    = Raise (Exn AttributeError msg).
Proof.
  intros Hin Hm. revert n.
  induction movies as [|m' movies IH]; intros n; [contradiction|].
  cbn [FetchTmdb.records_of]. unfold bindM, try_exceptM, ret, lift.
  destruct (record_of_spec m' n) as (_ & Hstop & Hrecord & _).
  destruct (FetchTmdb.record_of TMDB_KEY http str_of m' n) as [[record|e|] n1]
    eqn:Hrec; cbn [fst] in *; [| |contradiction].
  - destruct Hin as [->|Hin].
    + destruct (Hrecord record eq_refl) as (items & _ & _ & Hid & _).
      destruct m; try (now destruct (Hm items0)); simpl in Hid;
        destruct (getitem record "id"); discriminate.
    + destruct (IH Hin n1) as [msg Hmsg].
      destruct (FetchTmdb.records_of TMDB_KEY http str_of movies n1) as [[rest|e|] n2];
        cbn [fst] in *; try discriminate.
      exists msg. exact Hmsg.
  - destruct m' as [| | | | | |items'];
      try (cbn [get fst]; now eexists).
    cbn [get].
    destruct Hin as [<-|Hin]; [now destruct (Hm items')|].
    destruct (IH Hin n1) as [msg Hmsg].
    destruct (FetchTmdb.records_of TMDB_KEY http str_of movies n1) as [[rest|e'|] n2];
      cbn [fst] in *; try discriminate.
    exists msg. exact Hmsg.
Qed.

End Fetcher.

(** The enrichment of a film from well-formed replies: the first five
    names of the cast and the first director. *)
Example enrichment_of_inception :
  FetchTmdb.enrichment TmdbSamples.detail_inception TmdbSamples.credits_inception
  = Ok (Json.JDict
          [(lit "runtime", Json.JInt 148);
           (lit "genres", Json.JStr (lit "Action, Science Fiction"));
           (lit "cast",
            Json.JStr (lit "Leonardo DiCaprio, Joseph Gordon-Levitt, Elliot Page, Tom Hardy, Ken Watanabe"));
           (lit "director", Json.JStr (lit "Christopher Nolan"));
           (lit "vote_average", Json.JReal (42 # 5));
           (lit "overview", Json.JStr (lit "A thief who steals secrets."))]).
Proof. vm_compute. reflexivity. Qed.

Lemma fetch_movies_joins_the_pages_witness :
  FetchTmdb.fetch_movies TmdbSamples.key TmdbSamples.http_lists 2 "popular" 0%nat
  = (Ok (concat (map (fun page => [TmdbSamples.movie page "A film"])
                     (FetchTmdb.page_numbers 2))),
     2%nat).
Proof.
  apply (fetch_movies_joins_the_pages TmdbSamples.key TmdbSamples.http_lists
           2 "popular" TmdbSamples.page_data
           (fun page => [TmdbSamples.movie page "A film"]) 0%nat).
  - intros page i _. reflexivity.
  - intros page _. reflexivity.
Defined.

Lemma enrich_movie_outcomes_witness :
  FetchTmdb.enrich_movie TmdbSamples.key TmdbSamples.http_lists TmdbSamples.str_of
    (Json.JInt 7) 0%nat
  = (Ok (Json.JDict []), 3%nat).
Proof.
  apply (enrich_movie_outcomes TmdbSamples.key TmdbSamples.http_lists
           TmdbSamples.str_of (Json.JInt 7) 0%nat).
  intros i _ j. vm_compute. discriminate.
Defined.

Lemma failed_enrichment_keeps_the_movie_witness :
  exists record,
    FetchTmdb.record_of TmdbSamples.key TmdbSamples.http_lists TmdbSamples.str_of
      (TmdbSamples.movie 7 "A film") 0%nat = (Ok record, 3%nat) /\
    Json.get record "title" Json.JNull = Ok (Json.JStr (lit "A film")) /\
    Json.get record "overview" Json.JNull = Ok Json.JNull.
Proof.
  destruct (failed_enrichment_keeps_the_movie TmdbSamples.key TmdbSamples.http_lists
              TmdbSamples.str_of (TmdbSamples.movie 7 "A film") (Json.JInt 7) 0%nat)
    as (title & release_date & popularity & poster_path & Ht & _ & _ & _ & Hrecord).
  - reflexivity.
  - intros i _ j. vm_compute. discriminate.
  - eexists. split; [exact Hrecord|].
    vm_compute in Ht. injection Ht as <-. split; reflexivity.
Defined.

Lemma main_needs_the_genre_list_witness :
  FetchTmdb.main TmdbSamples.key TmdbSamples.http_down TmdbSamples.str_of 5 "popular" 0%nat
  = (raise RuntimeError "Failed to fetch data from /genre/movie/list", 3%nat).
Proof.
  apply (main_needs_the_genre_list TmdbSamples.key TmdbSamples.http_down
           TmdbSamples.str_of 5 "popular" 0%nat).
  intros i _ j. discriminate.
Defined.

Lemma main_records_follow_the_movies_witness :
  exists records n',
    FetchTmdb.main TmdbSamples.key TmdbSamples.http_lists TmdbSamples.str_of 2 "popular" 0%nat
    = (Ok records, n') /\
    exists movies kept,
      subseq kept movies /\
      Forall2 FetchTmdb.record_for kept records /\
      (n' <= 9 + 6 * length movies)%nat.
Proof.
  destruct (FetchTmdb.main TmdbSamples.key TmdbSamples.http_lists TmdbSamples.str_of
              2 "popular" 0%nat) as [[records| |] n'] eqn:Hmain;
    try (vm_compute in Hmain; discriminate).
  exists records, n'. split; [reflexivity|].
  destruct (main_records_follow_the_movies TmdbSamples.key TmdbSamples.http_lists
              TmdbSamples.str_of 2 "popular" 0%nat n' records Hmain)
    as (movies & kept & n1 & n2 & _ & _ & _ & Hsub & Hall & Hn).
  exists movies, kept. split; [exact Hsub|]. split; [exact Hall|].
  simpl in Hn. lia.
Defined.

(** The sample run records both movies, after nine requests. *)
Example main_sample_run :
  match FetchTmdb.main TmdbSamples.key TmdbSamples.http_lists TmdbSamples.str_of
          2 "popular" 0%nat with
  | (Ok records, n') => (length records, n')
  | _ => (0%nat, 0%nat)
  end = (2%nat, 9%nat).
Proof. vm_compute. reflexivity. Qed.

(** ** From the embeddings table to recommendations *)

Section BuildAndRecommend.
Context {F : Type} `{Float32 F}.

Lemma np_vstack_iff (rows : list (Lib.vec F)) :
  (exists X, Lib.np_vstack rows = Ok X) <->
  rows <> [] /\
  (forall r1 r2, In r1 rows -> In r2 rows -> length r1 = length r2).
Proof.
  split.
  - intros [X HX]. pose proof (np_vstack_same_length rows X HX) as Hsame.
    apply np_vstack_ok in HX as [_ Hne]. split; [exact Hne|].
    rewrite Forall_forall in Hsame. intros r1 r2 H1 H2.
    now rewrite (Hsame r1 H1), (Hsame r2 H2).
  - intros [Hne Hsame]. destruct rows as [|r rest]; [contradiction|].
    unfold Lib.np_vstack.
    replace (forallb (fun r' => length r' =? length r)%nat rest) with true;
      [now eexists|].
    symmetry. apply forallb_forall. intros x Hx. apply Nat.eqb_eq.
    apply Hsame; [now right|now left].
Qed.

Lemma np_vstack_value_error (rows : list (Lib.vec F)) :
  (exists X, Lib.np_vstack rows = Ok X) \/
  (exists msg, Lib.np_vstack rows = Raise (Exn ValueError msg)).
Proof.
  unfold Lib.np_vstack. destruct rows as [|r rest]; [right; now eexists|].
  destruct (forallb (fun r' => length r' =? length r)%nat rest); [left|right];
    now eexists.
Qed.

(** X26: A build from an embeddings table succeeds exactly when the table has
    at least one row and all its vectors have the same length; in every
    other case it raises [ValueError] and leaves the files as they
    were. *)
Theorem build_succeeds_exactly_when_rectangular
  (st : Data.Store F) (embeddings_path index_path : string)
  (df : list (Data.EmbRow F)) :
  st embeddings_path = Some (Data.Parquet (Data.TEmbeddings df)) ->
  (fst (VectorIndex.build_faiss_index st embeddings_path index_path) = Ok tt
   <-> df <> [] /\
       (forall r1 r2, In r1 df -> In r2 df ->
          length (Data.embedding r1) = length (Data.embedding r2))) /\
  (fst (VectorIndex.build_faiss_index st embeddings_path index_path) <> Ok tt ->
   exists msg,
     VectorIndex.build_faiss_index st embeddings_path index_path
     = (Raise (Exn ValueError msg), st)).
Proof.
  intros Hst. unfold VectorIndex.build_faiss_index. rewrite Hst.
  cbn [VectorIndex.read_embeddings bind].
  pose proof (np_vstack_iff (map (@Data.embedding F) df)) as Hiff.
  assert (Hrows : map (@Data.embedding F) df <> [] /\
                  (forall r1 r2, In r1 (map (@Data.embedding F) df) ->
                                 In r2 (map (@Data.embedding F) df) ->
                                 length r1 = length r2)
                  <-> df <> [] /\
                      (forall r1 r2, In r1 df -> In r2 df ->
                         length (Data.embedding r1) = length (Data.embedding r2))).
  { split; intros [Hne Hsame]; (split; [now destruct df|]).
    - intros r1 r2 H1 H2. apply Hsame; now apply in_map.
    - intros v1 v2 H1 H2. apply in_map_iff in H1 as (r1 & <- & H1).
      apply in_map_iff in H2 as (r2 & <- & H2). now apply Hsame. }
  rewrite <- Hrows, <- Hiff.
  destruct (np_vstack_value_error (map (@Data.embedding F) df)) as [[X HX]|[msg HX]];
    rewrite HX; cbn [bind fst].
  - split; [split; [now eexists|reflexivity]|]. intros Hne. now destruct Hne.
  - split; [split; [discriminate|intros [X' HX']; discriminate]|].
    intros _. now exists msg.
Qed.

(** X27: A default build followed by a query: when the vector of the query
    has the length of the vectors of the embeddings table and [k] is
    positive, [recommend_by_text] on the files the build leaves returns
    exactly [k] rows, each one made from the metadata of a row of the
    embeddings table; it does not raise. *)
Theorem build_then_recommend
  (st st' : Data.Store F) (embeddings_path : string) (svc : Genai.Service F)
  (query : pystr) (k : Z) (q : Lib.vec F) (df : list (Data.EmbRow F)) :
  st embeddings_path = Some (Data.Parquet (Data.TEmbeddings df)) ->
  VectorIndex.build_faiss_index st embeddings_path VectorIndex.default_index_path
  = (Ok tt, st') ->
  fst (Recommend.embed_query svc 0 query Recommend.default_model) = Some q ->
  (forall r, In r df -> length (Data.embedding r) = length q) ->
  (0 < k)%Z ->
  exists res,
    Recommend.recommend_by_text st' svc query k = Ok (Some res) /\
    length res = Z.to_nat k /\
    Forall (fun r => exists e, In e df /\
                       r = Recommend.pick (Data.metadata (Data.features e),
                                           Recommend.r_similarity r)) res.
Proof.
  intros Hst Hbuild Hq Hlen Hk.
  revert Hbuild. unfold VectorIndex.build_faiss_index. rewrite Hst.
  cbn [VectorIndex.read_embeddings bind].
  destruct (Lib.np_vstack (map (@Data.embedding F) df)) as [X| |] eqn:HX;
    cbn [bind]; try discriminate.
  intros [= <-]. apply np_vstack_ok in HX as [-> Hne].
  set (ix := Lib.add (Lib.new_index (Lib.shape1 (Lib.normalize_L2 (map (@Data.embedding F) df))))
                     (Lib.normalize_L2 (map (@Data.embedding F) df))).
  set (mapping := map (fun r => Data.metadata (Data.features r)) df).
  set (st' := Data.write (Data.write st VectorIndex.default_index_path (Data.FaissIndex ix))
                (VectorIndex.map_path_of VectorIndex.default_index_path)
                (Data.Parquet (Data.TMapping mapping))).
  assert (Hload : Recommend.load_index st' = Ok (ix, mapping)).
  { unfold Recommend.load_index, st'.
    rewrite write_other by (vm_compute; discriminate).
    change Recommend.INDEX_PATH with VectorIndex.default_index_path.
    rewrite write_same.
    change Recommend.MAP_PATH with (VectorIndex.map_path_of VectorIndex.default_index_path).
    rewrite write_same. reflexivity. }
  assert (Hd : Lib.d ix = length q).
  { unfold ix. cbn [Lib.add Lib.new_index Lib.d].
    destruct df as [|r df']; [contradiction|]. simpl.
    rewrite renorm_length. apply Hlen. now left. }
  assert (Hn : length mapping = Lib.ntotal ix).
  { unfold mapping, ix, Lib.ntotal, Lib.normalize_L2. simpl. now rewrite !length_map. }
  rewrite (recommend_by_text_steps st' svc query k ix mapping q Hload Hq).
  unfold Lib.search. rewrite renorm_length, Hd, Nat.eqb_refl. cbn [negb].
  apply Z.ltb_lt in Hk. rewrite Hk. cbn [negb bind fst snd].
  set (hits := Lib.knn ix (Lib.renorm q) (Z.to_nat k)).
  destruct (iloc_in_range mapping (map snd hits)) as [rs Hrs].
  { apply Forall_forall. intros l Hin. apply in_map_iff in Hin as (h & <- & Hh).
    pose proof (knn_labels ix (Lib.renorm q) (Z.to_nat k)) as Hlab.
    rewrite Forall_forall in Hlab. specialize (Hlab h Hh).
    assert (0 < length mapping)%nat
      by (unfold mapping; rewrite length_map; destruct df; [contradiction|simpl; lia]).
    rewrite Hn in *. destruct Hlab as [Hm|Hr]; lia. }
  rewrite Hrs. cbn [bind]. eexists. split; [reflexivity|].
  destruct (iloc_ok mapping (map snd hits) rs Hrs) as (Hlenrs & Hin & _).
  rewrite length_map in Hlenrs.
  split.
  - rewrite length_map, length_combine, length_map, Hlenrs.
    pose proof (knn_length ix (Lib.renorm q) (Z.to_nat k)) as Hk'.
    fold hits in Hk'. unfold Lib.hit in *. lia.
  - apply Forall_forall. intros r Hr.
    apply in_map_iff in Hr as ([m s] & <- & Hms).
    apply in_combine_l in Hms. rewrite Forall_forall in Hin.
    specialize (Hin m Hms). unfold mapping in Hin.
    apply in_map_iff in Hin as (e & <- & He).
    exists e. split; [exact He|reflexivity].
Qed.

End BuildAndRecommend.

Lemma build_succeeds_exactly_when_rectangular_witness :
  fst (VectorIndex.build_faiss_index (Examples.with_embeddings Examples.emb_table)
         VectorIndex.default_embeddings_path VectorIndex.default_index_path)
  = Ok tt /\
  exists msg,
    VectorIndex.build_faiss_index (Examples.with_embeddings Examples.emb_table_ragged)
      VectorIndex.default_embeddings_path VectorIndex.default_index_path
    = (Raise (Exn ValueError msg), Examples.with_embeddings Examples.emb_table_ragged).
Proof.
  split.
  - apply (build_succeeds_exactly_when_rectangular
             (Examples.with_embeddings Examples.emb_table)
             VectorIndex.default_embeddings_path VectorIndex.default_index_path
             Examples.emb_table eq_refl).
    split; [discriminate|].
    intros r1 r2 [<-|[<-|[]]] [<-|[<-|[]]]; reflexivity.
  - apply (build_succeeds_exactly_when_rectangular
             (Examples.with_embeddings Examples.emb_table_ragged)
             VectorIndex.default_embeddings_path VectorIndex.default_index_path
             Examples.emb_table_ragged eq_refl).
    vm_compute. discriminate.
Defined.

Lemma build_then_recommend_witness :
  exists res,
    Recommend.recommend_by_text (Examples.built Examples.emb_table)
      (Examples.svc_dict [1; 0]) (lit "alpha") 4 = Ok (Some res) /\
    length res = 4%nat.
Proof.
  destruct (build_then_recommend (Examples.with_embeddings Examples.emb_table)
              (Examples.built Examples.emb_table)
              VectorIndex.default_embeddings_path (Examples.svc_dict [1; 0])
              (lit "alpha") 4 [1; 0] Examples.emb_table)
    as (res & Hres & Hlen & _).
  - reflexivity.
  - vm_compute. reflexivity.
  - reflexivity.
  - intros r [<-|[<-|[]]]; reflexivity.
  - lia.
  - exists res. split; [exact Hres|exact Hlen].
Defined.

Lemma non_dict_movie_ends_the_loop_witness :
  exists msg,
    fst (FetchTmdb.records_of TmdbSamples.key TmdbSamples.http_lists TmdbSamples.str_of
           [TmdbSamples.movie 1 "A film"; Json.JStr (lit "results")] 0%nat)
    = Raise (Exn AttributeError msg).
Proof.
  apply (non_dict_movie_ends_the_loop TmdbSamples.key TmdbSamples.http_lists
           TmdbSamples.str_of _ (Json.JStr (lit "results")) 0%nat).
  - right. left. reflexivity.
  - discriminate.
Defined.
